(** * IntegraMind retrieval core: a shallow embedding of the Python sources

    The development follows the source files under [chat_ai/]:
    - [knowledge_graph.py]  the typed graph with edge merging and path search,
    - [enhanced_memory.py]  the two-tier conversational memory,
    - [embeddings.py]       the embedding backend with its TF-IDF fallback,
    - [vector_store.py]     the in-memory and FAISS vector stores,
    - [brain.py]            the retrieval cache of [Brain.retrieve].

    Conventions.  Python [float] is IEEE binary64, modelled by Rocq's primitive
    floats; Python [int] is [Z]; [str] is [string], read as a sequence of code
    points below 256; a [dict] whose iteration order is observable is an
    insertion-ordered association list, one whose order is not observable is a
    [gmap]; [set] is [gset].  Methods that mutate [self] return the new object;
    what they log, write to SQLite or ask of a collaborator is returned as a
    trace of effects next to it.  SQLite statements are taken to succeed,
    except that binding an integer outside 64 bits raises, and to store the
    values bound to them, except that a REAL column keeps a NaN as NULL and
    -0.0 as 0.0; a collaborator that may raise (the embedder, the summarizer,
    an optional package) answers with an [option] or a sum, and a method that
    raises after it changed its object returns the object with the exception.  Objects are modelled by value: an edge stored by [add_edge] is
    changed only by [add_edge] itself, where it sits in the list.
    Part I holds the definitions, Part II the theorems. *)

From Stdlib Require Import Floats ZArith String Ascii List Bool Lia Permutation Sorted.
From stdpp Require Import gmap strings list pretty.
Import ListNotations.

Set Warnings "-inexact-float".

(* ===================================================================== *)
(** * Part I: definitions                                                 *)
(* ===================================================================== *)

(** ** Python built-ins used by the sources *)

Module py.

(** Values found in the loosely typed metadata dictionaries. *)
Inductive Value : Type :=
| VNone
| VBool (b : bool)
| VInt (z : Z)
| VStr (s : string).

(** Truth value of an object in a condition ([if x:]). *)
Definition truthy (v : Value) : bool :=
  match v with
  | VNone => false
  | VBool b => b
  | VInt z => negb (z =? 0)%Z
  | VStr s => negb (String.eqb s "")
  end.

(** [d.get(k)] followed by a truth test, on a [dict] that may be [None]. *)
Definition get_truthy (k : string) (d : gmap string Value) : bool :=
  match d !! k with
  | Some v => truthy v
  | None => false
  end.

(** [str.lower()] on code points below 256: A-Z and the Latin-1 capitals
    (U+00C0..U+00DE without the multiplication sign) move up by 32. *)
Definition lower_char (c : ascii) : ascii :=
  let n := nat_of_ascii c in
  if ((65 <=? n) && (n <=? 90)) || ((192 <=? n) && (n <=? 222) && negb (n =? 215))
  then ascii_of_nat (n + 32)
  else c.

Fixpoint lower (s : string) : string :=
  match s with
  | EmptyString => EmptyString
  | String c r => String (lower_char c) (lower r)
  end.

(** [needle in hay] for strings: [needle] is a prefix of some suffix. *)
Fixpoint str_in (needle hay : string) : bool :=
  String.prefix needle hay ||
  match hay with
  | EmptyString => false
  | String _ r => str_in needle r
  end.

(** [str.isspace] per character, for code points below 256. *)
Definition isspace (c : ascii) : bool :=
  let n := nat_of_ascii c in
  ((9 <=? n) && (n <=? 13)) || ((28 <=? n) && (n <=? 32)) || (n =? 133) || (n =? 160).

Fixpoint lstrip (s : string) : string :=
  match s with
  | EmptyString => EmptyString
  | String c r => if isspace c then lstrip r else s
  end.

(** [rstrip]: a character is kept when it is not a space or when something
    is kept after it. *)
Fixpoint rstrip (s : string) : string :=
  match s with
  | EmptyString => EmptyString
  | String c r =>
      match rstrip r with
      | EmptyString => if isspace c then EmptyString else String c EmptyString
      | r' => String c r'
      end
  end.

Definition strip (s : string) : string := rstrip (lstrip s).

(** [not s] for a string. *)
Definition str_falsy (s : string) : bool :=
  match s with
  | EmptyString => true
  | String _ _ => false
  end.

(** [min(a, b)] and [max(a, b)] on floats: the first argument is returned
    unless the second is strictly smaller (resp. larger). *)
Definition min (a b : float) : float := if PrimFloat.ltb b a then b else a.
Definition max (a b : float) : float := if PrimFloat.ltb a b then b else a.

(** [float(n)] for a length. *)
Definition float_of_nat (n : nat) : float :=
  PrimFloat.of_uint63 (Uint63.of_Z (Z.of_nat n)).

(** [xs[:n]] for an integer [n], negative [n] counting from the end. *)
Definition slice_to {A} (n : Z) (xs : list A) : list A :=
  if (0 <=? n)%Z then firstn (Z.to_nat n) xs
  else firstn (length xs - Z.to_nat (- n)) xs.

(** [list(set(xs))]: the distinct elements, in an order the language does
    not fix. *)
Definition list_set (xs : list string) : list string :=
  elements (list_to_set xs : gset string).

(** An insertion-ordered [dict] with string keys. *)
Definition dict (V : Type) : Type := list (string * V).

Fixpoint dict_get {V} (k : string) (d : dict V) : option V :=
  match d with
  | [] => None
  | (k', v) :: r => if String.eqb k' k then Some v else dict_get k r
  end.

(** [k in d] *)
Definition dict_contains {V} (k : string) (d : dict V) : bool :=
  match dict_get k d with
  | Some _ => true
  | None => false
  end.

(** [d[k] = v]: an existing key keeps its position, a new one goes last. *)
Fixpoint dict_set {V} (k : string) (v : V) (d : dict V) : dict V :=
  match d with
  | [] => [(k, v)]
  | (k', v') :: r =>
      if String.eqb k' k then (k', v) :: r else (k', v') :: dict_set k v r
  end.

Definition dict_values {V} (d : dict V) : list V := map snd d.

Definition dict_keys {V} (d : dict V) : list string := map fst d.

(** [d.pop(next(iter(d)))] on a non-empty dict: the oldest key goes. *)
Definition dict_pop_first {V} (d : dict V) : dict V := tl d.

(** A bound of a slice, for a sequence of length [len]: a negative bound
    counts from the end, and the result is clamped to [0, len]. *)
Definition slice_bound (len : nat) (i : Z) : nat :=
  let i := if (i <? 0)%Z then (i + Z.of_nat len)%Z else i in
  if (i <? 0)%Z then 0 else Nat.min (Z.to_nat i) len.

(** [xs[start:stop]] *)
Definition list_slice {A} (xs : list A) (start stop : Z) : list A :=
  let a := slice_bound (length xs) start in
  let b := slice_bound (length xs) stop in
  firstn (b - a) (skipn a xs).

(** [xs[start:]] *)
Definition list_from {A} (xs : list A) (start : Z) : list A :=
  skipn (slice_bound (length xs) start) xs.

(** [s[start:stop]] for a string. *)
Definition str_slice (s : string) (start stop : Z) : string :=
  string_of_list_ascii (list_slice (list_ascii_of_string s) start stop).

(** [len(s)] as an integer. *)
Definition len (s : string) : Z := Z.of_nat (String.length s).

(** ["".join(parts)] *)
Definition concat (parts : list string) : string :=
  fold_right String.append EmptyString parts.

(** [d[k] += 1] on a [defaultdict(int)]: a missing key starts from 0. *)
Definition dict_count {K : Type} (key : K -> string) (d : dict Z) (x : K) : dict Z :=
  dict_set (key x) (default 0%Z (dict_get (key x) d) + 1)%Z d.

(** The last [n] elements of a list. *)
Definition last_n {A} (n : nat) (xs : list A) : list A :=
  skipn (length xs - n) xs.

End py.

(* --------------------------------------------------------------------- *)
(** ** knowledge_graph.py *)

Module knowledge_graph.

Record KnowledgeNode : Type := mkNode {
  id : string;
  type : string;          (* 'problem', 'tool', 'action', 'result', 'concept' *)
  label : string;
  description : string;
  metadata : gmap string py.Value
}.

Record KnowledgeEdge : Type := mkEdge {
  source : string;
  target : string;
  relation_type : string; (* 'requires', 'produces', 'uses', 'solves', 'enables' *)
  weight : float;
  evidence : list string
}.

(** The in-memory part of the object: [self.nodes] and [self.edges]. *)
Record KnowledgeGraph : Type := mkGraph {
  nodes : py.dict KnowledgeNode;
  edges : list KnowledgeEdge
}.

(** What a call does besides changing [self]: log lines and SQLite writes. *)
Inductive Effect : Type :=
| LogWarning (msg : string)
| SaveNodeToDb (n : KnowledgeNode)       (* INSERT OR REPLACE INTO nodes *)
| SaveEdgeToDb (e : KnowledgeEdge)       (* INSERT INTO edges *)
| UpdateEdgeInDb (e : KnowledgeEdge).    (* UPDATE edges SET weight, evidence *)

Definition empty_graph : KnowledgeGraph := mkGraph [] [].

Definition add_node (g : KnowledgeGraph) (node : KnowledgeNode)
  : KnowledgeGraph * list Effect :=
  (mkGraph (py.dict_set (id node) node (nodes g)) (edges g), [SaveNodeToDb node]).

(** The test of the generator in [add_edge]: same source, target, relation. *)
Definition same_key (edge e : KnowledgeEdge) : bool :=
  String.eqb (source e) (source edge) &&
  String.eqb (target e) (target edge) &&
  String.eqb (relation_type e) (relation_type edge).

(** [existing.weight = ...; existing.evidence = ...] on the first stored edge
    that matches: the object is changed where it sits in [self.edges]. *)
Definition strengthen (edge existing : KnowledgeEdge) : KnowledgeEdge :=
  mkEdge (source existing) (target existing) (relation_type existing)
         (weight edge)
         (py.list_set (evidence existing ++ evidence edge)).

Fixpoint update_first (edge : KnowledgeEdge) (es : list KnowledgeEdge)
  : list KnowledgeEdge :=
  match es with
  | [] => []
  | e :: r =>
      if same_key edge e then strengthen edge e :: r
      else e :: update_first edge r
  end.

Definition add_edge (g : KnowledgeGraph) (edge : KnowledgeEdge)
  : KnowledgeGraph * list Effect :=
  if negb (py.dict_contains (source edge) (nodes g)) then
    (g, [LogWarning ("Source node " ++ source edge ++ " not found, skipping edge")%string])
  else if negb (py.dict_contains (target edge) (nodes g)) then
    (g, [LogWarning ("Target node " ++ target edge ++ " not found, skipping edge")%string])
  else
    match List.find (same_key edge) (edges g) with
    | Some existing =>
        if PrimFloat.ltb (weight existing) (weight edge) then
          (mkGraph (nodes g) (update_first edge (edges g)),
           [UpdateEdgeInDb (strengthen edge existing)])
        else (g, [])
    | None =>
        (mkGraph (nodes g) (edges g ++ [edge]), [SaveEdgeToDb edge])
    end.

(** [node_type] and [relation_type] filters are skipped when the argument is
    [None] or the empty string. *)
Definition filter_set (o : option string) : bool :=
  match o with
  | Some s => negb (py.str_falsy s)
  | None => false
  end.

Definition text_matches (query_lower : string) (node : KnowledgeNode) : bool :=
  py.str_in query_lower (py.lower (label node)) ||
  py.str_in query_lower (py.lower (description node)).

Definition find_nodes (g : KnowledgeGraph) (query : string)
  (node_type : option string) (limit : Z) : list KnowledgeNode :=
  let query_lower := py.lower query in
  py.slice_to limit
    (List.filter
       (fun node =>
          negb (filter_set node_type &&
                negb (String.eqb (type node) (default "" node_type))) &&
          text_matches query_lower node)
       (py.dict_values (nodes g))).

Definition get_related_nodes (g : KnowledgeGraph) (node_id : string)
  (relation : option string) (direction : string)
  : list (KnowledgeNode * KnowledgeEdge) :=
  if negb (py.dict_contains node_id (nodes g)) then []
  else
    flat_map
      (fun edge =>
         if filter_set relation &&
            negb (String.eqb (relation_type edge) (default "" relation))
         then []
         else
           (if (String.eqb direction "out" || String.eqb direction "both") &&
               String.eqb (source edge) node_id
            then match py.dict_get (target edge) (nodes g) with
                 | Some target_node => [(target_node, edge)]
                 | None => []
                 end
            else []) ++
           (if (String.eqb direction "in" || String.eqb direction "both") &&
               String.eqb (target edge) node_id
            then match py.dict_get (source edge) (nodes g) with
                 | Some source_node => [(source_node, edge)]
                 | None => []
                 end
            else []))
      (edges g).

(** A path entry [(relation, node_id, node_type)]. *)
Definition PathItem : Type := string * string * string.

Definition item_type (it : PathItem) : string := snd it.

Definition _calculate_path_score (path : list PathItem) : float :=
  match path with
  | [] => 0.0%float
  | _ =>
      let score := 1.0%float in
      let types_seen : gset string := list_to_set (map item_type path) in
      let score := (score + py.float_of_nat (size types_seen) * 0.2)%float in
      let score :=
        if 5 <? length path
        then (score - py.float_of_nat (length path - 5) * 0.1)%float
        else score in
      let score :=
        if String.eqb (item_type (List.last path ("", "", "")%string)) "result"
        then (score + 0.5)%float
        else score in
      py.max 0.0%float score
  end.

(** An entry of the local list [paths]. *)
Record PathData : Type := mkPathData {
  pd_path : list PathItem;
  pd_sequence : list string;
  pd_score : float
}.

Definition EdgeKey : Type := string * string * string.

Definition edge_key_eqb (a b : EdgeKey) : bool :=
  String.eqb (fst (fst a)) (fst (fst b)) &&
  String.eqb (snd (fst a)) (snd (fst b)) &&
  String.eqb (snd a) (snd b).

Definition is_priority (t : KnowledgeNode) : bool :=
  String.eqb (type t) "action" || String.eqb (type t) "tool".

(** The nested function [dfs].  [remaining] is [max_depth - depth + 1], so
    [remaining = 0] is the test [depth > max_depth]; [visited_edges] holds the
    keys added and not yet removed, those of the current branch.  The result
    is what the call appends to [paths], in order. *)
Fixpoint dfs (g : KnowledgeGraph) (remaining : nat) (visited_edges : list EdgeKey)
  (node_id : string) (path : list PathItem) (current_sequence : list string)
  : list PathData :=
  match remaining with
  | O => []
  | S remaining' =>
      match py.dict_get node_id (nodes g) with
      | None => []
      | Some node =>
          if String.eqb (type node) "result" then
            if 2 <=? length path
            then [mkPathData path current_sequence (_calculate_path_score path)]
            else []
          else
            let related := get_related_nodes g node_id None "out" in
            let fresh :=
              List.filter
                (fun te : KnowledgeNode * KnowledgeEdge =>
                   negb (existsb
                           (edge_key_eqb (node_id, id (fst te), relation_type (snd te)))
                           visited_edges))
                related in
            let prioritized := List.filter (fun te => is_priority (fst te)) fresh in
            let regular := List.filter (fun te => negb (is_priority (fst te))) fresh in
            flat_map
              (fun te : KnowledgeNode * KnowledgeEdge =>
                 let target_node := fst te in
                 let edge := snd te in
                 dfs g remaining'
                     ((node_id, id target_node, relation_type edge) :: visited_edges)
                     (id target_node)
                     (path ++ [(relation_type edge, id target_node, type target_node)])
                     (current_sequence ++ [label target_node]))
              (prioritized ++ regular)
      end
  end.

(** [paths.sort(key=score, reverse=True)]: stable, best first. *)
Fixpoint insert_by_score (x : PathData) (l : list PathData) : list PathData :=
  match l with
  | [] => [x]
  | y :: r =>
      if PrimFloat.ltb (pd_score x) (pd_score y)
      then y :: insert_by_score x r
      else x :: l
  end.

Definition sort_by_score (l : list PathData) : list PathData :=
  fold_right insert_by_score [] l.

(** One step of a returned path. *)
Record Step : Type := mkStep {
  step : Z;
  node : KnowledgeNode;    (* node.to_dict() *)
  relation : string;
  step_type : string       (* key "type" *)
}.

(** One returned path. *)
Record SolutionPath : Type := mkSolutionPath {
  path : list Step;
  length : Z;
  score : float;
  sequence : list string
}.

Fixpoint format_steps (g : KnowledgeGraph) (i : Z) (items : list PathItem)
  : list Step :=
  match items with
  | [] => []
  | (relation, node_id, node_type) :: r =>
      match py.dict_get node_id (nodes g) with
      | Some node =>
          [mkStep (i + 1) node (if (0 <? i)%Z then relation else "start") node_type]
      | None => []
      end ++ format_steps g (i + 1) r
  end.

Definition format_path (g : KnowledgeGraph) (path_data : PathData)
  : list SolutionPath :=
  let steps := format_steps g 0 (pd_path path_data) in
  match steps with
  | [] => []
  | _ => [mkSolutionPath steps (Z.of_nat (List.length steps))
                         (pd_score path_data) (pd_sequence path_data)]
  end.

Definition find_solution_path (g : KnowledgeGraph) (problem : string)
  (max_depth : Z) : list SolutionPath :=
  let problem_nodes := find_nodes g problem (Some "problem") 10 in
  let problem_nodes :=
    match problem_nodes with
    | [] =>
        let all_problems := find_nodes g "" (Some "problem") 10 in
        List.filter (text_matches (py.lower problem)) all_problems
    | _ => problem_nodes
    end in
  match problem_nodes with
  | [] => []
  | _ =>
      let paths :=
        flat_map
          (fun problem_node =>
             dfs g (Z.to_nat (max_depth + 1)) [] (id problem_node)
                 [("start", id problem_node, "problem")%string]
                 [label problem_node])
          problem_nodes in
      flat_map (format_path g) (firstn 5 (sort_by_score paths))
  end.

(** The identity of an edge: the triple [add_edge] compares. *)
Definition edge_key (e : KnowledgeEdge) : string * string * string :=
  (source e, target e, relation_type e).

(** Both endpoints of a stored edge are keys of [nodes]. *)
Definition endpoints_known (nodes : py.dict KnowledgeNode) (e : KnowledgeEdge) : Prop :=
  py.dict_contains (source e) nodes = true /\ py.dict_contains (target e) nodes = true.

(** The public mutators, for statements over call sequences. *)
Inductive Call : Type :=
| AddNode (node : KnowledgeNode)
| AddEdge (edge : KnowledgeEdge).

Definition call (g : KnowledgeGraph) (c : Call) : KnowledgeGraph :=
  match c with
  | AddNode node => fst (add_node g node)
  | AddEdge edge => fst (add_edge g edge)
  end.

Definition run (calls : list Call) : KnowledgeGraph :=
  fold_left call calls empty_graph.


(** Entries are filed under the id of their node. *)
Definition filed_by_id (d : py.dict KnowledgeNode) : Prop :=
  List.Forall (fun kv => fst kv = id (snd kv)) d.

(** The parts of a path entry [(relation, node_id, node_type)]. *)
Definition item_relation (it : PathItem) : string := fst (fst it).
Definition item_node (it : PathItem) : string := snd (fst it).

(** Consecutive elements of a list are related by [R]. *)
Fixpoint chained {A} (R : A -> A -> Prop) (l : list A) : Prop :=
  match l with
  | a :: rest =>
      match rest with
      | b :: _ => R a b /\ chained R rest
      | [] => True
      end
  | [] => True
  end.

(** A stored edge leads from node [a] to node [b] under [relation]. *)
Definition edge_between (g : KnowledgeGraph) (a b relation : string) : Prop :=
  exists e, List.In e (edges g) /\ source e = a /\ target e = b /\
            relation_type e = relation.

(** A step follows another along a stored edge that carries its relation. *)
Definition step_follows (g : KnowledgeGraph) (s1 s2 : Step) : Prop :=
  edge_between g (id (node s1)) (id (node s2)) (relation s2).

(** A step shows a stored node and that node's type. *)
Definition step_shows_node (g : KnowledgeGraph) (s : Step) : Prop :=
  py.dict_get (id (node s)) (nodes g) = Some (node s) /\
  step_type s = type (node s).

(** A returned path leads from a problem that matches the query to a result
    along stored edges, its steps numbered from 1. *)
Definition solves (g : KnowledgeGraph) (problem : string) (sp : SolutionPath) : Prop :=
  List.Forall (step_shows_node g) (path sp) /\
  chained (step_follows g) (path sp) /\
  map step (path sp) = map (fun i => Z.of_nat (S i)) (seq 0 (List.length (path sp))) /\
  (exists first rest,
      path sp = first :: rest /\ relation first = "start"%string /\
      type (node first) = "problem"%string /\
      text_matches (py.lower problem) (node first) = true) /\
  (exists before last,
      path sp = before ++ [last] /\ before <> [] /\
      type (node last) = "result"%string) /\
  sequence sp = map (fun s => label (node s)) (path sp).

(** Ids are stored once (the keys of a [dict]) and every node is filed under
    its own id, as [add_node] files it. *)
Definition well_filed (g : KnowledgeGraph) : Prop :=
  List.NoDup (py.dict_keys (nodes g)) /\ filed_by_id (nodes g).

(** A path entry names a stored node and carries its type; [lbl] is the label
    of that node. *)
Definition item_shows (g : KnowledgeGraph) (it : PathItem) (lbl : string) : Prop :=
  exists n, py.dict_get (item_node it) (nodes g) = Some n /\
            id n = item_node it /\ type n = item_type it /\ label n = lbl.

Definition item_follows (g : KnowledgeGraph) (a b : PathItem) : Prop :=
  edge_between g (item_node a) (item_node b) (item_relation b).

(** The step that the formatting loop makes of a path entry. *)
Definition renders (g : KnowledgeGraph) (it : PathItem) (s : Step) : Prop :=
  id (node s) = item_node it /\ relation s = item_relation it /\
  step_type s = item_type it /\ type (node s) = item_type it /\
  py.dict_get (id (node s)) (nodes g) = Some (node s).

(** The edge keys a path walks: one per entry after the first. *)
Fixpoint path_edges (path : list PathItem) : list EdgeKey :=
  match path with
  | a :: rest =>
      match rest with
      | b :: _ => (item_node a, item_node b, item_relation b) :: path_edges rest
      | [] => []
      end
  | [] => []
  end.

(** The same for the steps of a returned path. *)
Fixpoint step_edges (steps : list Step) : list EdgeKey :=
  match steps with
  | a :: rest =>
      match rest with
      | b :: _ => (id (node a), id (node b), relation b) :: step_edges rest
      | [] => []
      end
  | [] => []
  end.

(** Best score first: no path has a higher score than one before it. *)
Definition best_first (l : list SolutionPath) : Prop :=
  StronglySorted (fun a b => PrimFloat.leb (score b) (score a) = true) l.

Record Statistics : Type := mkStatistics {
  total_nodes : Z;
  total_edges : Z;
  nodes_by_type : py.dict Z;
  relations_by_type : py.dict Z
}.

Definition get_statistics (g : KnowledgeGraph) : Statistics :=
  mkStatistics
    (Z.of_nat (List.length (nodes g)))
    (Z.of_nat (List.length (edges g)))
    (fold_left (py.dict_count type) (py.dict_values (nodes g)) [])
    (fold_left (py.dict_count relation_type) (edges g) []).

(** An effect that writes nothing to the database. *)
Definition is_log (fx : Effect) : Prop :=
  match fx with
  | LogWarning _ => True
  | _ => False
  end.

(** How many stored items carry the string [t] under [key]. *)
Definition count_by {K : Type} (key : K -> string) (t : string) (xs : list K) : nat :=
  List.length (List.filter (fun x => String.eqb (key x) t) xs).

End knowledge_graph.

(* --------------------------------------------------------------------- *)
(** ** enhanced_memory.py *)

Module enhanced_memory.

(** A row of the table [long_term_memory], with the SQL column names.  The
    AUTOINCREMENT key is left out: rows are kept in insertion order. *)
Module row.
Record t : Type := mk {
  user_id : string;
  conversation_id : option Z;
  role : string;
  content : string;
  embedding : option (list float);   (* pickled vector, NULL when encoding failed *)
  metadata : option string;          (* JSON text or NULL *)
  timestamp : string;
  importance_score : option float;   (* REAL or NULL *)
  is_summarized : bool
}.
End row.

(** An entry of the list [short_term], with the keys of the Python dict. *)
Module msg.
Record t : Type := mk {
  role : string;
  content : string;
  metadata : gmap string py.Value;
  timestamp : string;
  importance : float
}.
End msg.

(** The object: its attributes, and the table its [db_path] points to. *)
Record EnhancedMemory : Type := mkMemory {
  long_term_memory : list row.t;
  embedder : string -> option (list float);        (* encode_query; None: it raised *)
  user_id : string;
  max_short_term : Z;
  llm_client : option (string -> option string);   (* summarize(text, 500); None: it raised *)
  short_term : list msg.t
}.

(** What a call reads from outside the object. *)
Record World : Type := mkWorld {
  json_dumps : gmap string py.Value -> string;
  sql_date : string -> option string;   (* SQLite DATE(), NULL on text it cannot parse *)
  now_isoformat : string;               (* datetime.now().isoformat() *)
  current_timestamp : string;           (* SQLite CURRENT_TIMESTAMP *)
  seven_days_ago : string               (* (datetime.now() - timedelta(days=7)).isoformat() *)
}.

Inductive Exception : Type :=
| OverflowError.   (* Python int too large to convert to SQLite INTEGER *)

Inductive Effect : Type :=
| EncodeQuery (text : string)     (* a call of embedder.encode_query *)
| Summarize (text : string)       (* a call of llm_client.summarize *)
| LogInfo (msg : string)
| LogWarning (msg : string)
| LogError (msg : string)
| Raise (e : Exception).          (* the call ends here: [e] leaves the method *)

(** Binding a Python [int] to a statement: sqlite3 takes what fits in a
    signed 64-bit integer and raises OverflowError for the rest; [None] is
    bound as NULL. *)
Definition sqlite_integer_fits (z : Z) : bool :=
  (- 2 ^ 63 <=? z)%Z && (z <? 2 ^ 63)%Z.

Definition bindable (conversation_id : option Z) : bool :=
  match conversation_id with
  | Some z => sqlite_integer_fits z
  | None => true
  end.

(** What a REAL column holds after a Python [float] was bound: SQLite turns a
    NaN into NULL, and keeps a float without fractional part as an integer,
    which gives -0.0 back as 0.0; every other value is kept. *)
Definition sql_real (x : float) : option float :=
  if PrimFloat.eqb x x then
    if PrimFloat.eqb x 0%float then Some 0%float else Some x
  else None.

Definition important_keywords : list string :=
  ["importante"; "recordar"; "siempre"; "nunca"; "preferencia";
   "me gusta"; "no me gusta"; "quiero"; "necesito"]%string.

(** [if metadata:] for an optional dict: neither [None] nor empty. *)
Definition dict_truthy (metadata : option (gmap string py.Value)) : bool :=
  match metadata with
  | Some d => negb (size d =? 0)
  | None => false
  end.

Definition _calculate_importance (role content : string)
  (metadata : option (gmap string py.Value)) : float :=
  let importance := 0.5%float in
  let importance :=
    if String.eqb role "user" then (importance + 0.1)%float else importance in
  let importance :=
    if 200 <? String.length content then (importance + 0.1)%float else importance in
  let importance :=
    if 500 <? String.length content then (importance + 0.1)%float else importance in
  let content_lower := py.lower content in
  let importance :=
    if existsb (fun keyword => py.str_in keyword content_lower) important_keywords
    then (importance + 0.15)%float
    else importance in
  let importance :=
    if dict_truthy metadata then
      let d := default ∅ metadata in
      let importance :=
        if py.get_truthy "tool_used" d then (importance + 0.1)%float else importance in
      if py.get_truthy "reasoning" d then (importance + 0.1)%float else importance
    else importance in
  py.min importance 1.0%float.

(** The importance rule in the words of the specification: the base 0.5 and
    one bonus per condition that holds, capped at 1.0.  It is compared with
    [_calculate_importance] in Part II. *)
Definition bonus (applies : bool) (amount : float) : float :=
  if applies then amount else 0.0%float.

Definition has_flag (k : string) (metadata : option (gmap string py.Value)) : bool :=
  match metadata with
  | Some d => py.get_truthy k d
  | None => false
  end.

Definition importance_formula (role content : string)
  (metadata : option (gmap string py.Value)) : float :=
  let from_user := String.eqb role "user" in
  let long := 200 <? String.length content in
  let very_long := 500 <? String.length content in
  let has_keyword :=
    existsb (fun keyword => py.str_in keyword (py.lower content)) important_keywords in
  let tool_used := has_flag "tool_used" metadata in
  let reasoning := has_flag "reasoning" metadata in
  py.min 1.0%float
    (0.5 + bonus from_user 0.1 + bonus long 0.1 + bonus very_long 0.1
     + bonus has_keyword 0.15 + bonus tool_used 0.1 + bonus reasoning 0.1)%float.

(** The WHERE clause shared by the count and the grouping query. *)
Definition old_unsummarized (user cutoff : string) (r : row.t) : bool :=
  String.eqb (row.user_id r) user &&
  String.ltb (row.timestamp r) cutoff &&
  negb (row.is_summarized r).

Definition day_eqb (a b : option string) : bool :=
  match a, b with
  | Some x, Some y => String.eqb x y
  | None, None => true
  | _, _ => false
  end.

(** ORDER BY day: NULL first, then text in byte order. *)
Definition day_ltb (a b : option string) : bool :=
  match a, b with
  | None, Some _ => true
  | Some x, Some y => String.ltb x y
  | _, _ => false
  end.

Fixpoint insert_day (d : option string) (l : list (option string))
  : list (option string) :=
  match l with
  | [] => [d]
  | x :: r =>
      if day_eqb d x then l
      else if day_ltb d x then d :: l
      else x :: insert_day d r
  end.

Definition newline : string := String (ascii_of_nat 10) EmptyString.

Fixpoint join (sep : string) (l : list string) : string :=
  match l with
  | [] => EmptyString
  | [x] => x
  | x :: r => (x ++ sep ++ join sep r)%string
  end.

(** SELECT DATE(timestamp) AS day, GROUP_CONCAT(content, sep) ... GROUP BY
    DATE(timestamp) ORDER BY day. *)
Definition old_days (w : World) (user cutoff : string) (db : list row.t)
  : list (option string * string) :=
  let old := List.filter (old_unsummarized user cutoff) db in
  let days := fold_right insert_day [] (map (fun r => sql_date w (row.timestamp r)) old) in
  map (fun day =>
         (day,
          join (newline ++ "---" ++ newline)%string
               (map row.content
                    (List.filter (fun r => day_eqb (sql_date w (row.timestamp r)) day) old))))
      days.

(** Python's [f"{day}"] for a column that may be NULL. *)
Definition day_text (day : option string) : string := default "None"%string day.

(** UPDATE ... SET is_summarized = 1 WHERE user_id = ? AND DATE(timestamp) = ?
    AND is_summarized = 0; a NULL day matches no row. *)
Definition mark_summarized (w : World) (user : string) (day : option string)
  (r : row.t) : row.t :=
  match day with
  | Some d =>
      if String.eqb (row.user_id r) user &&
         day_eqb (sql_date w (row.timestamp r)) (Some d) &&
         negb (row.is_summarized r)
      then row.mk (row.user_id r) (row.conversation_id r) (row.role r) (row.content r)
                  (row.embedding r) (row.metadata r) (row.timestamp r)
                  (row.importance_score r) true
      else r
  | None => r
  end.

(** One turn of the loop over the days in [_compress_old_conversations]. *)
Definition compress_day (w : World) (m : EnhancedMemory)
  (summarize : string -> option string)
  (acc : list row.t * list Effect) (group : option string * string)
  : list row.t * list Effect :=
  let '(db, fx) := acc in
  let '(day, combined_content) := group in
  if py.str_falsy combined_content then acc
  else
    match summarize combined_content with
    | None => (db, fx ++ [Summarize combined_content; LogError "Error resumiendo día"])
    | Some summary =>
        match embedder m summary with
        | None =>
            (db, fx ++ [Summarize combined_content; EncodeQuery summary;
                        LogError "Error resumiendo día"])
        | Some summary_embedding =>
            let summary_row :=
              row.mk (user_id m) None "system"
                     ("Resumen del " ++ day_text day ++ ": " ++ summary)%string
                     (Some summary_embedding) None
                     (day_text day ++ " 23:59:59")%string
                     (Some 0.7%float) true in
            (map (mark_summarized w (user_id m) day) (db ++ [summary_row]),
             fx ++ [Summarize combined_content; EncodeQuery summary;
                    LogInfo "Resumido día"])
        end
    end.

Definition _compress_old_conversations (w : World) (m : EnhancedMemory)
  (cutoff_date : string) : list row.t * list Effect :=
  match llm_client m with
  | None =>
      (long_term_memory m,
       [LogWarning "No hay LLM client para resumir, saltando compresión"])
  | Some summarize =>
      fold_left (compress_day w m summarize)
                (old_days w (user_id m) cutoff_date (long_term_memory m))
                (long_term_memory m, [])
  end.

Definition _compress_old_memory_if_needed (w : World) (m : EnhancedMemory)
  : EnhancedMemory * list Effect :=
  let old_count :=
    List.length
      (List.filter (old_unsummarized (user_id m) (seven_days_ago w))
                   (long_term_memory m)) in
  if 100 <? old_count then
    let '(db, fx) := _compress_old_conversations w m (seven_days_ago w) in
    (mkMemory db (embedder m) (user_id m) (max_short_term m) (llm_client m)
              (short_term m),
     LogInfo "Comprimiendo mensajes antiguos..." :: fx)
  else (m, []).

Definition add (w : World) (m : EnhancedMemory) (role content : string)
  (metadata : option (gmap string py.Value)) (conversation_id : option Z)
  (importance : float) : EnhancedMemory * list Effect :=
  if py.str_falsy content || py.str_falsy (py.strip content) then (m, [])
  else
    let importance :=
      if PrimFloat.eqb importance 0.5%float
      then _calculate_importance role content metadata
      else importance in
    let embedding_blob := embedder m content in
    let fx_embed :=
      EncodeQuery content ::
      match embedding_blob with
      | Some _ => []
      | None => [LogWarning "Error generando embedding"]
      end in
    let metadata_json :=
      if dict_truthy metadata then Some (json_dumps w (default ∅ metadata)) else None in
    if negb (bindable conversation_id) then
      (* cur.execute raises: the connection is closed, nothing was written and
         the short-term list has not been reached *)
      (m, fx_embed ++ [Raise OverflowError])
    else
      let db :=
        long_term_memory m ++
        [row.mk (user_id m) conversation_id role content embedding_blob metadata_json
                (current_timestamp w) (sql_real importance) false] in
      let short :=
        short_term m ++
        [msg.mk role content (default ∅ metadata) (now_isoformat w) importance] in
      let short :=
        if (max_short_term m <? Z.of_nat (List.length short))%Z then tl short else short in
      let '(m', fx_compress) :=
        _compress_old_memory_if_needed w
          (mkMemory db (embedder m) (user_id m) (max_short_term m) (llm_client m) short) in
      (m', fx_embed ++ fx_compress).


(** [get_recent]: the slice [short_term[-limit:]]. *)
Definition get_recent (m : EnhancedMemory) (limit : Z) : list msg.t :=
  match short_term m with
  | [] => []
  | _ => py.list_from (short_term m) (- limit)
  end.

(** One call of [add], with what it reads from outside.  In a run of calls
    the caller catches what a call raises and goes on, as [Brain.ask] does. *)
Record AddCall : Type := mkAddCall {
  call_world : World;
  call_role : string;
  call_content : string;
  call_metadata : option (gmap string py.Value);
  call_conversation_id : option Z;
  call_importance : float
}.

Definition add_call (m : EnhancedMemory) (c : AddCall) : EnhancedMemory :=
  fst (add (call_world c) m (call_role c) (call_content c) (call_metadata c)
           (call_conversation_id c) (call_importance c)).

Definition add_all (m : EnhancedMemory) (calls : list AddCall) : EnhancedMemory :=
  fold_left add_call calls m.

(** Whether [add] returns at once: the content is empty or blank. *)
Definition is_blank (content : string) : bool :=
  py.str_falsy content || py.str_falsy (py.strip content).

(** Whether a call gets as far as storing its message: the content is not
    blank and the conversation id can be bound. *)
Definition is_stored (c : AddCall) : bool :=
  negb (is_blank (call_content c)) && bindable (call_conversation_id c).

(** Two rows that differ at most in the column [is_summarized]. *)
Definition same_message (r r' : row.t) : Prop :=
  row.user_id r' = row.user_id r /\
  row.conversation_id r' = row.conversation_id r /\
  row.role r' = row.role r /\
  row.content r' = row.content r /\
  row.embedding r' = row.embedding r /\
  row.metadata r' = row.metadata r /\
  row.timestamp r' = row.timestamp r /\
  row.importance_score r' = row.importance_score r.

(** The short-term entry a call of [add] appends. *)
Definition entry_of (c : AddCall) : msg.t :=
  msg.mk (call_role c) (call_content c) (default ∅ (call_metadata c))
         (now_isoformat (call_world c))
         (if PrimFloat.eqb (call_importance c) 0.5%float
          then _calculate_importance (call_role c) (call_content c) (call_metadata c)
          else call_importance c).

(** A row as compaction may leave it: the same message, and still marked
    summarized if it was. *)
Definition aged (r r' : row.t) : Prop :=
  same_message r r' /\ (row.is_summarized r = true -> row.is_summarized r' = true).

(** A row written by compaction: a system summary of one day. *)
Definition is_summary (user : string) (r : row.t) : Prop :=
  row.user_id r = user /\ row.role r = "system"%string /\
  row.is_summarized r = true /\ row.importance_score r = Some 0.7%float /\
  row.conversation_id r = None.

(** Every row of [db] is still in [db'], up to [is_summarized]. *)
Definition kept (db db' : list row.t) : Prop :=
  forall r, List.In r db -> exists r', List.In r' db' /\ same_message r r'.


(** The table after some turns of compaction: the rows it had, aged, then
    the summaries written. *)
Definition compacted (user : string) (db db' : list row.t) : Prop :=
  exists old' new,
    db' = old' ++ new /\ List.Forall2 aged db old' /\ List.Forall (is_summary user) new.

End enhanced_memory.

(* --------------------------------------------------------------------- *)
(** ** embeddings.py *)

Module embeddings.

Definition Matrix : Type := list (list float).

Inductive Exception : Type :=
| RuntimeError (msg : string)
| NotFittedError                 (* sklearn.exceptions.NotFittedError *)
| ValueError (msg : string)
| IndexError.

(** The two optional packages, as the module finds them at run time. *)
Record Packages : Type := mkPackages {
  (* SentenceTransformer(model_name); None: the import or the load raised *)
  SentenceTransformer : string -> option string;
  st_encode : string -> list string -> Matrix;
  (* whether sklearn.feature_extraction.text can be imported *)
  sklearn_available : bool;
  (* the vocabulary TfidfVectorizer.fit learns; None: fit raised *)
  tfidf_vocabulary : list string -> option (list string);
  (* TfidfVectorizer.transform of at least one text with a learnt vocabulary *)
  tfidf_transform : list string -> list string -> Matrix;
  (* whether the inner transformer validates its input before it checks that
     it is fitted; releases of scikit-learn differ *)
  tfidf_validates_first : bool;
  (* sklearn.preprocessing.normalize(X, norm="l2") *)
  normalize : Matrix -> Matrix
}.

(** A [TfidfVectorizer].  [vocabulary_] exists only once a [fit] has got as
    far as learning one.  [_tfidf_fitted] tells whether the inner transformer
    [_tfidf] is fitted: [fit] replaces it by a fresh one when it starts and
    fits it when it ends. *)
Record TfidfVectorizer : Type := mkVectorizer {
  vocabulary_ : option (list string);
  _tfidf_fitted : bool
}.

(** [fit] works on the object: the result is the vectorizer after the call
    and the exception raised, if any.  A corpus without vocabulary raises
    after the inner transformer has been replaced and before [vocabulary_] is
    assigned. *)
Definition vectorizer_fit (p : Packages) (v : TfidfVectorizer) (texts : list string)
  : TfidfVectorizer * option Exception :=
  match tfidf_vocabulary p texts with
  | Some voc => (mkVectorizer (Some voc) true, None)
  | None =>
      (mkVectorizer (vocabulary_ v) false,
       Some (ValueError "empty vocabulary; perhaps the documents only contain stop words"))
  end.

(** [transform]: it needs a vocabulary and a fitted inner transformer, and at
    least one text. *)
Definition vectorizer_transform (p : Packages) (v : TfidfVectorizer)
  (texts : list string) : Matrix + Exception :=
  match vocabulary_ v with
  | None => inr NotFittedError
  | Some voc =>
      match texts with
      | [] =>
          if _tfidf_fitted v || tfidf_validates_first p
          then inr (ValueError "Found array with 0 sample(s)")
          else inr NotFittedError
      | _ :: _ =>
          if _tfidf_fitted v then inl (tfidf_transform p voc texts)
          else inr NotFittedError
      end
  end.

Record EmbeddingBackend : Type := mkBackend {
  _backend : string;
  _model : option string;
  _vectorizer : option TfidfVectorizer;
  _model_name : string
}.

Definition __init__ (p : Packages) (model_name : string)
  : EmbeddingBackend + Exception :=
  match SentenceTransformer p model_name with
  | Some model =>
      inl (mkBackend "sentence_transformers" (Some model) None model_name)
  | None =>
      if sklearn_available p then
        (* Fit on dummy data to prevent NotFittedError if used before ingestion *)
        match vectorizer_fit p (mkVectorizer None false)
                             ["initialization dummy text"%string] with
        | (vectorizer, None) => inl (mkBackend "tfidf" None (Some vectorizer) model_name)
        | (_, Some _) => inr (RuntimeError "No embedding backend available.")
        end
      else inr (RuntimeError "No embedding backend available.")
  end.

Definition backend_name (b : EmbeddingBackend) : string := _backend b.


Definition encode_texts (p : Packages) (b : EmbeddingBackend) (texts : list string)
  : Matrix + Exception :=
  match String.eqb (_backend b) "sentence_transformers", _model b with
  | true, Some model => inl (st_encode p model texts)
  | _, _ =>
      match String.eqb (_backend b) "tfidf", _vectorizer b with
      | true, Some v =>
          match vectorizer_transform p v texts with
          | inl X => inl (normalize p X)
          | inr e => inr e
          end
      | _, _ => inr (RuntimeError "Embedding backend is not properly initialized")
      end
  end.

Definition encode_query (p : Packages) (b : EmbeddingBackend) (query : string)
  : list float + Exception :=
  match encode_texts p b [query] with
  | inl (row0 :: _) => inl row0
  | inl [] => inr IndexError
  | inr e => inr e
  end.



End embeddings.

(* --------------------------------------------------------------------- *)
(** ** vector_store.py *)

Module vector_store.

(** A two-dimensional [numpy.ndarray]: [shape[0]] is the number of rows,
    [shape[1]] the width every row has. *)
Record ndarray : Type := mkArray {
  shape1 : nat;
  rows : list (list float)
}.

Definition shape0 (a : ndarray) : nat := List.length (rows a).

Definition Meta : Type := gmap string string.

Inductive Exception : Type :=
| ValueError (msg : string)
| RuntimeError (msg : string)
| AssertionError
| AttributeError.

(** [np.vstack([a, b])]: the widths must agree. *)
Definition vstack (a b : ndarray) : ndarray + Exception :=
  if shape1 a =? shape1 b
  then inl (mkArray (shape1 a) (rows a ++ rows b))
  else inr (ValueError "all the input array dimensions except for the concatenation axis must match exactly").

Module InMemoryVectorStore.

Record t : Type := mk {
  _embeddings : option ndarray;
  _metas : list Meta
}.

Definition __init__ : t := mk None [].

Definition size (s : t) : nat :=
  match _embeddings s with
  | None => 0
  | Some a => shape0 a
  end.

(** The result is the object after the call and the exception raised, if
    any. *)
Definition add (s : t) (embeddings : ndarray) (metas : list Meta)
  : t * option Exception :=
  if negb (shape0 embeddings =? List.length metas) then
    (s, Some (ValueError "Embeddings and metas size mismatch"))
  else
    match _embeddings s with
    | None => (mk (Some embeddings) (_metas s ++ metas), None)
    | Some old =>
        match vstack old embeddings with
        | inl stacked => (mk (Some stacked) (_metas s ++ metas), None)
        | inr e => (s, Some e)
        end
    end.


(** The vectors held, and whether a batch has their width. *)
Definition stored_rows (s : t) : list (list float) :=
  match _embeddings s with
  | None => []
  | Some a => rows a
  end.

Definition width_fits (s : t) (embeddings : ndarray) : Prop :=
  match _embeddings s with
  | None => True
  | Some old => shape1 old = shape1 embeddings
  end.


(** A run of [add] calls; a call that raises leaves the store as it was and
    the run goes on (the caller caught the exception). *)
Definition add_all (s : t) (batches : list (ndarray * list Meta)) : t :=
  fold_left (fun s b => fst (add s (fst b) (snd b))) batches s.

(** Every row of the array has the width [shape[1]] says. *)
Definition well_shaped (a : ndarray) : Prop :=
  List.Forall (fun r => List.length r = shape1 a) (rows a).

End InMemoryVectorStore.

Module FaissVectorStore.

(** A [faiss.IndexFlatIP]: its dimension [d] and the vectors added so far. *)
Record IndexFlatIP : Type := mkIndex {
  d : nat;
  xb : list (list float)
}.

Record t : Type := mk {
  _index : option IndexFlatIP;
  _metas : list Meta
}.

Definition __init__ : t := mk None [].

(** What the class needs from its surroundings: whether [import faiss]
    succeeds, and numpy's rounding of a float to single precision. *)
Record Runtime : Type := mkRuntime {
  faiss_available : bool;
  float32 : float -> float
}.

(** [x.astype('float32')] *)
Definition astype_float32 (rt : Runtime) (x : ndarray) : ndarray :=
  mkArray (shape1 x) (map (map (float32 rt)) (rows x)).

Definition _ensure_index (rt : Runtime) (s : t) (dim : nat)
  : t * option Exception :=
  match _index s with
  | Some _ => (s, None)
  | None =>
      if faiss_available rt
      then (mk (Some (mkIndex dim [])) (_metas s), None)
      else (s, Some (RuntimeError "FAISS no está instalado. Instala faiss-cpu."))
  end.

(** [index.add(x)]: the wrapper asserts that the width is the index's. *)
Definition index_add (ix : IndexFlatIP) (x : ndarray) : IndexFlatIP + Exception :=
  if shape1 x =? d ix
  then inl (mkIndex (d ix) (xb ix ++ rows x))
  else inr AssertionError.

Definition add (rt : Runtime) (s : t) (embeddings : ndarray)
  (metas : list Meta) : t * option Exception :=
  if negb (shape0 embeddings =? List.length metas) then
    (s, Some (ValueError "Embeddings and metas size mismatch"))
  else
    match _ensure_index rt s (shape1 embeddings) with
    | (s1, Some e) => (s1, Some e)
    | (s1, None) =>
        if negb (faiss_available rt) then
          (s1, Some (RuntimeError "FAISS no está instalado. Instala faiss-cpu."))
        else
          match _index s1 with
          | None => (s1, Some AttributeError)   (* None has no method add *)
          | Some ix =>
              match index_add ix (astype_float32 rt embeddings) with
              | inl ix' => (mk (Some ix') (_metas s1 ++ metas), None)
              | inr e => (s1, Some e)
              end
          end
    end.


(** The vectors held, and whether a batch has the dimension of the index. *)
Definition stored_rows (s : t) : list (list float) :=
  match _index s with
  | None => []
  | Some ix => xb ix
  end.

Definition width_fits (s : t) (embeddings : ndarray) : Prop :=
  match _index s with
  | None => True
  | Some ix => shape1 embeddings = d ix
  end.


(** [int(self._index.ntotal)], 0 without an index. *)
Definition size (s : t) : nat :=
  match _index s with
  | None => 0
  | Some ix => List.length (xb ix)
  end.

Definition add_all (rt : Runtime) (s : t) (batches : list (ndarray * list Meta)) : t :=
  fold_left (fun s b => fst (add rt s (fst b) (snd b))) batches s.

End FaissVectorStore.

End vector_store.

(* --------------------------------------------------------------------- *)
(** ** brain.py: the cache of [Brain.retrieve] *)

Module brain.

(** An enriched hit: the metadata of the chunk with "score" and "text". *)
Definition Hit : Type := gmap string string.

(** The attributes [retrieve] touches.  [lookup] stands for the uncached
    part of the method (encode the query, search the store, join the texts):
    it reads attributes that [retrieve] never writes; [None]: it raised. *)
Record Brain : Type := mkBrain {
  lookup : string -> Z -> option (list Hit);
  _retrieve_cache : py.dict (list Hit);
  _cache_max_size : Z
}.

(** The two assignments at the end of [Brain.__init__]. *)
Definition __init__ (lookup : string -> Z -> option (list Hit)) : Brain :=
  mkBrain lookup [] 100.

(** [f"{query}::{top_k}"] *)
Definition cache_key (query : string) (top_k : Z) : string :=
  (query ++ "::" ++ pretty top_k)%string.

(** The result is the object after the call and what the call returns;
    [None]: the uncached part raised. *)
Definition retrieve (b : Brain) (query : string) (top_k : Z)
  : Brain * option (list Hit) :=
  let cache_key := cache_key query top_k in
  match py.dict_get cache_key (_retrieve_cache b) with
  | Some cached => (b, Some cached)
  | None =>
      match lookup b query top_k with
      | None => (b, None)
      | Some enriched =>
          let cache :=
            if (_cache_max_size b <? Z.of_nat (List.length (_retrieve_cache b)))%Z
            then py.dict_pop_first (_retrieve_cache b)
            else _retrieve_cache b in
          (mkBrain (lookup b) (py.dict_set cache_key enriched cache) (_cache_max_size b),
           Some enriched)
      end
  end.

(** A session: the calls in order, on the object the previous one left. *)
Definition retrieve_all (b : Brain) (calls : list (string * Z)) : Brain :=
  fold_left (fun b c => fst (retrieve b (fst c) (snd c))) calls b.


(** No character of [s] is a colon. *)
Definition colon_free (s : string) : Prop :=
  List.Forall (fun c => c <> ":"%char) (list_ascii_of_string s).

(** Every cached entry is what [lookup] answers for its query. *)
Definition coherent (b : Brain) : Prop :=
  forall key hits,
    List.In (key, hits) (_retrieve_cache b) ->
    exists q k, key = cache_key q k /\ lookup b q k = Some hits.

End brain.

(* --------------------------------------------------------------------- *)
(** ** data.py: chunking *)

Module data.

(** The [while] loop of [chunk_text], from the state it has at the top of a
    turn.  The loop need not end (a [max_chars] of 0 never advances), so the
    model counts turns: [None] means the turns allowed were used up. *)
Fixpoint chunk_loop (turns : nat) (text : string) (max_chars overlap : Z)
  (start : Z) (chunks : list string) : option (list string) :=
  match turns with
  | O => None
  | S turns' =>
      if (start <? py.len text)%Z then
        let end_ := Z.min (start + max_chars) (py.len text) in
        let chunks := chunks ++ [py.str_slice text start end_] in
        let start := Z.max (start + max_chars - overlap) end_ in
        if (start >=? py.len text)%Z then Some chunks
        else chunk_loop turns' text max_chars overlap start chunks
      else Some chunks
  end.

Definition chunk_text (turns : nat) (text : string) (max_chars overlap : Z)
  : option (list string) :=
  if py.str_falsy text then Some []
  else chunk_loop turns text max_chars overlap 0 [].

(** A document or a chunk: a [Dict[str, str]]. *)
Definition Doc : Type := gmap string string.

(** The chunks of one document, numbered from [i]. *)
Fixpoint chunk_dicts (source : string) (extra_metadata : Doc) (i : nat)
  (pieces : list string) : list Doc :=
  match pieces with
  | [] => []
  | piece :: rest =>
      (* chunk_data.update(extra_metadata): the extra keys win *)
      (extra_metadata ∪
       {[ "id" := (source ++ "::chunk_" ++ pretty i)%string;
          "source" := source;
          "chunk_index" := pretty i;
          "text" := piece ]})
      :: chunk_dicts source extra_metadata (S i) rest
  end.

(** The outer loop of [prepare_documents], from document number [doc_idx]. *)
Fixpoint prepare_from (turns : nat) (doc_idx : nat) (raw_docs : list Doc)
  (max_chars overlap : Z) : option (list Doc) :=
  match raw_docs with
  | [] => Some []
  | doc :: rest =>
      let source := default ("doc_" ++ pretty doc_idx)%string (doc !! "source") in
      let text := default ""%string (doc !! "text") in
      let extra_metadata := delete "text" (delete "source" doc) in
      match chunk_text turns text max_chars overlap,
            prepare_from turns (S doc_idx) rest max_chars overlap with
      | Some pieces, Some prepared =>
          Some (chunk_dicts source extra_metadata 0 pieces ++ prepared)
      | _, _ => None
      end
  end.

Definition prepare_documents (turns : nat) (raw_docs : list Doc)
  (max_chars overlap : Z) : option (list Doc) :=
  prepare_from turns 0 raw_docs max_chars overlap.

(** The text a document or chunk carries. *)
Definition text_of (doc : Doc) : string := default ""%string (doc !! "text").


(** The text from position [a] on. *)
Definition rest_from (s : string) (a : nat) : string :=
  string_of_list_ascii (skipn a (list_ascii_of_string s)).

(** Chunks of one to [max_chars] characters, all but the last one full. *)
Definition well_cut (max_chars : Z) (cs : list string) : Prop :=
  List.Forall (fun c => (1 <= py.len c <= max_chars)%Z) cs /\
  forall i c, cs !! i = Some c -> S i < List.length cs -> py.len c = max_chars.

(** The source a raw document is filed under, given its position. *)
Definition source_of (doc_idx : nat) (doc : Doc) : string :=
  default ("doc_" ++ pretty doc_idx)%string (doc !! "source").

End data.

(* --------------------------------------------------------------------- *)
(** ** memory.py *)

Module memory.

(** A message [{"role": ..., "content": ...}]. *)
Record Message : Type := mkMessage {
  role : string;
  content : string
}.

Record ChatMemory : Type := mkChatMemory {
  _messages : list Message;
  _max_chars : Z
}.

Definition __init__ (max_chars : Z) : ChatMemory := mkChatMemory [] max_chars.

(** The [for] loop of [_trim] over the messages, newest first: a message is
    kept, then the loop stops once the budget is reached. *)
Fixpoint trim_loop (max_chars total : Z) (kept newest_first : list Message)
  : list Message :=
  match newest_first with
  | [] => kept
  | msg :: rest =>
      let total := (total + py.len (content msg))%Z in
      let kept := kept ++ [msg] in
      if (total >=? max_chars)%Z then kept
      else trim_loop max_chars total kept rest
  end.

Definition _trim (m : ChatMemory) : ChatMemory :=
  mkChatMemory (rev (trim_loop (_max_chars m) 0 [] (rev (_messages m))))
               (_max_chars m).

Definition add (m : ChatMemory) (role content : string) : ChatMemory :=
  _trim (mkChatMemory (_messages m ++ [mkMessage role content]) (_max_chars m)).

Definition get (m : ChatMemory) : list Message := _messages m.

(** The characters held: the sum of the content lengths. *)
Definition total_chars (msgs : list Message) : Z :=
  fold_right (fun msg acc => (py.len (content msg) + acc)%Z) 0%Z msgs.

End memory.

(* --------------------------------------------------------------------- *)
(** ** Concrete objects, used to run the definitions *)

Module examples.

(** The chain P -requires-> A -produces-> R. *)
Definition P : knowledge_graph.KnowledgeNode :=
  knowledge_graph.mkNode "p1" "problem" "P" "motor overheats" ∅.
Definition A : knowledge_graph.KnowledgeNode :=
  knowledge_graph.mkNode "a1" "action" "A" "replace coolant" ∅.
Definition R : knowledge_graph.KnowledgeNode :=
  knowledge_graph.mkNode "r1" "result" "R" "motor runs cool" ∅.

Definition requires_edge : knowledge_graph.KnowledgeEdge :=
  knowledge_graph.mkEdge "p1" "a1" "requires" 0.9%float ["doc1"%string].
Definition produces_edge : knowledge_graph.KnowledgeEdge :=
  knowledge_graph.mkEdge "a1" "r1" "produces" 0.8%float ["doc1"%string].

Definition chain_graph : knowledge_graph.KnowledgeGraph :=
  knowledge_graph.run
    [knowledge_graph.AddNode P; knowledge_graph.AddNode A; knowledge_graph.AddNode R;
     knowledge_graph.AddEdge requires_edge; knowledge_graph.AddEdge produces_edge].

(** The same key as [produces_edge] with more confidence and a new document. *)
Definition stronger_edge : knowledge_graph.KnowledgeEdge :=
  knowledge_graph.mkEdge "a1" "r1" "produces" 0.85%float ["doc2"; "doc1"]%string.

(** An edge to a node that was never added. *)
Definition dangling_edge : knowledge_graph.KnowledgeEdge :=
  knowledge_graph.mkEdge "a1" "nowhere" "produces" 0.8%float [].

(** A memory with an embedder that always answers and no summarizer. *)
Definition memory : enhanced_memory.EnhancedMemory :=
  enhanced_memory.mkMemory [] (fun _ => Some [1.0%float]) "anonymous" 20 None [].

Definition world : enhanced_memory.World :=
  enhanced_memory.mkWorld (fun _ => "{}"%string) (fun ts => Some (String.substring 0 10 ts))
    "2026-01-10T12:00:00" "2026-01-10 12:00:00" "2026-01-03T12:00:00".

(** An installation without sentence-transformers, with scikit-learn: the
    vocabulary is the corpus itself, a text scores 1 on the entries it
    contains. *)
Definition tfidf_only : embeddings.Packages :=
  embeddings.mkPackages
    (fun _ => None)
    (fun _ texts => map (fun _ => []) texts)
    true
    (fun corpus => match corpus with [] => None | _ => Some corpus end)
    (fun voc texts =>
       map (fun t => map (fun term => if py.str_in term t then 1.0%float else 0.0%float) voc)
           texts)
    false
    (fun X => X).

(** What [EmbeddingBackend.__init__] builds on that installation. *)
Definition tfidf_backend : embeddings.EmbeddingBackend :=
  embeddings.mkBackend "tfidf" None
    (Some (embeddings.mkVectorizer (Some ["initialization dummy text"%string]) true))
    "all-MiniLM-L6-v2".

(** A store holding one vector of width 2, and a batch of one vector of
    width 3 with its one metadata entry. *)
Definition store_width_2 : vector_store.InMemoryVectorStore.t :=
  vector_store.InMemoryVectorStore.mk
    (Some (vector_store.mkArray 2 [[1.0%float; 0.0%float]]))
    [{[ "id"%string := "doc1::chunk_0"%string ]}].

Definition batch_width_3 : vector_store.ndarray :=
  vector_store.mkArray 3 [[0.0%float; 1.0%float; 0.0%float]].

Definition batch_width_2 : vector_store.ndarray :=
  vector_store.mkArray 2 [[0.0%float; 1.0%float]].

Definition faiss_store_width_2 : vector_store.FaissVectorStore.t :=
  vector_store.FaissVectorStore.mk
    (Some (vector_store.FaissVectorStore.mkIndex 2 [[1.0%float; 0.0%float]]))
    [{[ "id"%string := "doc1::chunk_0"%string ]}].

(** faiss installed; the rounding to single precision left abstract as the
    identity, exact on the values used here. *)
Definition with_faiss : vector_store.FaissVectorStore.Runtime :=
  vector_store.FaissVectorStore.mkRuntime true (fun x => x).

Definition batch_metas : list vector_store.Meta :=
  [{[ "id"%string := "doc2::chunk_0"%string ]}].

(** A session of 101 different queries on a fresh [Brain]. *)
Definition found_nothing : string -> Z -> option (list brain.Hit) :=
  fun _ _ => Some [].

Definition queries_101 : list (string * Z) :=
  map (fun i => (("q" ++ pretty i)%string, 4%Z)) (seq 0 101).


(** A memory whose embedder always raises, with a window of two entries. *)
Definition deaf_memory : enhanced_memory.EnhancedMemory :=
  enhanced_memory.mkMemory [] (fun _ => None) "anonymous" 2 None [].

(** Three turns of a conversation, the second one blank. *)
Definition turns : list enhanced_memory.AddCall :=
  [enhanced_memory.mkAddCall world "user" "hola" None None 0.5%float;
   enhanced_memory.mkAddCall world "user" "   " None None 0.5%float;
   enhanced_memory.mkAddCall world "assistant" "buenas" None None 0.6%float].

(** Four turns: one blank, and one whose conversation id is 2^63, which
    the INSERT refuses. *)
Definition turns_with_overflow : list enhanced_memory.AddCall :=
  [enhanced_memory.mkAddCall world "user" "hola" None None 0.5%float;
   enhanced_memory.mkAddCall world "user" "   " None None 0.5%float;
   enhanced_memory.mkAddCall world "user" "perdido" None (Some (2 ^ 63)%Z) 0.5%float;
   enhanced_memory.mkAddCall world "assistant" "buenas" None (Some 7%Z) 0.6%float].

(** A document of eleven characters. *)
Definition doc1 : data.Doc :=
  {[ "source"%string := "doc1"%string; "text"%string := "hello world"%string ]}.

(** A brain whose lookup finds one chunk for every query. *)
Definition finds_one : string -> Z -> option (list brain.Hit) :=
  fun _ _ => Some [{[ "id"%string := "doc1::chunk_0"%string ]}].

End examples.

(* ===================================================================== *)
(** * Part II: theorems                                                   *)
(* ===================================================================== *)

(** ** Facts about the built-ins *)

Module py_facts.

Lemma SFcompare_swap (x y : SpecFloat.spec_float) :
  SpecFloat.SFcompare y x = option_map CompOpp (SpecFloat.SFcompare x y).
Proof.
  destruct x as [sx| sx | |sx mx ex], y as [sy|sy| |sy my ey]; simpl;
    try reflexivity;
    try (destruct sx; reflexivity); try (destruct sy; reflexivity);
    try (destruct sx, sy; reflexivity).
  destruct sx, sy; simpl; try reflexivity;
    rewrite (Z.compare_antisym ex ey);
    destruct (ex ?= ey)%Z; simpl; try reflexivity;
    pose proof (Pos.compare_cont_antisym mx my Eq) as Hm; simpl in Hm;
    rewrite <- Hm; destruct (Pos.compare_cont Eq mx my); reflexivity.
Qed.

(** [a <= b] excludes [b < a], also for infinities; a NaN fails both. *)
Lemma leb_not_ltb (a b : float) :
  PrimFloat.leb a b = true -> PrimFloat.ltb b a = false.
Proof.
  rewrite FloatAxioms.leb_spec, FloatAxioms.ltb_spec.
  unfold SpecFloat.SFleb, SpecFloat.SFltb.
  rewrite (SFcompare_swap (Prim2SF a) (Prim2SF b)).
  destruct (SpecFloat.SFcompare (Prim2SF a) (Prim2SF b)) as [[ | | ]|];
    simpl; congruence.
Qed.

Lemma dict_get_set {V} (k k' : string) (v : V) (d : py.dict V) :
  py.dict_get k (py.dict_set k' v d) =
  if String.eqb k' k then Some v else py.dict_get k d.
Proof.
  induction d as [|[k0 v0] d IH]; simpl.
  - reflexivity.
  - destruct (String.eqb k0 k') eqn:E0; simpl.
    + apply String.eqb_eq in E0. subst k0.
      destruct (String.eqb k' k); reflexivity.
    + destruct (String.eqb k0 k) eqn:E1; [|exact IH].
      apply String.eqb_eq in E1. subst k0.
      rewrite String.eqb_sym, E0. reflexivity.
Qed.

Lemma dict_contains_set_mono {V} (k k' : string) (v : V) (d : py.dict V) :
  py.dict_contains k d = true -> py.dict_contains k (py.dict_set k' v d) = true.
Proof.
  unfold py.dict_contains. rewrite dict_get_set.
  destruct (String.eqb k' k); [reflexivity|auto].
Qed.

Lemma dict_get_In {V} (k : string) (v : V) (d : py.dict V) :
  List.NoDup (py.dict_keys d) -> List.In (k, v) d -> py.dict_get k d = Some v.
Proof.
  induction d as [|[k0 v0] d IH]; simpl; intros Hnd Hin; [contradiction|].
  inversion Hnd as [|? ? Hnotin Hnd']; subst.
  destruct Hin as [Heq|Hin].
  - inversion Heq; subst. rewrite String.eqb_refl. reflexivity.
  - destruct (String.eqb k0 k) eqn:E.
    + apply String.eqb_eq in E. subst k0. exfalso. apply Hnotin.
      unfold py.dict_keys. apply (List.in_map fst _ _ Hin).
    + apply IH; assumption.
Qed.

(** A string made of spaces only strips to the empty string. *)
Lemma lstrip_spaces (s : string) :
  List.forallb py.isspace (list_ascii_of_string s) = true -> py.lstrip s = EmptyString.
Proof.
  induction s as [|c s IH]; simpl; [reflexivity|].
  intros H. apply andb_prop in H as [Hc Hs]. rewrite Hc. auto.
Qed.

Lemma strip_spaces (s : string) :
  List.forallb py.isspace (list_ascii_of_string s) = true -> py.strip s = EmptyString.
Proof. intros H. unfold py.strip. rewrite lstrip_spaces by assumption. reflexivity. Qed.

End py_facts.

(* --------------------------------------------------------------------- *)
(** ** knowledge_graph.py *)

Module knowledge_graph_facts.
Import knowledge_graph.

Lemma same_key_true (edge e : KnowledgeEdge) :
  same_key edge e = true <-> edge_key e = edge_key edge.
Proof.
  unfold same_key, edge_key. rewrite !andb_true_iff, !String.eqb_eq.
  split; [intros [[-> ->] ->]; reflexivity | intros H; inversion H; auto].
Qed.

Lemma strengthen_key (edge e : KnowledgeEdge) :
  edge_key (strengthen edge e) = edge_key e.
Proof. reflexivity. Qed.

Lemma update_first_keys (edge : KnowledgeEdge) (es : list KnowledgeEdge) :
  map edge_key (update_first edge es) = map edge_key es.
Proof.
  induction es as [|e es IH]; simpl; [reflexivity|].
  destruct (same_key edge e); simpl; [reflexivity | now rewrite IH].
Qed.

Lemma update_first_find (edge existing : KnowledgeEdge) (es : list KnowledgeEdge) :
  List.find (same_key edge) es = Some existing ->
  List.find (same_key edge) (update_first edge es) = Some (strengthen edge existing).
Proof.
  induction es as [|e es IH]; simpl; [discriminate|].
  destruct (same_key edge e) eqn:E; simpl.
  - intros [= <-].
    assert (same_key edge (strengthen edge e) = true) as ->; [|reflexivity].
    apply same_key_true. rewrite strengthen_key. now apply same_key_true.
  - rewrite E. exact IH.
Qed.

Lemma update_first_others (edge e : KnowledgeEdge) (es : list KnowledgeEdge) :
  same_key edge e = false -> (List.In e (update_first edge es) <-> List.In e es).
Proof.
  intros He. induction es as [|x es IH]; simpl; [tauto|].
  destruct (same_key edge x) eqn:E; simpl.
  - split; intros [H|H]; auto.
    + subst e. exfalso.
      assert (same_key edge (strengthen edge x) = true); [|congruence].
      apply same_key_true. rewrite strengthen_key. now apply same_key_true.
    + subst e. congruence.
  - rewrite IH. tauto.
Qed.

Lemma find_none_key (edge : KnowledgeEdge) (es : list KnowledgeEdge) :
  List.find (same_key edge) es = None -> ~ List.In (edge_key edge) (map edge_key es).
Proof.
  intros Hfind Hin. apply List.in_map_iff in Hin as (e & Hk & He).
  apply (List.find_none _ _ Hfind) in He.
  apply same_key_true in Hk. congruence.
Qed.

Lemma update_first_endpoints nodes (edge : KnowledgeEdge) (es : list KnowledgeEdge) :
  List.Forall (endpoints_known nodes) es ->
  List.Forall (endpoints_known nodes) (update_first edge es).
Proof.
  induction 1 as [|e es He Hes IH]; simpl; [constructor|].
  destruct (same_key edge e); constructor; auto.
Qed.

Lemma list_set_spec (xs : list string) :
  (list_to_set (py.list_set xs) : gset string) = list_to_set xs /\
  List.NoDup (py.list_set xs).
Proof.
  unfold py.list_set. split.
  - apply set_eq. intros x. rewrite elem_of_list_to_set, elem_of_elements. reflexivity.
  - apply NoDup_ListNoDup, NoDup_elements.
Qed.

(** C5.  [add_edge] with a source or a target that is not a key of [nodes]
    returns normally with the graph as it was, nodes and edge list alike; the
    only effect is the warning, and nothing is written to the database. *)
Theorem add_edge_unknown_endpoint_rejected (g : KnowledgeGraph) (edge : KnowledgeEdge) :
  py.dict_contains (source edge) (nodes g) = false \/
  py.dict_contains (target edge) (nodes g) = false ->
  fst (add_edge g edge) = g /\
  edges (fst (add_edge g edge)) = edges g /\
  exists msg, snd (add_edge g edge) = [LogWarning msg].
Proof.
  intros H. unfold add_edge.
  destruct (py.dict_contains (source edge) (nodes g)) eqn:Hs; simpl.
  - destruct H as [H|H]; [discriminate|]. rewrite H. simpl. eauto.
  - eauto.
Qed.

(** C8.  From the empty graph, after any sequence of [add_node] and
    [add_edge] calls, the source and the target of every stored edge are keys
    of the node map. *)
Theorem no_dangling_edges (calls : list Call) :
  List.Forall (endpoints_known (nodes (run calls))) (edges (run calls)).
Proof.
  unfold run.
  assert (Hinv : forall cs g,
             List.Forall (endpoints_known (nodes g)) (edges g) ->
             List.Forall (endpoints_known (nodes (fold_left call cs g)))
                         (edges (fold_left call cs g))).
  { induction cs as [|c cs IH]; intros g Hg; simpl; [exact Hg|].
    apply IH. destruct c as [node|edge]; simpl.
    - eapply List.Forall_impl; [|exact Hg].
      intros e [Hs Ht]. split; now apply py_facts.dict_contains_set_mono.
    - unfold add_edge.
      destruct (py.dict_contains (source edge) (nodes g)) eqn:Hs; simpl; [|exact Hg].
      destruct (py.dict_contains (target edge) (nodes g)) eqn:Ht; simpl; [|exact Hg].
      destruct (List.find (same_key edge) (edges g)) as [existing|] eqn:Hf.
      + destruct (PrimFloat.ltb (weight existing) (weight edge)); simpl; [|exact Hg].
        now apply update_first_endpoints.
      + simpl. apply List.Forall_app. split; [exact Hg|].
        constructor; [split; assumption|constructor]. }
  apply Hinv. constructor.
Qed.

(** C1.  With both endpoints present, [add_edge] keeps the keys (source,
    target, relation_type) of the stored edges pairwise distinct; when the key
    is already stored the number of edges and their keys stay as they are; a
    strictly greater weight replaces the stored weight and the stored evidence
    becomes, as a set, the union of the old and the new evidence, all other
    edges untouched; a lower or equal weight (and any weight that is not
    greater) leaves the graph as it was and has no effect at all. *)
Theorem add_edge_merges_by_key (g : KnowledgeGraph) (edge : KnowledgeEdge) :
  py.dict_contains (source edge) (nodes g) = true ->
  py.dict_contains (target edge) (nodes g) = true ->
  (List.NoDup (map edge_key (edges g)) ->
   List.NoDup (map edge_key (edges (fst (add_edge g edge))))) /\
  (forall existing,
      List.find (same_key edge) (edges g) = Some existing ->
      List.length (edges (fst (add_edge g edge))) = List.length (edges g) /\
      map edge_key (edges (fst (add_edge g edge))) = map edge_key (edges g) /\
      (PrimFloat.ltb (weight existing) (weight edge) = true ->
       exists stored,
         List.find (same_key edge) (edges (fst (add_edge g edge))) = Some stored /\
         weight stored = weight edge /\
         (list_to_set (evidence stored) : gset string) =
           list_to_set (evidence existing) ∪ list_to_set (evidence edge) /\
         List.NoDup (evidence stored) /\
         (forall e, same_key edge e = false ->
                    (List.In e (edges (fst (add_edge g edge))) <-> List.In e (edges g)))) /\
      (PrimFloat.leb (weight edge) (weight existing) = true ->
       add_edge g edge = (g, [])) /\
      (PrimFloat.ltb (weight existing) (weight edge) = false ->
       add_edge g edge = (g, []))).
Proof.
  intros Hs Ht. unfold add_edge. rewrite Hs, Ht. simpl. split.
  - intros Hnd.
    destruct (List.find (same_key edge) (edges g)) as [existing|] eqn:Hf.
    + destruct (PrimFloat.ltb (weight existing) (weight edge)); simpl; [|exact Hnd].
      now rewrite update_first_keys.
    + simpl. rewrite List.map_app. simpl.
      apply List.NoDup_app; [exact Hnd| |].
      * constructor; [intros []|constructor].
      * intros k Hk [<-|[]]. revert Hk. now apply find_none_key.
  - intros existing Hf. rewrite Hf.
    assert (Hnoop : PrimFloat.ltb (weight existing) (weight edge) = false ->
                    (if PrimFloat.ltb (weight existing) (weight edge)
                     then (mkGraph (nodes g) (update_first edge (edges g)),
                           [UpdateEdgeInDb (strengthen edge existing)])
                     else (g, [])) = (g, [])).
    { intros ->. reflexivity. }
    repeat split.
    + destruct (PrimFloat.ltb (weight existing) (weight edge)); simpl; [|reflexivity].
      rewrite <- (List.length_map edge_key), update_first_keys.
      apply List.length_map.
    + destruct (PrimFloat.ltb (weight existing) (weight edge)); simpl; [|reflexivity].
      apply update_first_keys.
    + intros Hlt. rewrite Hlt. simpl. exists (strengthen edge existing).
      split; [now apply update_first_find|]. split; [reflexivity|].
      destruct (list_set_spec (evidence existing ++ evidence edge)) as [Hset Hnd].
      split; [|split; [exact Hnd|]].
      * simpl. rewrite Hset. apply list_to_set_app_L.
      * intros e He. now apply update_first_others.
    + intros Hle. apply Hnoop. now apply py_facts.leb_not_ltb.
    + exact Hnoop.
Qed.

Lemma filter_Permutation {A} (f : A -> bool) (l l' : list A) :
  Permutation l l' -> Permutation (List.filter f l) (List.filter f l').
Proof.
  induction 1 as [|x l l' _ IH|x y l|l l' l'' _ IH1 _ IH2]; simpl.
  - constructor.
  - destruct (f x); [now constructor|exact IH].
  - destruct (f x), (f y); try reflexivity. constructor.
  - now transitivity (List.filter f l').
Qed.

Lemma dfs_unfold g r visited node_id path seq :
  dfs g (S r) visited node_id path seq =
  match py.dict_get node_id (nodes g) with
  | None => []
  | Some node =>
      if String.eqb (type node) "result" then
        if 2 <=? List.length path
        then [mkPathData path seq (_calculate_path_score path)]
        else []
      else
        let fresh :=
          List.filter
            (fun te : KnowledgeNode * KnowledgeEdge =>
               negb (existsb
                       (edge_key_eqb (node_id, id (fst te), relation_type (snd te)))
                       visited))
            (get_related_nodes g node_id None "out") in
        flat_map
          (fun te : KnowledgeNode * KnowledgeEdge =>
             dfs g r
                 ((node_id, id (fst te), relation_type (snd te)) :: visited)
                 (id (fst te))
                 (path ++ [(relation_type (snd te), id (fst te), type (fst te))])
                 (seq ++ [label (fst te)]))
          (List.filter (fun te => is_priority (fst te)) fresh ++
           List.filter (fun te => negb (is_priority (fst te))) fresh)
  end.
Proof. reflexivity. Qed.

Lemma flat_map_singleton {A B} (f : A -> list B) (x : A) : flat_map f [x] = f x.
Proof. simpl. apply app_nil_r. Qed.

Lemma dfs_single_child g r visited node_id node t e path seq :
  py.dict_get node_id (nodes g) = Some node ->
  String.eqb (type node) "result" = false ->
  get_related_nodes g node_id None "out" = [(t, e)] ->
  existsb (edge_key_eqb (node_id, id t, relation_type e)) visited = false ->
  dfs g (S r) visited node_id path seq =
  dfs g r ((node_id, id t, relation_type e) :: visited) (id t)
      (path ++ [(relation_type e, id t, type t)]) (seq ++ [label t]).
Proof.
  intros Hget Htype Hrel Hvis. rewrite dfs_unfold, Hget, Htype, Hrel.
  cbn [List.filter fst snd]. rewrite Hvis. cbn [negb List.filter fst].
  destruct (is_priority t); cbn [negb app flat_map fst snd]; apply app_nil_r.
Qed.

Lemma dfs_result g r visited node_id node path seq :
  py.dict_get node_id (nodes g) = Some node ->
  type node = "result"%string ->
  2 <= List.length path ->
  dfs g (S r) visited node_id path seq =
  [mkPathData path seq (_calculate_path_score path)].
Proof.
  intros Hget Htype Hlen. rewrite dfs_unfold, Hget, Htype.
  cbn [String.eqb Ascii.eqb Bool.eqb andb].
  destruct (Nat.leb_spec 2 (List.length path)); [reflexivity|lia].
Qed.

Lemma chain_score (a b c : string) :
  _calculate_path_score
    [("start", a, "problem"); ("requires", b, "action"); ("produces", c, "result")]%string
  = 2.1000000000000001%float.
Proof. vm_compute. reflexivity. Qed.

Section Chain.
Variables (g : KnowledgeGraph) (P A R : KnowledgeNode) (w1 w2 : float)
          (ev1 ev2 : list string) (problem : string).
Hypothesis HP : type P = "problem"%string.
Hypothesis HA : type A = "action"%string.
Hypothesis HR : type R = "result"%string.
Hypothesis HPA : id P <> id A.
Hypothesis HPR : id P <> id R.
Hypothesis HAR : id A <> id R.
Hypothesis Hnodes : Permutation (nodes g) [(id P, P); (id A, A); (id R, R)].
Hypothesis Hedges :
  Permutation (edges g)
              [mkEdge (id P) (id A) "requires" w1 ev1; mkEdge (id A) (id R) "produces" w2 ev2].
Hypothesis Hmatch : text_matches (py.lower problem) P = true.

(** The scenario of the path-search property. *)
Lemma chain_keys : List.NoDup (py.dict_keys (nodes g)).
Proof.
  unfold py.dict_keys. eapply Permutation_NoDup.
  - symmetry. apply (Permutation_map fst), Hnodes.
  - simpl. repeat constructor; simpl; intuition congruence.
Qed.

Lemma chain_get (n : KnowledgeNode) :
  n = P \/ n = A \/ n = R -> py.dict_get (id n) (nodes g) = Some n.
Proof.
  intros Hn. apply py_facts.dict_get_In; [apply chain_keys|].
  eapply Permutation_in; [symmetry; exact Hnodes|].
  simpl. destruct Hn as [->|[->| ->]]; auto.
Qed.

Lemma chain_neq (a b : string) : a <> b -> String.eqb a b = false.
Proof. intros H. now apply String.eqb_neq. Qed.

Lemma chain_problem_nodes : find_nodes g problem (Some "problem"%string) 10 = [P].
Proof.
  unfold find_nodes, py.dict_values.
  set (f := fun node : KnowledgeNode => _).
  assert (Hperm : Permutation (List.filter f (map snd (nodes g))) [P]).
  { etransitivity.
    - apply filter_Permutation, (Permutation_map snd), Hnodes.
    - simpl. subst f. cbv beta. rewrite HP, HA, HR, Hmatch. simpl. reflexivity. }
  apply Permutation_sym, Permutation_length_1_inv in Hperm. rewrite Hperm.
  reflexivity.
Qed.

Lemma chain_edges :
  edges g = [mkEdge (id P) (id A) "requires" w1 ev1; mkEdge (id A) (id R) "produces" w2 ev2] \/
  edges g = [mkEdge (id A) (id R) "produces" w2 ev2; mkEdge (id P) (id A) "requires" w1 ev1].
Proof.
  pose proof (Permutation_length Hedges) as Hlen.
  destruct (edges g) as [|a [|b [|c l]]]; try discriminate.
  destruct (Permutation_length_2 Hedges) as [[-> ->]|[-> ->]]; auto.
Qed.

Lemma chain_related_P :
  get_related_nodes g (id P) None "out" = [(A, mkEdge (id P) (id A) "requires" w1 ev1)].
Proof.
  unfold get_related_nodes, py.dict_contains.
  rewrite (chain_get P) by auto. simpl.
  destruct chain_edges as [-> | ->]; simpl;
    rewrite String.eqb_refl, (chain_neq (id A) (id P)) by congruence; simpl;
    rewrite (chain_get A) by auto; reflexivity.
Qed.

Lemma chain_related_A :
  get_related_nodes g (id A) None "out" = [(R, mkEdge (id A) (id R) "produces" w2 ev2)].
Proof.
  unfold get_related_nodes, py.dict_contains.
  rewrite (chain_get A) by auto. simpl.
  destruct chain_edges as [-> | ->]; simpl;
    rewrite String.eqb_refl, (chain_neq (id P) (id A)) by congruence; simpl;
    rewrite (chain_get R) by auto; reflexivity.
Qed.

(** C2, in the form the code satisfies.  In a graph whose nodes are exactly P (problem), A
    (action) and R (result) and whose edges are exactly P -requires-> A and
    A -produces-> R, a query that matches P with [max_depth = 3] returns
    exactly one path.  Its steps are P (the start), A, R: three steps over two
    edges, and its [length] field is 3; its score is 2.1000000000000001, which
    is strictly positive. *)
Theorem find_solution_path_chain :
  find_solution_path g problem 3 =
    [mkSolutionPath
       [mkStep 1 P "start" "problem"; mkStep 2 A "requires" "action";
        mkStep 3 R "produces" "result"]
       3 2.1000000000000001%float [label P; label A; label R]] /\
  PrimFloat.ltb 0%float 2.1000000000000001%float = true.
Proof.
  split; [|reflexivity].
  unfold find_solution_path. rewrite chain_problem_nodes.
  change (Z.to_nat (3 + 1)) with 4%nat. cbv beta iota zeta.
  rewrite flat_map_singleton.
  rewrite (dfs_single_child g 3 [] (id P) P A (mkEdge (id P) (id A) "requires" w1 ev1));
    [|apply chain_get; auto|rewrite HP; reflexivity|apply chain_related_P|reflexivity].
  rewrite (dfs_single_child g 2 _ (id A) A R (mkEdge (id A) (id R) "produces" w2 ev2));
    [|apply chain_get; auto|rewrite HA; reflexivity|apply chain_related_A|].
  2:{ cbn [existsb relation_type]. unfold edge_key_eqb. cbn [fst snd].
      now rewrite (chain_neq (id A) (id P)) by congruence. }
  rewrite (dfs_result g 1 _ (id R) R); [|apply chain_get; auto|exact HR|simpl; lia].
  cbn [relation_type app]. rewrite HA, HR, chain_score.
  cbn [sort_by_score fold_right insert_by_score firstn flat_map app].
  unfold format_path. cbn [pd_path pd_score pd_sequence format_steps].
  rewrite (chain_get P), (chain_get A), (chain_get R) by auto.
  reflexivity.
Qed.
End Chain.

(** C2, witness: the chain built by [add_node] and [add_edge] calls. *)
Lemma find_solution_path_chain_witness :
  find_solution_path examples.chain_graph "P" 3 =
    [mkSolutionPath
       [mkStep 1 examples.P "start" "problem"; mkStep 2 examples.A "requires" "action";
        mkStep 3 examples.R "produces" "result"]
       3 2.1000000000000001%float ["P"; "A"; "R"]%string] /\
  PrimFloat.ltb 0%float 2.1000000000000001%float = true.
Proof.
  apply (find_solution_path_chain examples.chain_graph examples.P examples.A examples.R
           0.9%float 0.8%float ["doc1"%string] ["doc1"%string] "P");
    try reflexivity; try discriminate.
Defined.

(** Running the search on the concrete chain. *)
Lemma chain_graph_lengths :
  map length (find_solution_path examples.chain_graph "P" 3) = [3%Z].
Proof. vm_compute. reflexivity. Qed.

(** C2, counterexample to the length as stated: on that chain the one path
    returned has [length] 3, not 2. *)
Lemma find_solution_path_chain_length_is_not_2 :
  ~ (exists p, find_solution_path examples.chain_graph "P" 3 = [p] /\ length p = 2%Z).
Proof.
  intros (p & Hp & Hlen).
  pose proof chain_graph_lengths as Hrun.
  rewrite Hp in Hrun. simpl in Hrun. congruence.
Qed.

(** C5, witness: an edge to a node that was never added. *)
Lemma add_edge_unknown_endpoint_rejected_witness :
  fst (add_edge examples.chain_graph examples.dangling_edge) = examples.chain_graph /\
  edges (fst (add_edge examples.chain_graph examples.dangling_edge)) =
    edges examples.chain_graph /\
  exists msg, snd (add_edge examples.chain_graph examples.dangling_edge) = [LogWarning msg].
Proof.
  apply (add_edge_unknown_endpoint_rejected examples.chain_graph examples.dangling_edge).
  right. reflexivity.
Defined.

(** C1, witness: the key of [produces_edge] added again with weight 0.85. *)
Lemma add_edge_merges_by_key_witness :
  List.length (edges (fst (add_edge examples.chain_graph examples.stronger_edge))) = 2 /\
  exists stored,
    List.find (same_key examples.stronger_edge)
              (edges (fst (add_edge examples.chain_graph examples.stronger_edge)))
      = Some stored /\
    weight stored = 0.85%float /\
    (list_to_set (evidence stored) : gset string) = {[ "doc1"%string; "doc2"%string ]}.
Proof.
  destruct (add_edge_merges_by_key examples.chain_graph examples.stronger_edge
              eq_refl eq_refl) as [_ Hmerge].
  destruct (Hmerge examples.produces_edge eq_refl) as (Hlen & _ & Hgt & _).
  split; [exact Hlen|].
  destruct (Hgt eq_refl) as (stored & Hfind & Hw & Hev & _).
  exists stored. split; [exact Hfind|]. split; [exact Hw|].
  rewrite Hev. apply set_eq. intros x. set_solver.
Defined.

End knowledge_graph_facts.

(* --------------------------------------------------------------------- *)
(** ** enhanced_memory.py *)

Module enhanced_memory_facts.
Import enhanced_memory.

Lemma empty_has_no_flag (k : string) (d : gmap string py.Value) :
  size d = 0 -> py.get_truthy k d = false.
Proof.
  intros Hsize. apply map_size_empty_inv in Hsize. subst d.
  unfold py.get_truthy. rewrite lookup_empty. reflexivity.
Qed.

(** The code's nested tests on [metadata] amount to the two flags. *)
Lemma metadata_bonus (metadata : option (gmap string py.Value)) (x : float) :
  (if dict_truthy metadata then
     let d := default ∅ metadata in
     let importance := if py.get_truthy "tool_used" d then (x + 0.1)%float else x in
     if py.get_truthy "reasoning" d then (importance + 0.1)%float else importance
   else x) =
  (let importance := if has_flag "tool_used" metadata then (x + 0.1)%float else x in
   if has_flag "reasoning" metadata then (importance + 0.1)%float else importance).
Proof.
  destruct metadata as [d|]; simpl; [|reflexivity].
  destruct (size d =? 0) eqn:E; simpl; [|reflexivity].
  apply Nat.eqb_eq in E. rewrite !empty_has_no_flag by assumption. reflexivity.
Qed.

(** C3.  For every role, content and metadata, [_calculate_importance]
    returns the capped sum of the specification, min(1.0, 0.5 + 0.1 for a
    user role + 0.1 for more than 200 characters + 0.1 more for more than 500
    + 0.15 for an importance keyword + 0.1 for the tool_used flag + 0.1 for
    the reasoning flag), and the result lies between 0 and 1. *)
Theorem calculate_importance_formula_and_bound (role content : string)
  (metadata : option (gmap string py.Value)) :
  _calculate_importance role content metadata = importance_formula role content metadata /\
  PrimFloat.leb 0%float (_calculate_importance role content metadata) = true /\
  PrimFloat.leb (_calculate_importance role content metadata) 1%float = true.
Proof.
  unfold _calculate_importance, importance_formula. cbv zeta.
  rewrite metadata_bonus. cbv zeta.
  destruct (String.eqb role "user"),
           (200 <? String.length content),
           (500 <? String.length content),
           (existsb (fun keyword => py.str_in keyword (py.lower content)) important_keywords),
           (has_flag "tool_used" metadata),
           (has_flag "reasoning" metadata);
    vm_compute; repeat split.
Qed.

(** C9.  [add] with a content that is empty or made of whitespace only
    returns the object as it was (long-term table, short-term list and
    everything else) and has no effect: no embedding is asked for, nothing is
    logged, no compaction is run. *)
Theorem add_blank_content_is_noop (w : World) (m : EnhancedMemory)
  (role content : string) (metadata : option (gmap string py.Value))
  (conversation_id : option Z) (importance : float) :
  List.forallb py.isspace (list_ascii_of_string content) = true ->
  add w m role content metadata conversation_id importance = (m, []).
Proof.
  intros Hblank. unfold add.
  rewrite (py_facts.strip_spaces content Hblank). simpl.
  rewrite orb_true_r. reflexivity.
Qed.

Lemma same_message_refl (r : row.t) : same_message r r.
Proof. repeat split. Qed.

Lemma same_message_trans (a b c : row.t) :
  same_message a b -> same_message b c -> same_message a c.
Proof. unfold same_message. intuition congruence. Qed.

Lemma mark_summarized_same (w : World) (user : string) (day : option string) (r : row.t) :
  same_message r (mark_summarized w user day r).
Proof.
  unfold mark_summarized. destruct day as [d|]; [|apply same_message_refl].
  destruct (_ && _ && _); [repeat split|apply same_message_refl].
Qed.

(** Rows survive compaction. *)
Lemma kept_refl db : kept db db.
Proof. intros r Hr. exists r. split; [assumption|apply same_message_refl]. Qed.

Lemma kept_trans a b c : kept a b -> kept b c -> kept a c.
Proof.
  intros Hab Hbc r Hr. destruct (Hab r Hr) as (r1 & H1 & S1).
  destruct (Hbc r1 H1) as (r2 & H2 & S2). exists r2. split; [assumption|].
  eapply same_message_trans; eassumption.
Qed.

Lemma compress_day_kept w m summarize acc group :
  kept (fst acc) (fst (compress_day w m summarize acc group)).
Proof.
  destruct acc as [db fx], group as [day combined]. unfold compress_day.
  destruct (py.str_falsy combined); [apply kept_refl|].
  destruct (summarize combined) as [summary|]; [|apply kept_refl].
  destruct (embedder m summary) as [emb|]; [|apply kept_refl].
  simpl. intros r Hr. exists (mark_summarized w (user_id m) day r). split.
  - apply List.in_map, List.in_or_app. left. exact Hr.
  - apply mark_summarized_same.
Qed.

Lemma compress_days_kept w m summarize groups acc :
  kept (fst acc) (fst (fold_left (compress_day w m summarize) groups acc)).
Proof.
  revert acc. induction groups as [|gp groups IH]; intros acc; simpl.
  - apply kept_refl.
  - eapply kept_trans; [apply compress_day_kept|apply IH].
Qed.

Lemma compress_if_needed_kept w m :
  kept (long_term_memory m) (long_term_memory (fst (_compress_old_memory_if_needed w m))).
Proof.
  unfold _compress_old_memory_if_needed.
  destruct (100 <? _); [|apply kept_refl].
  unfold _compress_old_conversations.
  destruct (llm_client m) as [summarize|]; simpl; [|apply kept_refl].
  pose proof (compress_days_kept w m summarize
                (old_days w (user_id m) (seven_days_ago w) (long_term_memory m))
                (long_term_memory m, [])) as H.
  destruct (fold_left _ _ _) as [db fx]. exact H.
Qed.

Lemma compress_if_needed_short_term w m :
  short_term (fst (_compress_old_memory_if_needed w m)) = short_term m.
Proof.
  unfold _compress_old_memory_if_needed.
  destruct (100 <? _); [|reflexivity].
  destruct (_compress_old_conversations w m (seven_days_ago w)). reflexivity.
Qed.


Lemma strip_nonempty (content : string) :
  py.strip content <> EmptyString ->
  py.str_falsy content || py.str_falsy (py.strip content) = false.
Proof.
  intros H. destruct content as [|c s]; [exfalso; apply H; reflexivity|].
  simpl. destruct (py.strip (String c s)); [congruence|reflexivity].
Qed.




(** C9, witness: three spaces. *)
Lemma add_blank_content_is_noop_witness :
  add examples.world examples.memory "user" "   " None None 0.5%float
  = (examples.memory, []).
Proof.
  apply (add_blank_content_is_noop examples.world examples.memory "user" "   ").
  reflexivity.
Defined.


End enhanced_memory_facts.

(* --------------------------------------------------------------------- *)
(** ** embeddings.py *)

Module embeddings_facts.
Import embeddings.

(** C4, in the form the code satisfies.  A backend built by [__init__] with
    the TF-IDF fallback holds a vectorizer already fitted on the dummy corpus,
    so [encode_texts] and [encode_query] called before any [fit_corpus] do not
    fail with NotFittedError: for at least one text [encode_texts] returns the
    normalized TF-IDF matrix over the dummy vocabulary, and for no text at all
    it fails with the ValueError of the empty batch. *)
Theorem tfidf_backend_is_fitted_at_construction (p : Packages) (model_name : string)
  (b : EmbeddingBackend) (texts : list string) (query : string) :
  __init__ p model_name = inl b ->
  backend_name b = "tfidf"%string ->
  exists voc,
    tfidf_vocabulary p ["initialization dummy text"%string] = Some voc /\
    _vectorizer b = Some (mkVectorizer (Some voc) true) /\
    encode_texts p b texts <> inr NotFittedError /\
    encode_query p b query <> inr NotFittedError /\
    (texts <> [] ->
     encode_texts p b texts = inl (normalize p (tfidf_transform p voc texts))) /\
    (texts = [] -> exists msg, encode_texts p b texts = inr (ValueError msg)).
Proof.
  unfold __init__, backend_name. intros Hinit Hbackend.
  destruct (SentenceTransformer p model_name) as [model|].
  { injection Hinit as <-. discriminate Hbackend. }
  destruct (sklearn_available p); [|discriminate].
  unfold vectorizer_fit in Hinit.
  destruct (tfidf_vocabulary p _) as [voc|]; [|discriminate].
  injection Hinit as <-. exists voc.
  split; [reflexivity|]. split; [reflexivity|].
  split; [destruct texts; discriminate|]. split.
  - unfold encode_query. simpl.
    destruct (normalize p _) as [|row0 rest]; discriminate.
  - split; [destruct texts; [congruence|reflexivity]|intros ->; eexists; reflexivity].
Qed.

(** C4, witness: an installation with scikit-learn only. *)
Lemma tfidf_backend_is_fitted_at_construction_witness :
  exists voc,
    tfidf_vocabulary examples.tfidf_only ["initialization dummy text"%string] = Some voc /\
    _vectorizer examples.tfidf_backend = Some (mkVectorizer (Some voc) true) /\
    encode_texts examples.tfidf_only examples.tfidf_backend ["hola"%string]
      <> inr NotFittedError /\
    encode_query examples.tfidf_only examples.tfidf_backend "hola" <> inr NotFittedError /\
    (["hola"%string] <> [] ->
     encode_texts examples.tfidf_only examples.tfidf_backend ["hola"%string]
       = inl (normalize examples.tfidf_only
                (tfidf_transform examples.tfidf_only voc ["hola"%string]))) /\
    (["hola"%string] = [] ->
     exists msg,
       encode_texts examples.tfidf_only examples.tfidf_backend ["hola"%string]
       = inr (ValueError msg)).
Proof.
  apply (tfidf_backend_is_fitted_at_construction examples.tfidf_only "all-MiniLM-L6-v2");
    reflexivity.
Defined.

(** C4, counterexample: with scikit-learn only, the freshly built backend is
    the TF-IDF one, [fit_corpus] has not been called, and both encoders return
    a result instead of raising NotFittedError. *)
Lemma encode_before_fit_does_not_raise :
  __init__ examples.tfidf_only "all-MiniLM-L6-v2" = inl examples.tfidf_backend /\
  backend_name examples.tfidf_backend = "tfidf"%string /\
  encode_texts examples.tfidf_only examples.tfidf_backend ["hola"%string]
    = inl [[0.0%float]] /\
  encode_query examples.tfidf_only examples.tfidf_backend "hola" = inl [0.0%float] /\
  ~ (encode_texts examples.tfidf_only examples.tfidf_backend ["hola"%string]
       = inr NotFittedError /\
     encode_query examples.tfidf_only examples.tfidf_backend "hola"
       = inr NotFittedError).
Proof.
  split; [reflexivity|]. split; [reflexivity|]. split; [reflexivity|].
  split; [reflexivity|]. intros [H _]. discriminate H.
Qed.

End embeddings_facts.

(* --------------------------------------------------------------------- *)
(** ** vector_store.py *)

Module vector_store_facts.
Import vector_store.

(** C6, in the form the code satisfies.  In both stores, [add] with a number of embedding rows
    that differs from the number of metadata entries raises ValueError
    "Embeddings and metas size mismatch" and leaves the store as it was.  With
    equal numbers the call succeeds when the batch has the width of the array
    or index the store holds and, for the FAISS store, faiss can be imported:
    the rows and the metadata are appended.  A store that holds no array or
    index yet, no batch having been accepted, takes any width; one that
    accepted a batch without rows holds its width all the same.  With equal
    numbers and another width, or without faiss, the call raises and the
    store is as it was. *)
Theorem add_checks_counts_and_width (embeddings : ndarray) (metas : list Meta)
  (s : InMemoryVectorStore.t) (fs : FaissVectorStore.t)
  (rt : FaissVectorStore.Runtime) :
  (shape0 embeddings <> List.length metas ->
   InMemoryVectorStore.add s embeddings metas =
     (s, Some (ValueError "Embeddings and metas size mismatch")) /\
   FaissVectorStore.add rt fs embeddings metas =
     (fs, Some (ValueError "Embeddings and metas size mismatch"))) /\
  (shape0 embeddings = List.length metas ->
   (InMemoryVectorStore.width_fits s embeddings ->
    exists s',
      InMemoryVectorStore.add s embeddings metas = (s', None) /\
      InMemoryVectorStore.stored_rows s' =
        InMemoryVectorStore.stored_rows s ++ rows embeddings /\
      InMemoryVectorStore._metas s' = InMemoryVectorStore._metas s ++ metas) /\
   (~ InMemoryVectorStore.width_fits s embeddings ->
    exists e, InMemoryVectorStore.add s embeddings metas = (s, Some e)) /\
   (FaissVectorStore.faiss_available rt = true ->
    FaissVectorStore.width_fits fs embeddings ->
    exists fs',
      FaissVectorStore.add rt fs embeddings metas = (fs', None) /\
      FaissVectorStore.stored_rows fs' =
        FaissVectorStore.stored_rows fs ++
        rows (FaissVectorStore.astype_float32 rt embeddings) /\
      FaissVectorStore._metas fs' = FaissVectorStore._metas fs ++ metas) /\
   (FaissVectorStore.faiss_available rt = false \/
    ~ FaissVectorStore.width_fits fs embeddings ->
    exists e, FaissVectorStore.add rt fs embeddings metas = (fs, Some e))).
Proof.
  split.
  - intros Hne. apply Nat.eqb_neq in Hne.
    unfold InMemoryVectorStore.add, FaissVectorStore.add. rewrite Hne. auto.
  - intros Heq. apply Nat.eqb_eq in Heq.
    unfold InMemoryVectorStore.add, FaissVectorStore.add,
      InMemoryVectorStore.width_fits, FaissVectorStore.width_fits,
      InMemoryVectorStore.stored_rows, FaissVectorStore.stored_rows,
      FaissVectorStore._ensure_index, FaissVectorStore.index_add,
      FaissVectorStore.astype_float32, vstack.
    rewrite Heq. simpl. repeat split.
    + destruct (InMemoryVectorStore._embeddings s) as [old|]; simpl.
      * intros ->. rewrite Nat.eqb_refl. eauto.
      * eauto.
    + destruct (InMemoryVectorStore._embeddings s) as [old|]; simpl.
      * intros Hw. apply Nat.eqb_neq in Hw. rewrite Hw. eauto.
      * intros Hw. exfalso. apply Hw. exact I.
    + intros Hf Hw. rewrite Hf. destruct fs as [[ix|] ms]; simpl in *.
      * rewrite Hw, Nat.eqb_refl. eauto.
      * rewrite Nat.eqb_refl. eauto.
    + intros [Hf | Hw].
      * rewrite Hf. destruct (FaissVectorStore._index fs); simpl; eauto.
      * destruct fs as [[ix|] ms]; simpl in *; [|exfalso; apply Hw; exact I].
        apply Nat.eqb_neq in Hw. rewrite Hw.
        destruct (FaissVectorStore.faiss_available rt); simpl; eauto.
Qed.

(** C6, witness: one row with no metadata is refused; one row of width 2
    with its metadata entry is appended to stores of width 2. *)
Lemma add_checks_counts_and_width_witness :
  (InMemoryVectorStore.add examples.store_width_2 examples.batch_width_2 [] =
     (examples.store_width_2, Some (ValueError "Embeddings and metas size mismatch")) /\
   FaissVectorStore.add examples.with_faiss examples.faiss_store_width_2 examples.batch_width_2 [] =
     (examples.faiss_store_width_2,
      Some (ValueError "Embeddings and metas size mismatch"))) /\
  (exists s',
      InMemoryVectorStore.add examples.store_width_2 examples.batch_width_2
                              examples.batch_metas = (s', None) /\
      InMemoryVectorStore.stored_rows s' =
        InMemoryVectorStore.stored_rows examples.store_width_2 ++
        rows examples.batch_width_2 /\
      InMemoryVectorStore._metas s' =
        InMemoryVectorStore._metas examples.store_width_2 ++ examples.batch_metas) /\
  (exists fs',
      FaissVectorStore.add examples.with_faiss examples.faiss_store_width_2 examples.batch_width_2
                           examples.batch_metas = (fs', None) /\
      FaissVectorStore.stored_rows fs' =
        FaissVectorStore.stored_rows examples.faiss_store_width_2 ++
        rows examples.batch_width_2 /\
      FaissVectorStore._metas fs' =
        FaissVectorStore._metas examples.faiss_store_width_2 ++ examples.batch_metas).
Proof.
  destruct (add_checks_counts_and_width examples.batch_width_2 []
              examples.store_width_2 examples.faiss_store_width_2 examples.with_faiss)
    as [Hrefused _].
  destruct (add_checks_counts_and_width examples.batch_width_2 examples.batch_metas
              examples.store_width_2 examples.faiss_store_width_2 examples.with_faiss)
    as [_ Haccepted].
  destruct (Haccepted eq_refl) as (Hmem & _ & Hfaiss & _).
  split; [|split].
  - apply Hrefused. discriminate.
  - apply Hmem. reflexivity.
  - apply Hfaiss; reflexivity.
Defined.

(** C6, counterexample: one row and one metadata entry, so the numbers are
    equal, but the row has width 3 and the store holds width 2: the call
    raises and the store is as it was. *)
Lemma add_equal_counts_can_fail :
  shape0 examples.batch_width_3 = List.length examples.batch_metas /\
  exists e,
    InMemoryVectorStore.add examples.store_width_2 examples.batch_width_3
                            examples.batch_metas
    = (examples.store_width_2, Some e).
Proof. split; [reflexivity|]. eexists. reflexivity. Qed.

(** A store that accepted a batch without rows is still of size 0 and yet
    holds the width of that batch: a batch of another width is refused. *)
Lemma empty_batch_fixes_width :
  let s := fst (InMemoryVectorStore.add InMemoryVectorStore.__init__ (mkArray 3 []) []) in
  let fs := fst (FaissVectorStore.add examples.with_faiss FaissVectorStore.__init__
                                      (mkArray 3 []) []) in
  InMemoryVectorStore.size s = 0 /\
  FaissVectorStore.size fs = 0 /\
  (exists e, InMemoryVectorStore.add s examples.batch_width_2 examples.batch_metas
             = (s, Some e)) /\
  (exists e, FaissVectorStore.add examples.with_faiss fs examples.batch_width_2
                                  examples.batch_metas
             = (fs, Some e)).
Proof. repeat split; eexists; reflexivity. Qed.

End vector_store_facts.

(* --------------------------------------------------------------------- *)
(** ** brain.py *)

Module brain_facts.
Import brain.

Lemma dict_set_length {V} (k : string) (v : V) (d : py.dict V) :
  List.length (py.dict_set k v d) <= S (List.length d).
Proof.
  induction d as [|[k0 v0] d IH]; simpl; [lia|].
  destruct (String.eqb k0 k); simpl; lia.
Qed.

(** What the code does guarantee: the cache never holds more than one entry
    above [_cache_max_size]. *)
Lemma retrieve_cache_size (b : Brain) (query : string) (top_k : Z) :
  (0 <= _cache_max_size b)%Z ->
  (Z.of_nat (List.length (_retrieve_cache b)) <= _cache_max_size b + 1)%Z ->
  (Z.of_nat (List.length (_retrieve_cache (fst (retrieve b query top_k))))
   <= _cache_max_size b + 1)%Z /\
  _cache_max_size (fst (retrieve b query top_k)) = _cache_max_size b.
Proof.
  intros Hmax Hlen. unfold retrieve.
  destruct (py.dict_get _ _); simpl; [auto|].
  destruct (lookup b query top_k) as [enriched|]; simpl; [|auto].
  split; [|reflexivity].
  pose proof (dict_set_length (cache_key query top_k) enriched
    (if (_cache_max_size b <? Z.of_nat (List.length (_retrieve_cache b)))%Z
     then py.dict_pop_first (_retrieve_cache b) else _retrieve_cache b)) as Hset.
  destruct (Z.ltb_spec (_cache_max_size b) (Z.of_nat (List.length (_retrieve_cache b)))).
  - unfold py.dict_pop_first in *. destruct (_retrieve_cache b); simpl in *; lia.
  - lia.
Qed.

(** A key that is cached is answered from the cache, and nothing changes. *)
Lemma retrieve_hit (b : Brain) (query : string) (top_k : Z) (cached : list Hit) :
  py.dict_get (cache_key query top_k) (_retrieve_cache b) = Some cached ->
  retrieve b query top_k = (b, Some cached).
Proof. intros H. unfold retrieve. rewrite H. reflexivity. Qed.

(** C7, the code at the failing input.  After 101 different queries on a
    fresh [Brain] the cache holds 101 entries, one more than
    [_cache_max_size]: the 101st insertion found 100 entries, the test
    [len > max] was false and nothing was evicted, the oldest entry is still
    there. *)
Theorem retrieve_cache_exceeds_capacity :
  List.length (_retrieve_cache
                 (retrieve_all (__init__ examples.found_nothing) examples.queries_101))
    = 101 /\
  _cache_max_size
    (retrieve_all (__init__ examples.found_nothing) examples.queries_101) = 100%Z /\
  py.dict_get (cache_key "q0" 4)
    (_retrieve_cache
       (retrieve_all (__init__ examples.found_nothing) examples.queries_101))
    = Some [].
Proof. vm_compute. repeat split. Qed.

End brain_facts.

(* ===================================================================== *)
(** * Part II, continued: further laws of the same sources                *)
(* ===================================================================== *)

Module py_laws.

Lemma ltb_irrefl (a : float) : PrimFloat.ltb a a = false.
Proof.
  rewrite FloatAxioms.ltb_spec. unfold SpecFloat.SFltb.
  pose proof (py_facts.SFcompare_swap (Prim2SF a) (Prim2SF a)) as H.
  destruct (SpecFloat.SFcompare (Prim2SF a) (Prim2SF a)) as [[ | | ]|];
    simpl in H; congruence.
Qed.

Lemma ltb_leb (a b : float) : PrimFloat.ltb a b = true -> PrimFloat.leb a b = true.
Proof.
  rewrite FloatAxioms.ltb_spec, FloatAxioms.leb_spec.
  unfold SpecFloat.SFltb, SpecFloat.SFleb.
  destruct (SpecFloat.SFcompare (Prim2SF a) (Prim2SF b)) as [[ | | ]|]; congruence.
Qed.

Lemma SFleb_trans (x y z : SpecFloat.spec_float) :
  SpecFloat.SFleb x y = true -> SpecFloat.SFleb y z = true ->
  SpecFloat.SFleb x z = true.
Proof.
  unfold SpecFloat.SFleb.
  destruct x as [sx|sx| |sx mx ex], y as [sy|sy| |sy my ey], z as [sz|sz| |sz mz ez];
    simpl; try discriminate; try reflexivity;
    try (destruct sx; simpl; try discriminate; try reflexivity);
    try (destruct sy; simpl; try discriminate; try reflexivity);
    try (destruct sz; simpl; try discriminate; try reflexivity);
    change (Pos.compare_cont Eq) with Pos.compare;
    repeat match goal with
    | |- context [(?a ?= ?b)%Z] => destruct (Z.compare_spec a b); simpl
    | |- context [(?a ?= ?b)%positive] => destruct (Pos.compare_spec a b); simpl
    end; try discriminate; try reflexivity; intros; lia.
Qed.

(** [<=] on floats is transitive; a NaN is related to nothing. *)
Lemma leb_trans (a b c : float) :
  PrimFloat.leb a b = true -> PrimFloat.leb b c = true -> PrimFloat.leb a c = true.
Proof. rewrite !FloatAxioms.leb_spec. apply SFleb_trans. Qed.

(** Among numbers that are not NaN, [a < b] or [b <= a]. *)
Lemma leb_total (a b : float) :
  PrimFloat.leb 0%float a = true -> PrimFloat.leb 0%float b = true ->
  PrimFloat.ltb a b = false -> PrimFloat.leb b a = true.
Proof.
  rewrite !FloatAxioms.leb_spec, FloatAxioms.ltb_spec.
  unfold SpecFloat.SFleb, SpecFloat.SFltb.
  rewrite (py_facts.SFcompare_swap (Prim2SF a) (Prim2SF b)).
  change (Prim2SF 0%float) with (SpecFloat.S754_zero false).
  destruct (Prim2SF a) as [sa|sa| |sa ma ea], (Prim2SF b) as [sb|sb| |sb mb eb];
    simpl; try discriminate; try reflexivity; intros _ _;
    match goal with
    | |- context [match ?c with Eq => _ | Lt => _ | Gt => _ end] =>
        destruct c; simpl; congruence
    | _ => idtac
    end.
Qed.

Lemma dict_set_keys_nodup {V} (k : string) (v : V) (d : py.dict V) :
  List.NoDup (py.dict_keys d) -> List.NoDup (py.dict_keys (py.dict_set k v d)).
Proof.
  unfold py.dict_keys. induction d as [|[k0 v0] d IH]; simpl; intros Hnd.
  - constructor; [intros []|constructor].
  - inversion Hnd as [|? ? Hnotin Hnd']; subst.
    destruct (String.eqb k0 k) eqn:E; simpl; [constructor; assumption|].
    constructor; [|auto].
    intros Hin. apply Hnotin. clear IH Hnd Hnd' Hnotin.
    induction d as [|[k1 v1] d IH]; simpl in *.
    + destruct Hin as [<-|[]]. rewrite String.eqb_refl in E. discriminate.
    + destruct (String.eqb k1 k); simpl in Hin; [exact Hin|].
      destruct Hin as [Hin|Hin]; [left; exact Hin|right; auto].
Qed.

Lemma dict_set_In {V} (k : string) (v : V) (d : py.dict V) (k' : string) (v' : V) :
  List.In (k', v') (py.dict_set k v d) -> List.In (k', v') d \/ (k' = k /\ v' = v).
Proof.
  induction d as [|[k0 v0] d IH]; simpl.
  - intros [[= <- <-]|[]]. auto.
  - destruct (String.eqb k0 k) eqn:E; simpl.
    + apply String.eqb_eq in E. subst k0. intros [[= <- <-]|H]; auto.
    + intros [H|H]; [auto|]. destruct (IH H); auto.
Qed.

Lemma dict_set_length_exact {V} (k : string) (v : V) (d : py.dict V) :
  List.length (py.dict_set k v d) =
  if py.dict_contains k d then List.length d else S (List.length d).
Proof.
  unfold py.dict_contains. induction d as [|[k0 v0] d IH]; simpl; [reflexivity|].
  destruct (String.eqb k0 k); simpl; [reflexivity|].
  rewrite IH. destruct (py.dict_get k d); reflexivity.
Qed.

Lemma dict_get_Some_In {V} (k : string) (v : V) (d : py.dict V) :
  py.dict_get k d = Some v -> exists k', String.eqb k' k = true /\ List.In (k', v) d.
Proof.
  induction d as [|[k0 v0] d IH]; simpl; [discriminate|].
  destruct (String.eqb k0 k) eqn:E.
  - intros [= <-]. eauto.
  - intros H. destruct (IH H) as (k' & Hk & Hin). eauto.
Qed.

Lemma slice_to_In {A} (n : Z) (xs : list A) (x : A) :
  List.In x (py.slice_to n xs) -> List.In x xs.
Proof.
  assert (Hfirst : forall k, List.In x (firstn k xs) -> List.In x xs).
  { intros k Hin. rewrite <- (List.firstn_skipn k xs). apply List.in_or_app. now left. }
  unfold py.slice_to. destruct (0 <=? n)%Z; apply Hfirst.
Qed.

Lemma slice_to_length {A} (n : Z) (xs : list A) :
  (0 <= n)%Z -> List.length (py.slice_to n xs) <= Z.to_nat n.
Proof.
  intros H. unfold py.slice_to. destruct (Z.leb_spec 0 n); [|lia].
  rewrite List.length_firstn. lia.
Qed.

Lemma slice_to_all {A} (n : Z) (xs : list A) :
  (Z.of_nat (List.length xs) <= n)%Z -> py.slice_to n xs = xs.
Proof.
  intros H. unfold py.slice_to. destruct (Z.leb_spec 0 n); [|lia].
  apply List.firstn_all2. lia.
Qed.

End py_laws.

Module knowledge_graph_laws.
Import knowledge_graph.

(** X1.  [add_node] is an upsert by id: afterwards the id maps to the node
    given, every other id maps to what it did, the number of nodes grows by
    one exactly when the id was new, the edges are untouched and one row is
    written to the table of nodes. *)
Theorem add_node_upserts (g : KnowledgeGraph) (node : KnowledgeNode) :
  py.dict_get (id node) (nodes (fst (add_node g node))) = Some node /\
  (forall k, k <> id node ->
             py.dict_get k (nodes (fst (add_node g node))) = py.dict_get k (nodes g)) /\
  List.length (nodes (fst (add_node g node))) =
    (if py.dict_contains (id node) (nodes g)
     then List.length (nodes g) else S (List.length (nodes g))) /\
  edges (fst (add_node g node)) = edges g /\
  snd (add_node g node) = [SaveNodeToDb node].
Proof.
  simpl. split; [|split; [|split; [|split]]]; try reflexivity.
  - rewrite py_facts.dict_get_set, String.eqb_refl. reflexivity.
  - intros k Hk. rewrite py_facts.dict_get_set.
    destruct (String.eqb (id node) k) eqn:E; [|reflexivity].
    apply String.eqb_eq in E. congruence.
  - apply py_laws.dict_set_length_exact.
Qed.

Lemma add_edge_nodes (g : KnowledgeGraph) (edge : KnowledgeEdge) :
  nodes (fst (add_edge g edge)) = nodes g.
Proof.
  unfold add_edge.
  destruct (negb _); [reflexivity|]. destruct (negb _); [reflexivity|].
  destruct (List.find _ _) as [existing|]; [|reflexivity].
  destruct (PrimFloat.ltb _ _); reflexivity.
Qed.

Lemma add_edge_keys_nodup (g : KnowledgeGraph) (edge : KnowledgeEdge) :
  List.NoDup (map edge_key (edges g)) ->
  List.NoDup (map edge_key (edges (fst (add_edge g edge)))).
Proof.
  intros Hnd. unfold add_edge.
  destruct (negb _); [exact Hnd|]. destruct (negb _); [exact Hnd|].
  destruct (List.find (same_key edge) (edges g)) as [existing|] eqn:Hf.
  - destruct (PrimFloat.ltb _ _); simpl; [|exact Hnd].
    now rewrite knowledge_graph_facts.update_first_keys.
  - simpl. rewrite List.map_app. simpl.
    apply List.NoDup_app; [exact Hnd| |].
    + constructor; [intros []|constructor].
    + intros k Hk [<-|[]]. revert Hk. now apply knowledge_graph_facts.find_none_key.
Qed.

(** X2.  From the empty graph, after any sequence of [add_node] and
    [add_edge] calls, no id is stored twice, every node is filed under its own
    id, and no (source, target, relation_type) key is stored twice. *)
Theorem reachable_graph_has_unique_keys (calls : list Call) :
  List.NoDup (py.dict_keys (nodes (run calls))) /\
  filed_by_id (nodes (run calls)) /\
  List.NoDup (map edge_key (edges (run calls))).
Proof.
  unfold run.
  assert (Hinv : forall cs g,
             List.NoDup (py.dict_keys (nodes g)) /\ filed_by_id (nodes g) /\
             List.NoDup (map edge_key (edges g)) ->
             List.NoDup (py.dict_keys (nodes (fold_left call cs g))) /\
             filed_by_id (nodes (fold_left call cs g)) /\
             List.NoDup (map edge_key (edges (fold_left call cs g)))).
  { induction cs as [|c cs IH]; intros g Hg; simpl; [exact Hg|].
    apply IH. destruct Hg as (Hk & Hid & He). destruct c as [node|edge]; simpl.
    - split; [now apply py_laws.dict_set_keys_nodup|]. split; [|exact He].
      apply List.Forall_forall. intros [k v] Hin.
      apply py_laws.dict_set_In in Hin as [Hin|[-> ->]]; [|reflexivity].
      apply (proj1 (List.Forall_forall _ _) Hid _ Hin).
    - rewrite add_edge_nodes. split; [exact Hk|]. split; [exact Hid|].
      now apply add_edge_keys_nodup. }
  apply Hinv. simpl. repeat split; constructor.
Qed.

Lemma find_app_new (edge : KnowledgeEdge) (es : list KnowledgeEdge) :
  List.find (same_key edge) es = None ->
  List.find (same_key edge) (es ++ [edge]) = Some edge.
Proof.
  induction es as [|e es IH]; simpl.
  - intros _. assert (same_key edge edge = true) as ->; [|reflexivity].
    now apply knowledge_graph_facts.same_key_true.
  - destruct (same_key edge e); [discriminate|exact IH].
Qed.

(** X3.  [add_edge] is idempotent: a second call with the same edge leaves
    the graph the first call produced, and writes nothing to the database (at
    most it logs the warning again). *)
Theorem add_edge_twice (g : KnowledgeGraph) (edge : KnowledgeEdge) :
  fst (add_edge (fst (add_edge g edge)) edge) = fst (add_edge g edge) /\
  List.Forall is_log (snd (add_edge (fst (add_edge g edge)) edge)).
Proof.
  destruct (py.dict_contains (source edge) (nodes g)) eqn:Hs.
  2:{ assert (Hfirst : add_edge g edge = (g, [LogWarning
        ("Source node " ++ source edge ++ " not found, skipping edge")%string])).
      { unfold add_edge. rewrite Hs. reflexivity. }
      rewrite Hfirst. simpl fst. rewrite Hfirst. simpl.
      split; [reflexivity|]. constructor; [exact I|constructor]. }
  destruct (py.dict_contains (target edge) (nodes g)) eqn:Ht.
  2:{ assert (Hfirst : add_edge g edge = (g, [LogWarning
        ("Target node " ++ target edge ++ " not found, skipping edge")%string])).
      { unfold add_edge. rewrite Hs, Ht. reflexivity. }
      rewrite Hfirst. simpl fst. rewrite Hfirst. simpl.
      split; [reflexivity|]. constructor; [exact I|constructor]. }
  assert (Hnoop : forall g1 stored,
             nodes g1 = nodes g ->
             List.find (same_key edge) (edges g1) = Some stored ->
             PrimFloat.ltb (weight stored) (weight edge) = false ->
             add_edge g1 edge = (g1, [])).
  { intros g1 stored Hn Hf Hlt. unfold add_edge. rewrite Hn, Hs, Ht. simpl.
    rewrite Hf, Hlt. reflexivity. }
  destruct (List.find (same_key edge) (edges g)) as [existing|] eqn:Hf.
  - destruct (PrimFloat.ltb (weight existing) (weight edge)) eqn:Hlt.
    + assert (Hfirst : fst (add_edge g edge)
                       = mkGraph (nodes g) (update_first edge (edges g))).
      { unfold add_edge. rewrite Hs, Ht. simpl. rewrite Hf, Hlt. reflexivity. }
      rewrite Hfirst.
      rewrite (Hnoop _ (strengthen edge existing)); simpl;
        [split; [reflexivity|constructor]|reflexivity| |apply py_laws.ltb_irrefl].
      now apply knowledge_graph_facts.update_first_find.
    + rewrite (Hnoop g existing eq_refl Hf Hlt). simpl.
      rewrite (Hnoop g existing eq_refl Hf Hlt). simpl.
      split; [reflexivity|constructor].
  - assert (Hfirst : fst (add_edge g edge) = mkGraph (nodes g) (edges g ++ [edge])).
    { unfold add_edge. rewrite Hs, Ht. simpl. rewrite Hf. reflexivity. }
    rewrite Hfirst.
    rewrite (Hnoop _ edge); simpl;
      [split; [reflexivity|constructor]|reflexivity| |apply py_laws.ltb_irrefl].
    now apply find_app_new.
Qed.

(** X4.  Every node [find_nodes] returns is stored, matches the query in its
    label or description without regard to case, and has the requested type
    when one is requested; a non-negative [limit] bounds the number of
    results; with a [limit] of at least the number of nodes, every such node
    is returned. *)
Theorem find_nodes_sound_and_bounded (g : KnowledgeGraph) (query : string)
  (node_type : option string) (limit : Z) :
  (forall node, List.In node (find_nodes g query node_type limit) ->
     List.In node (py.dict_values (nodes g)) /\
     text_matches (py.lower query) node = true /\
     (filter_set node_type = true -> Some (type node) = node_type)) /\
  ((0 <= limit)%Z ->
   List.length (find_nodes g query node_type limit) <= Z.to_nat limit) /\
  ((Z.of_nat (List.length (nodes g)) <= limit)%Z ->
   forall node,
     List.In node (py.dict_values (nodes g)) ->
     text_matches (py.lower query) node = true ->
     (filter_set node_type = true -> Some (type node) = node_type) ->
     List.In node (find_nodes g query node_type limit)).
Proof.
  unfold find_nodes. split; [|split].
  - intros node Hin. apply py_laws.slice_to_In in Hin.
    apply List.filter_In in Hin as [Hin Hf]. split; [exact Hin|].
    apply andb_prop in Hf as [Hty Hm]. split; [exact Hm|].
    intros Hset. rewrite Hset in Hty. simpl in Hty.
    destruct node_type as [t|]; [|discriminate]. simpl in Hty.
    apply negb_true_iff, negb_false_iff, String.eqb_eq in Hty. now rewrite Hty.
  - apply py_laws.slice_to_length.
  - intros Hlimit node Hin Hm Hty.
    rewrite py_laws.slice_to_all.
    + apply List.filter_In. split; [exact Hin|]. rewrite Hm, andb_true_r.
      destruct (filter_set node_type) eqn:Hset; [|reflexivity]. simpl.
      specialize (Hty eq_refl). subst node_type. simpl.
      now rewrite String.eqb_refl.
    + pose proof (List.filter_length_le
                    (fun node0 =>
                       negb (filter_set node_type &&
                             negb (String.eqb (type node0) (default ""%string node_type))) &&
                       text_matches (py.lower query) node0)
                    (py.dict_values (nodes g))) as Hle.
      unfold py.dict_values in *. rewrite List.length_map in Hle. lia.
Qed.

(** X5.  [get_related_nodes] returns nothing for an unknown node; every pair
    it returns holds a stored edge that passes the relation filter and either
    leaves the node (directions out, both), paired with the node stored under
    its target, or enters it (directions in, both), paired with the node
    stored under its source. *)
Theorem get_related_nodes_sound (g : KnowledgeGraph) (node_id : string)
  (relation : option string) (direction : string) :
  (py.dict_contains node_id (nodes g) = false ->
   get_related_nodes g node_id relation direction = []) /\
  (forall n e,
     List.In (n, e) (get_related_nodes g node_id relation direction) ->
     List.In e (edges g) /\
     (filter_set relation = true -> Some (relation_type e) = relation) /\
     ((source e = node_id /\ py.dict_get (target e) (nodes g) = Some n /\
       (direction = "out" \/ direction = "both")%string) \/
      (target e = node_id /\ py.dict_get (source e) (nodes g) = Some n /\
       (direction = "in" \/ direction = "both")%string))).
Proof.
  unfold get_related_nodes. split.
  - intros ->. reflexivity.
  - intros n e Hin. destruct (negb _); [destruct Hin|].
    apply List.in_flat_map in Hin as (edge & Hedge & Hin).
    destruct (filter_set relation && _) eqn:Hrel; [destruct Hin|].
    assert (Hr : filter_set relation = true -> Some (relation_type edge) = relation).
    { intros Hset. rewrite Hset in Hrel. simpl in Hrel.
      destruct relation as [r|]; [|discriminate]. simpl in Hrel.
      apply negb_false_iff, String.eqb_eq in Hrel. now rewrite Hrel. }
    apply List.in_app_or in Hin as [Hin|Hin].
    + destruct (_ && _) eqn:Hdir in Hin; [|destruct Hin].
      apply andb_prop in Hdir as [Hd Hsrc]. apply String.eqb_eq in Hsrc.
      destruct (py.dict_get (target edge) (nodes g)) as [t|] eqn:Hget; [|destruct Hin].
      destruct Hin as [[= <- <-]|[]]. split; [exact Hedge|]. split; [exact Hr|].
      left. split; [exact Hsrc|]. split; [exact Hget|].
      apply orb_prop in Hd as [Hd|Hd]; apply String.eqb_eq in Hd; auto.
    + destruct (_ && _) eqn:Hdir in Hin; [|destruct Hin].
      apply andb_prop in Hdir as [Hd Htgt]. apply String.eqb_eq in Htgt.
      destruct (py.dict_get (source edge) (nodes g)) as [t|] eqn:Hget; [|destruct Hin].
      destruct Hin as [[= <- <-]|[]]. split; [exact Hedge|]. split; [exact Hr|].
      right. split; [exact Htgt|]. split; [exact Hget|].
      apply orb_prop in Hd as [Hd|Hd]; apply String.eqb_eq in Hd; auto.
Qed.

Lemma path_score_bound (path : list PathItem) :
  PrimFloat.leb 0%float (_calculate_path_score path) = true.
Proof.
  unfold _calculate_path_score. destruct path as [|it path]; [reflexivity|].
  cbv zeta. unfold py.max.
  match goal with |- context [PrimFloat.ltb 0%float ?s] =>
    destruct (PrimFloat.ltb 0%float s) eqn:E end.
  - now apply py_laws.ltb_leb.
  - reflexivity.
Qed.

(** X6.  [_calculate_path_score] never returns a negative number or a NaN,
    whatever the path. *)
Theorem path_score_is_not_negative (path : list PathItem) :
  PrimFloat.leb 0%float (_calculate_path_score path) = true /\
  PrimFloat.eqb (_calculate_path_score path) (_calculate_path_score path) = true.
Proof.
  pose proof (path_score_bound path) as H. split; [exact H|].
  rewrite FloatAxioms.eqb_spec. rewrite FloatAxioms.leb_spec in H.
  unfold SpecFloat.SFeqb. unfold SpecFloat.SFleb in H.
  pose proof (py_facts.SFcompare_swap (Prim2SF (_calculate_path_score path))
                (Prim2SF (_calculate_path_score path))) as Hswap.
  destruct (SpecFloat.SFcompare (Prim2SF (_calculate_path_score path))
              (Prim2SF (_calculate_path_score path))) as [[ | | ]|] eqn:E;
    simpl in Hswap; try congruence.
  unfold SpecFloat.SFcompare in *.
  destruct (Prim2SF 0%float), (Prim2SF (_calculate_path_score path)); discriminate.
Qed.

Lemma dfs_found (g : KnowledgeGraph) :
  forall remaining visited node_id path seq pd,
    List.In pd (dfs g remaining visited node_id path seq) ->
    2 <= List.length (pd_path pd) /\
    S (List.length (pd_path pd)) <= List.length path + remaining /\
    pd_score pd = _calculate_path_score (pd_path pd).
Proof.
  induction remaining as [|r IH]; intros visited node_id path seq pd Hin;
    [destruct Hin|].
  rewrite knowledge_graph_facts.dfs_unfold in Hin.
  destruct (py.dict_get node_id (nodes g)) as [node|]; [|destruct Hin].
  destruct (String.eqb (type node) "result").
  - destruct (Nat.leb_spec 2 (List.length path)); [|destruct Hin].
    destruct Hin as [<-|[]]. simpl. split; [assumption|]. split; [lia|reflexivity].
  - cbv zeta in Hin. apply List.in_flat_map in Hin as (te & _ & Hin).
    apply IH in Hin as (H2 & Hlen & Hscore). rewrite List.length_app in Hlen.
    simpl in Hlen. split; [assumption|]. split; [lia|assumption].
Qed.

Lemma insert_by_score_In (x pd : PathData) (l : list PathData) :
  List.In pd (insert_by_score x l) -> pd = x \/ List.In pd l.
Proof.
  induction l as [|y l IH]; simpl.
  - intros [<-|[]]. now left.
  - destruct (PrimFloat.ltb _ _); simpl.
    + intros [<-|H]; [right; now left|]. destruct (IH H); auto.
    + intros [<-|H]; auto.
Qed.

Lemma sort_by_score_In (pd : PathData) (l : list PathData) :
  List.In pd (sort_by_score l) -> List.In pd l.
Proof.
  unfold sort_by_score. induction l as [|x l IH]; simpl; [auto|].
  intros H. apply insert_by_score_In in H as [->|H]; auto.
Qed.

Lemma format_steps_length (g : KnowledgeGraph) (items : list PathItem) (i : Z) :
  List.length (format_steps g i items) <= List.length items.
Proof.
  revert i. induction items as [|[[relation node_id] node_type] items IH]; intros i;
    simpl; [lia|].
  rewrite List.length_app. specialize (IH (i + 1)%Z).
  destruct (py.dict_get node_id (nodes g)); simpl; lia.
Qed.

Lemma format_path_length (g : KnowledgeGraph) (pd : PathData) :
  List.length (format_path g pd) <= 1.
Proof. unfold format_path. destruct (format_steps _ _ _); simpl; lia. Qed.

Lemma flat_map_at_most_one {A B} (f : A -> list B) (l : list A) :
  (forall x, List.length (f x) <= 1) ->
  List.length (flat_map f l) <= List.length l.
Proof.
  intros Hf. induction l as [|x l IH]; simpl; [lia|].
  rewrite List.length_app. specialize (Hf x). lia.
Qed.

Lemma no_element_nil {A} (l : list A) : (forall x, ~ List.In x l) -> l = [].
Proof. destruct l as [|x l]; [reflexivity|]. intros H. destruct (H x). now left. Qed.

(** X7.  [find_solution_path] returns at most 5 paths; each has between 1
    and [max_depth + 1] steps, a [length] equal to its number of steps and a
    score that is not negative; with [max_depth] below 1 it returns nothing. *)
Theorem find_solution_path_bounds (g : KnowledgeGraph) (problem : string)
  (max_depth : Z) :
  List.length (find_solution_path g problem max_depth) <= 5 /\
  List.Forall
    (fun sp =>
       (1 <= length sp <= max_depth + 1)%Z /\
       length sp = Z.of_nat (List.length (path sp)) /\
       PrimFloat.leb 0%float (score sp) = true)
    (find_solution_path g problem max_depth) /\
  ((max_depth < 1)%Z -> find_solution_path g problem max_depth = []).
Proof.
  unfold find_solution_path.
  set (problem_nodes :=
         match find_nodes g problem (Some "problem"%string) 10 with
         | [] => _
         | _ => _
         end).
  set (paths := flat_map _ problem_nodes).
  assert (Hpaths : forall pd, List.In pd paths ->
            2 <= List.length (pd_path pd) /\
            S (List.length (pd_path pd)) <= 1 + Z.to_nat (max_depth + 1) /\
            pd_score pd = _calculate_path_score (pd_path pd)).
  { intros pd Hin. subst paths. apply List.in_flat_map in Hin as (pn & _ & Hin).
    now apply dfs_found in Hin. }
  assert (Hout : flat_map (format_path g) (firstn 5 (sort_by_score paths)) =
                 match problem_nodes with
                 | [] => []
                 | _ => flat_map (format_path g) (firstn 5 (sort_by_score paths))
                 end).
  { destruct problem_nodes eqn:E; [|reflexivity]. subst paths. reflexivity. }
  rewrite <- Hout. clear Hout. split; [|split].
  - etransitivity; [apply flat_map_at_most_one, format_path_length|].
    rewrite List.length_firstn. lia.
  - apply List.Forall_forall. intros sp Hin.
    apply List.in_flat_map in Hin as (pd & Hpd & Hin).
    assert (Hpd' : List.In pd paths).
    { apply sort_by_score_In. rewrite <- (List.firstn_skipn 5 (sort_by_score paths)).
      apply List.in_or_app. now left. }
    destruct (Hpaths pd Hpd') as (H2 & Hlen & Hscore).
    unfold format_path in Hin.
    pose proof (format_steps_length g (pd_path pd) 0) as Hsteps.
    destruct (format_steps g 0 (pd_path pd)) as [|st steps] eqn:E; [destruct Hin|].
    destruct Hin as [<-|[]]. simpl in *. split; [lia|]. split; [reflexivity|].
    rewrite Hscore. apply path_score_bound.
  - intros Hdepth. assert (paths = []) as ->; [|reflexivity].
    apply no_element_nil. intros pd Hin. apply Hpaths in Hin as (H2 & Hlen & _). lia.
Qed.

Lemma dict_count_fold {K : Type} (key : K -> string) (t : string) (xs : list K) :
  forall d,
    py.dict_get t (fold_left (py.dict_count key) xs d) =
    if count_by key t xs =? 0 then py.dict_get t d
    else Some (default 0%Z (py.dict_get t d) + Z.of_nat (count_by key t xs))%Z.
Proof.
  unfold count_by. induction xs as [|x xs IH]; intros d; simpl; [reflexivity|].
  rewrite IH. unfold py.dict_count. rewrite py_facts.dict_get_set.
  clear IH. destruct (String.eqb (key x) t) eqn:Ek; simpl; [|reflexivity].
  apply String.eqb_eq in Ek. rewrite Ek.
  destruct (Nat.eqb_spec (List.length (List.filter (fun x0 => String.eqb (key x0) t) xs)) 0)
    as [E|E]; f_equal; lia.
Qed.

(** X8.  [get_statistics] reports the number of nodes and edges, and under
    each type (each relation) exactly the number of nodes of that type (edges
    of that relation); a type or relation nothing carries has no entry. *)
Theorem get_statistics_counts (g : KnowledgeGraph) :
  total_nodes (get_statistics g) = Z.of_nat (List.length (nodes g)) /\
  total_edges (get_statistics g) = Z.of_nat (List.length (edges g)) /\
  (forall t,
      py.dict_get t (nodes_by_type (get_statistics g)) =
      if count_by type t (py.dict_values (nodes g)) =? 0 then None
      else Some (Z.of_nat (count_by type t (py.dict_values (nodes g))))) /\
  (forall r,
      py.dict_get r (relations_by_type (get_statistics g)) =
      if count_by relation_type r (edges g) =? 0 then None
      else Some (Z.of_nat (count_by relation_type r (edges g)))).
Proof.
  split; [reflexivity|]. split; [reflexivity|]. simpl.
  split; intros t; rewrite dict_count_fold; reflexivity.
Qed.

Lemma filed_key (d : py.dict KnowledgeNode) (k : string) (n : KnowledgeNode) :
  filed_by_id d -> py.dict_get k d = Some n -> k = id n.
Proof.
  intros Hf Hget. apply py_laws.dict_get_Some_In in Hget as (k' & Hk & Hin).
  apply String.eqb_eq in Hk. subst k'.
  apply (proj1 (List.Forall_forall _ _) Hf (k, n) Hin).
Qed.

Lemma stored_node_get (g : KnowledgeGraph) (n : KnowledgeNode) :
  well_filed g -> List.In n (py.dict_values (nodes g)) ->
  py.dict_get (id n) (nodes g) = Some n.
Proof.
  intros [Hnd Hf] Hin. unfold py.dict_values in Hin.
  apply List.in_map_iff in Hin as ([k v] & <- & Hin).
  pose proof (proj1 (List.Forall_forall _ _) Hf (k, v) Hin) as Hk. simpl in Hk.
  subst k. simpl. now apply py_facts.dict_get_In.
Qed.

Lemma related_out_In (g : KnowledgeGraph) (node_id : string)
  (n : KnowledgeNode) (e : KnowledgeEdge) :
  List.In (n, e) (get_related_nodes g node_id None "out") ->
  List.In e (edges g) /\ source e = node_id /\
  py.dict_get (target e) (nodes g) = Some n.
Proof.
  unfold get_related_nodes. destruct (negb _); [intros []|].
  intros Hin. apply List.in_flat_map in Hin as (edge & Hedge & Hin).
  simpl in Hin. rewrite List.app_nil_r in Hin.
  destruct (String.eqb (source edge) node_id) eqn:Hs; [|destruct Hin].
  destruct (py.dict_get (target edge) (nodes g)) as [t|] eqn:Hget; [|destruct Hin].
  destruct Hin as [[= <- <-]|[]]. apply String.eqb_eq in Hs. auto.
Qed.

Lemma chained_snoc {A} (R : A -> A -> Prop) (pre : list A) (a b : A) :
  chained R (pre ++ [a]) -> R a b -> chained R ((pre ++ [a]) ++ [b]).
Proof.
  induction pre as [|x pre IH]; simpl; intros Hc Hab; [auto|].
  destruct (pre ++ [a]) as [|y rest] eqn:E.
  - destruct pre; discriminate.
  - simpl. destruct Hc as [Hxy Hrest]. split; [exact Hxy|]. now apply IH.
Qed.

Lemma dfs_sound (g : KnowledgeGraph) :
  well_filed g ->
  forall remaining visited node_id path seq pd,
    List.Forall2 (item_shows g) path seq ->
    chained (item_follows g) path ->
    (exists pre last, path = pre ++ [last] /\ item_node last = node_id) ->
    List.In pd (dfs g remaining visited node_id path seq) ->
    List.Forall2 (item_shows g) (pd_path pd) (pd_sequence pd) /\
    chained (item_follows g) (pd_path pd) /\
    (exists ext, pd_path pd = path ++ ext) /\
    (exists pre last, pd_path pd = pre ++ [last] /\ item_type last = "result"%string).
Proof.
  intros [Hnd Hfiled].
  induction remaining as [|r IH]; intros visited node_id path seq pd Hshow Hchain Hend Hin;
    [destruct Hin|].
  rewrite knowledge_graph_facts.dfs_unfold in Hin.
  destruct (py.dict_get node_id (nodes g)) as [nd|] eqn:Hget; [|destruct Hin].
  destruct (String.eqb (type nd) "result") eqn:Hres.
  - destruct (2 <=? List.length path); [|destruct Hin].
    destruct Hin as [<-|[]]. simpl. split; [exact Hshow|]. split; [exact Hchain|].
    split; [exists []; now rewrite List.app_nil_r|].
    destruct Hend as (pre & last & -> & <-). exists pre, last. split; [reflexivity|].
    apply List.Forall2_app_inv_l in Hshow as (s1 & s2 & _ & Hl & _).
    inversion Hl as [|? lbl ? ? (n & Hn & _ & Hty & _) _]; subst.
    rewrite Hget in Hn. injection Hn as <-.
    apply String.eqb_eq in Hres. congruence.
  - cbv zeta in Hin. apply List.in_flat_map in Hin as ([t e] & Hte & Hin).
    assert (Hrel : List.In (t, e) (get_related_nodes g node_id None "out")).
    { apply List.in_app_or in Hte as [Hte|Hte];
        apply List.filter_In in Hte as [Hte _];
        apply List.filter_In in Hte as [Hte _]; exact Hte. }
    apply related_out_In in Hrel as (He & Hsrc & Htgt).
    pose proof (filed_key _ _ _ Hfiled Htgt) as Hid.
    simpl fst in Hin. simpl snd in Hin.
    destruct Hend as (pre & last & -> & <-).
    apply IH in Hin.
    + destruct Hin as (H1 & H2 & (ext & H3) & H4). split; [exact H1|].
      split; [exact H2|]. split; [|exact H4].
      exists ([(relation_type e, id t, type t)] ++ ext).
      rewrite H3, <- !List.app_assoc. reflexivity.
    + apply List.Forall2_app; [exact Hshow|]. constructor; [|constructor].
      exists t. unfold item_node, item_type. simpl. rewrite <- Hid. auto.
    + apply chained_snoc; [exact Hchain|].
      exists e. repeat split; auto.
    + exists (pre ++ [last]), (relation_type e, id t, type t). auto.
Qed.

Lemma format_steps_renders (g : KnowledgeGraph) (items : list PathItem)
  (seq : list string) :
  List.Forall2 (item_shows g) items seq ->
  forall i, (0 < i)%Z ->
  exists steps,
    format_steps g i items = steps /\
    List.Forall2 (renders g) items steps /\
    map step steps =
      map (fun k => (i + Z.of_nat (S k))%Z) (List.seq 0 (List.length steps)) /\
    map (fun s => label (node s)) steps = seq.
Proof.
  induction 1 as [|[[rel nid] ty] lbl items seq (n & Hn & Hid & Hty & Hlbl) _ IH];
    intros i Hi.
  - exists []. repeat split. constructor.
  - destruct (IH (i + 1)%Z) as (steps & Hrun & Hren & Hnum & Hlab); [lia|].
    unfold item_node, item_type in *. simpl in *.
    rewrite Hn, Hrun. destruct (Z.ltb_spec 0 i); [|lia].
    eexists. split; [reflexivity|]. split; [|split].
    + constructor; [|exact Hren]. unfold renders, item_node, item_relation, item_type.
      simpl. rewrite Hid. auto.
    + simpl. f_equal; try lia. rewrite Hnum, <- List.seq_shift, List.map_map.
      apply List.map_ext. intros k. lia.
    + simpl. now rewrite Hlbl, Hlab.
Qed.

Lemma renders_chain (g : KnowledgeGraph) (items : list PathItem) (steps : list Step) :
  List.Forall2 (renders g) items steps ->
  chained (item_follows g) items -> chained (step_follows g) steps.
Proof.
  induction 1 as [|a s items steps Ha Hrest IH]; [auto|].
  destruct Hrest as [|b s' items' steps' Hb Hrest']; [auto|].
  intros [Hab Hc]. split; [|now apply IH].
  destruct Ha as (Ha1 & _), Hb as (Hb1 & Hb2 & _).
  unfold step_follows. rewrite Ha1, Hb1, Hb2. exact Hab.
Qed.

Lemma find_nodes_In (g : KnowledgeGraph) (query t : string) (limit : Z)
  (n : KnowledgeNode) :
  filter_set (Some t) = true ->
  List.In n (find_nodes g query (Some t) limit) ->
  List.In n (py.dict_values (nodes g)) /\ type n = t /\
  text_matches (py.lower query) n = true.
Proof.
  unfold find_nodes. intros Hset Hin. apply py_laws.slice_to_In in Hin.
  apply List.filter_In in Hin as [Hin Hf]. apply andb_prop in Hf as [Hty Hm].
  rewrite Hset in Hty. simpl in Hty. apply negb_true_iff, negb_false_iff, String.eqb_eq in Hty. auto.
Qed.

Lemma Forall2_snoc_inv {A B} (R : A -> B -> Prop) (pre : list A) (a : A)
  (l : list B) :
  List.Forall2 R (pre ++ [a]) l ->
  exists before b, l = before ++ [b] /\ R a b /\
                   List.length before = List.length pre.
Proof.
  intros H. apply List.Forall2_app_inv_l in H as (l1 & l2 & H1 & H2 & ->).
  inversion H2 as [|? b ? l2' Hab Hnil]; subst. inversion Hnil; subst.
  exists l1, b. split; [reflexivity|]. split; [exact Hab|].
  symmetry. now apply List.Forall2_length in H1.
Qed.

Lemma edge_key_eqb_eq (a b : EdgeKey) : edge_key_eqb a b = true <-> a = b.
Proof.
  destruct a as [[a1 a2] a3], b as [[b1 b2] b3]. unfold edge_key_eqb. simpl.
  rewrite !andb_true_iff, !String.eqb_eq. split.
  - intros [[-> ->] ->]. reflexivity.
  - intros [= -> -> ->]. auto.
Qed.

Lemma not_visited (k : EdgeKey) (visited : list EdgeKey) :
  existsb (edge_key_eqb k) visited = false -> ~ List.In k visited.
Proof.
  intros Hex Hin. assert (existsb (edge_key_eqb k) visited = true); [|congruence].
  apply List.existsb_exists. exists k. split; [exact Hin|now apply edge_key_eqb_eq].
Qed.

Lemma path_edges_snoc (pre : list PathItem) (a b : PathItem) :
  path_edges ((pre ++ [a]) ++ [b]) =
  path_edges (pre ++ [a]) ++ [(item_node a, item_node b, item_relation b)].
Proof.
  induction pre as [|x pre IH]; [reflexivity|].
  change (((x :: pre) ++ [a]) ++ [b]) with (x :: ((pre ++ [a]) ++ [b])).
  change ((x :: pre) ++ [a]) with (x :: (pre ++ [a])).
  destruct (pre ++ [a]) as [|y rest] eqn:E; [destruct pre; discriminate|].
  change (path_edges (x :: (y :: rest) ++ [b]))
    with ((item_node x, item_node y, item_relation y) :: path_edges ((y :: rest) ++ [b])).
  rewrite IH. reflexivity.
Qed.

Lemma dfs_no_edge_twice (g : KnowledgeGraph) :
  forall remaining visited node_id path seq pd,
    List.NoDup (path_edges path) ->
    (forall k, List.In k (path_edges path) -> List.In k visited) ->
    (exists pre last, path = pre ++ [last] /\ item_node last = node_id) ->
    List.In pd (dfs g remaining visited node_id path seq) ->
    List.NoDup (path_edges (pd_path pd)).
Proof.
  induction remaining as [|r IH]; intros visited node_id path seq pd Hnd Hsub Hend Hin;
    [destruct Hin|].
  rewrite knowledge_graph_facts.dfs_unfold in Hin.
  destruct (py.dict_get node_id (nodes g)) as [nd|]; [|destruct Hin].
  destruct (String.eqb (type nd) "result").
  - destruct (2 <=? List.length path); [|destruct Hin].
    destruct Hin as [<-|[]]. exact Hnd.
  - cbv zeta in Hin. apply List.in_flat_map in Hin as ([t e] & Hte & Hin).
    assert (Hfresh : ~ List.In (node_id, id t, relation_type e) visited).
    { apply not_visited.
      apply List.in_app_or in Hte as [Hte|Hte];
        apply List.filter_In in Hte as [Hte _];
        apply List.filter_In in Hte as [_ Hte];
        now apply negb_true_iff in Hte. }
    simpl fst in Hin. simpl snd in Hin.
    destruct Hend as (pre & last & -> & <-).
    apply IH in Hin; [exact Hin| | |].
    + rewrite path_edges_snoc. apply List.NoDup_app; [exact Hnd| |].
      * repeat constructor. intros [].
      * intros k Hk [<-|[]]. apply Hfresh, Hsub, Hk.
    + intros k Hk. rewrite path_edges_snoc in Hk.
      apply List.in_app_or in Hk as [Hk|[<-|[]]]; [right; now apply Hsub|now left].
    + exists (pre ++ [last]), (relation_type e, id t, type t). auto.
Qed.

Lemma renders_edges (g : KnowledgeGraph) (items : list PathItem) (steps : list Step) :
  List.Forall2 (renders g) items steps -> step_edges steps = path_edges items.
Proof.
  induction 1 as [|a s items steps Ha Hrest IH]; [reflexivity|].
  destruct Hrest as [|b s' items' steps' Hb Hrest']; [reflexivity|].
  change (step_edges (s :: s' :: steps'))
    with ((id (node s), id (node s'), relation s') :: step_edges (s' :: steps')).
  change (path_edges (a :: b :: items'))
    with ((item_node a, item_node b, item_relation b) :: path_edges (b :: items')).
  rewrite IH. destruct Ha as (-> & _), Hb as (-> & -> & _). reflexivity.
Qed.

Lemma returned_path_facts (g : KnowledgeGraph) (problem : string)
  (max_depth : Z) (sp : SolutionPath) :
  well_filed g ->
  List.In sp (find_solution_path g problem max_depth) ->
  solves g problem sp /\ List.NoDup (step_edges (path sp)).
Proof.
  intros Hwf Hin. unfold find_solution_path in Hin.
  set (problem_nodes :=
         match find_nodes g problem (Some "problem"%string) 10 with
         | [] => _
         | _ => _
         end) in Hin.
  assert (Hpn : forall pn, List.In pn problem_nodes ->
            List.In pn (py.dict_values (nodes g)) /\ type pn = "problem"%string /\
            text_matches (py.lower problem) pn = true).
  { intros pn Hpn. subst problem_nodes.
    destruct (find_nodes g problem (Some "problem"%string) 10) as [|n0 l0] eqn:E.
    - apply List.filter_In in Hpn as [Hpn Hm].
      apply find_nodes_In in Hpn as (Hv & Hty & _); auto.
    - rewrite <- E in Hpn. now apply find_nodes_In in Hpn. }
  cbv zeta in Hin.
  destruct problem_nodes as [|pn0 pns] eqn:Epn; [destruct Hin|]. rewrite <- Epn in *.
  clear Epn pn0 pns.
  apply List.in_flat_map in Hin as (pd & Hpd & Hsp).
  assert (Hpd' : List.In pd (firstn 5 (sort_by_score
             (flat_map (fun problem_node =>
                dfs g (Z.to_nat (max_depth + 1)) [] (id problem_node)
                  [("start", id problem_node, "problem")%string]
                  [label problem_node]) problem_nodes))) -> _) by (intros H; exact H).
  clear Hpd'.
  assert (Hpaths : List.In pd
            (flat_map (fun problem_node =>
                dfs g (Z.to_nat (max_depth + 1)) [] (id problem_node)
                  [("start", id problem_node, "problem")%string]
                  [label problem_node]) problem_nodes)).
  { apply sort_by_score_In.
    rewrite <- (List.firstn_skipn 5 (sort_by_score _)).
    apply List.in_or_app. left. exact Hpd. }
  clear Hpd. apply List.in_flat_map in Hpaths as (pn & Hpn_in & Hdfs).
  destruct (Hpn pn Hpn_in) as (Hstored & Hty & Hmatch).
  pose proof (stored_node_get g pn Hwf Hstored) as Hget.
  pose proof (dfs_found g _ _ _ _ _ _ Hdfs) as (Hlen2 & _).
  pose proof Hdfs as Hwalk.
  apply (dfs_sound g Hwf) in Hdfs.
  2:{ constructor; [|constructor]. exists pn. unfold item_node, item_type. simpl. auto. }
  2:{ exact I. }
  2:{ exists [], ("start", id pn, "problem")%string. auto. }
  destruct Hdfs as (Hshow & Hchain & (ext & Hext) & (pre & last & Hpre & Hlast)).
  unfold format_path in Hsp. rewrite Hext in Hsp. simpl in Hsp. rewrite Hget in Hsp.
  simpl in Hsp. destruct Hsp as [<-|[]].
  rewrite Hext in Hshow. simpl in Hshow.
  inversion Hshow as [|it0 lbl0 ext' seq' Hfirst Hrest Eit Eseq]; subst it0 ext'.
  destruct (format_steps_renders g ext seq' Hrest 1%Z) as (steps & Hrun & Hren & Hnum & Hlab);
    [lia|].
  change (0 + 1)%Z with 1%Z. rewrite Hrun.
  set (s0 := mkStep 1 pn "start" "problem").
  assert (Hall : List.Forall2 (renders g) (pd_path pd) (s0 :: steps)).
  { rewrite Hext. constructor; [|exact Hren].
    unfold renders, item_node, item_relation, item_type. simpl. auto. }
  split.
  2:{ cbn [path]. rewrite (renders_edges g _ _ Hall).
      apply (dfs_no_edge_twice g) in Hwalk;
        [exact Hwalk|apply List.NoDup_nil|intros k []|].
      exists [], ("start", id pn, "problem")%string. auto. }
  unfold solves. cbn [path sequence].
  split; [|split; [|split; [|split; [|split]]]].
  - clear - Hall. induction Hall as [|it s its ss (H1 & H2 & H3 & H4 & H5) _ IH];
      constructor; [|exact IH]. split; [exact H5|congruence].
  - apply (renders_chain g (pd_path pd)); [exact Hall|exact Hchain].
  - simpl. f_equal. rewrite Hnum, <- List.seq_shift, List.map_map.
    apply List.map_ext. intros k. lia.
  - exists s0, steps. auto.
  - rewrite Hpre in Hall. apply Forall2_snoc_inv in Hall as (before & b & Hb & Hr & Hl).
    exists before, b. split; [exact Hb|]. split.
    + rewrite Hpre, List.length_app in Hlen2. simpl in Hlen2.
      intros ->. simpl in Hl. lia.
    + destruct Hr as (_ & _ & _ & Hr & _). congruence.
  - destruct Hfirst as (n & Hn & _ & _ & Hl). unfold item_node in Hn. simpl in Hn.
    rewrite Hget in Hn. injection Hn as <-. simpl. now rewrite Hl, Hlab.
Qed.

(** X26.  In a graph that stores every node once and under its own id, each
    path [find_solution_path] returns is a route of the graph: every step
    shows a stored node with its type, each step after the first is reached
    from the one before by a stored edge whose relation it reports, the steps
    are numbered from 1, the first step is a problem node matching the query
    with relation "start", the last is a result node at least one edge away,
    and [sequence] lists the labels of the steps' nodes. *)
Theorem find_solution_path_solves (g : KnowledgeGraph) (problem : string)
  (max_depth : Z) (sp : SolutionPath) :
  well_filed g ->
  List.In sp (find_solution_path g problem max_depth) ->
  solves g problem sp.
Proof. intros Hwf Hin. now apply (returned_path_facts g problem max_depth). Qed.

(** X27.  In such a graph no path [find_solution_path] returns walks the
    same edge twice: the (source id, target id, relation) triples of its
    consecutive steps are pairwise different, also in a graph with cycles. *)
Theorem find_solution_path_no_edge_twice (g : KnowledgeGraph) (problem : string)
  (max_depth : Z) (sp : SolutionPath) :
  well_filed g ->
  List.In sp (find_solution_path g problem max_depth) ->
  List.NoDup (step_edges (path sp)).
Proof. intros Hwf Hin. now apply (returned_path_facts g problem max_depth). Qed.

Lemma insert_by_score_sorted (x : PathData) (l : list PathData) :
  PrimFloat.leb 0%float (pd_score x) = true ->
  List.Forall (fun pd => PrimFloat.leb 0%float (pd_score pd) = true) l ->
  StronglySorted (fun a b => PrimFloat.leb (pd_score b) (pd_score a) = true) l ->
  StronglySorted (fun a b => PrimFloat.leb (pd_score b) (pd_score a) = true)
                 (insert_by_score x l).
Proof.
  intros Hx. induction l as [|y r IH]; intros Hall Hs.
  - repeat constructor.
  - inversion Hall as [|? ? Hy Hr]; subst.
    apply StronglySorted_inv in Hs as [Hs Hy_r]. simpl.
    destruct (PrimFloat.ltb (pd_score x) (pd_score y)) eqn:Hlt.
    + constructor; [now apply IH|]. apply List.Forall_forall. intros z Hz.
      apply insert_by_score_In in Hz as [->|Hz].
      * now apply py_laws.ltb_leb.
      * now apply (proj1 (List.Forall_forall _ _) Hy_r).
    + assert (Hyx : PrimFloat.leb (pd_score y) (pd_score x) = true)
        by now apply py_laws.leb_total.
      constructor; [now constructor|]. constructor; [exact Hyx|].
      apply List.Forall_forall. intros z Hz.
      apply (py_laws.leb_trans _ (pd_score y)); [|exact Hyx].
      now apply (proj1 (List.Forall_forall _ _) Hy_r).
Qed.

Lemma sort_by_score_sorted (l : list PathData) :
  List.Forall (fun pd => PrimFloat.leb 0%float (pd_score pd) = true) l ->
  StronglySorted (fun a b => PrimFloat.leb (pd_score b) (pd_score a) = true)
                 (sort_by_score l).
Proof.
  induction 1 as [|x l Hx Hl IH]; [constructor|]. simpl.
  apply insert_by_score_sorted; [exact Hx| |exact IH].
  apply List.Forall_forall. intros pd Hin.
  apply sort_by_score_In in Hin.
  now apply (proj1 (List.Forall_forall _ _) Hl).
Qed.

Lemma StronglySorted_firstn {A} (R : A -> A -> Prop) (n : nat) (l : list A) :
  StronglySorted R l -> StronglySorted R (firstn n l).
Proof.
  intros Hs. revert n. induction Hs as [|a l Hs IH Ha]; intros n.
  - rewrite List.firstn_nil. constructor.
  - destruct n as [|n]; [constructor|]. simpl. constructor; [apply IH|].
    apply List.Forall_forall. intros b Hb.
    apply (proj1 (List.Forall_forall _ _) Ha).
    rewrite <- (List.firstn_skipn n l). apply List.in_or_app. now left.
Qed.

Lemma dfs_from_stored (g : KnowledgeGraph) :
  forall remaining visited node_id path seq pd,
    List.In pd (dfs g remaining visited node_id path seq) ->
    (exists n, py.dict_get node_id (nodes g) = Some n) /\
    exists ext, pd_path pd = path ++ ext.
Proof.
  induction remaining as [|r IH]; intros visited node_id path seq pd Hin;
    [destruct Hin|].
  rewrite knowledge_graph_facts.dfs_unfold in Hin.
  destruct (py.dict_get node_id (nodes g)) as [nd|]; [|destruct Hin].
  split; [now exists nd|].
  destruct (String.eqb (type nd) "result").
  - destruct (2 <=? List.length path); [|destruct Hin].
    destruct Hin as [<-|[]]. exists []. simpl. now rewrite List.app_nil_r.
  - cbv zeta in Hin. apply List.in_flat_map in Hin as (te & _ & Hin).
    apply IH in Hin as (_ & ext & Hext). rewrite <- List.app_assoc in Hext.
    eexists. exact Hext.
Qed.

Lemma format_paths_sorted (g : KnowledgeGraph) (l : list PathData) :
  (forall pd, List.In pd l ->
     exists sp, format_path g pd = [sp] /\ score sp = pd_score pd) ->
  StronglySorted (fun a b => PrimFloat.leb (pd_score b) (pd_score a) = true) l ->
  best_first (flat_map (format_path g) l).
Proof.
  unfold best_first. intros Hf Hs.
  induction Hs as [|a l Hs IH Ha]; [constructor|].
  destruct (Hf a (or_introl eq_refl)) as (spa & Hspa & Hsa).
  simpl. rewrite Hspa. simpl. constructor.
  - apply IH. intros pd Hpd. apply Hf. now right.
  - apply List.Forall_forall. intros sp Hsp.
    apply List.in_flat_map in Hsp as (pd & Hpd & Hsp).
    destruct (Hf pd (or_intror Hpd)) as (sp' & Hsp' & Hs').
    rewrite Hsp' in Hsp. destruct Hsp as [<-|[]]. rewrite Hsa, Hs'.
    now apply (proj1 (List.Forall_forall _ _) Ha).
Qed.

(** X25.  [find_solution_path] returns its paths best score first: no
    returned path has a higher score than a path returned before it. *)
Theorem find_solution_path_best_first (g : KnowledgeGraph) (problem : string)
  (max_depth : Z) :
  best_first (find_solution_path g problem max_depth).
Proof.
  unfold find_solution_path.
  set (problem_nodes :=
         match find_nodes g problem (Some "problem"%string) 10 with
         | [] => _
         | _ => _
         end).
  cbv zeta. destruct problem_nodes as [|pn0 pns] eqn:E; [constructor|]. rewrite <- E.
  clear E pn0 pns.
  set (paths := flat_map _ problem_nodes).
  apply format_paths_sorted.
  - intros pd Hin.
    assert (Hpd : List.In pd paths).
    { apply sort_by_score_In.
      rewrite <- (List.firstn_skipn 5 (sort_by_score paths)).
      apply List.in_or_app. now left. }
    subst paths. apply List.in_flat_map in Hpd as (pn & _ & Hdfs).
    apply dfs_from_stored in Hdfs as ((n & Hn) & ext & Hext).
    unfold format_path. rewrite Hext. simpl. rewrite Hn. simpl.
    eexists. split; reflexivity.
  - apply StronglySorted_firstn, sort_by_score_sorted.
    apply List.Forall_forall. intros pd Hin. subst paths.
    apply List.in_flat_map in Hin as (pn & _ & Hdfs).
    apply dfs_found in Hdfs as (_ & _ & ->).
    apply path_score_bound.
Qed.

(** X4, witness: the one problem node of the chain is found by its label. *)
Lemma find_nodes_sound_and_bounded_witness :
  List.In examples.P (find_nodes examples.chain_graph "p" (Some "problem"%string) 10) /\
  List.length (find_nodes examples.chain_graph "p" (Some "problem"%string) 10) <= 10.
Proof.
  destruct (find_nodes_sound_and_bounded examples.chain_graph "p"
              (Some "problem"%string) 10) as (_ & Hbound & Hall).
  split.
  - apply Hall; [simpl; lia|simpl; auto|reflexivity|reflexivity].
  - apply Hbound. lia.
Defined.

(** X5, witness: what leaves the problem node of the chain. *)
Lemma get_related_nodes_sound_witness :
  List.In examples.requires_edge (edges examples.chain_graph) /\
  (source examples.requires_edge = "p1"%string /\
   py.dict_get (target examples.requires_edge) (nodes examples.chain_graph)
     = Some examples.A /\
   ("out" = "out" \/ "out" = "both")%string \/
   target examples.requires_edge = "p1"%string /\
   py.dict_get (source examples.requires_edge) (nodes examples.chain_graph)
     = Some examples.A /\
   ("out" = "in" \/ "out" = "both")%string).
Proof.
  destruct (get_related_nodes_sound examples.chain_graph "p1" None "out")
    as [_ Hsound].
  destruct (Hsound examples.A examples.requires_edge) as (Hin & _ & Hends).
  - left. reflexivity.
  - split; [exact Hin|exact Hends].
Defined.

(** X7, witness: no path fits in a depth of 0. *)
Lemma find_solution_path_bounds_witness :
  find_solution_path examples.chain_graph "P" 0 = [].
Proof.
  destruct (find_solution_path_bounds examples.chain_graph "P" 0) as (_ & _ & Hnone).
  apply Hnone. lia.
Defined.

(** X26, witness: the path found in the chain P -> A -> R. *)
Lemma find_solution_path_solves_witness :
  solves examples.chain_graph "P"
    (mkSolutionPath
       [mkStep 1 examples.P "start" "problem"; mkStep 2 examples.A "requires" "action";
        mkStep 3 examples.R "produces" "result"]
       3 2.1000000000000001%float ["P"; "A"; "R"]%string).
Proof.
  apply (find_solution_path_solves examples.chain_graph "P" 3).
  - split; vm_compute; repeat constructor; simpl; intuition discriminate.
  - vm_compute. left. reflexivity.
Defined.

(** X27, witness: the two edges of the chain, each walked once. *)
Lemma find_solution_path_no_edge_twice_witness :
  List.NoDup [("p1", "a1", "requires"); ("a1", "r1", "produces")]%string.
Proof.
  apply (find_solution_path_no_edge_twice examples.chain_graph "P" 3
           (mkSolutionPath
              [mkStep 1 examples.P "start" "problem";
               mkStep 2 examples.A "requires" "action";
               mkStep 3 examples.R "produces" "result"]
              3 2.1000000000000001%float ["P"; "A"; "R"]%string)).
  - split; vm_compute; repeat constructor; simpl; intuition discriminate.
  - vm_compute. left. reflexivity.
Defined.

End knowledge_graph_laws.

Module enhanced_memory_laws.
Import enhanced_memory.

Lemma last_n_absorb {A} (n : nat) (a b : list A) :
  py.last_n n (py.last_n n a ++ b) = py.last_n n (a ++ b).
Proof.
  unfold py.last_n.
  assert (Hcut : skipn (List.length a - n) a ++ b = skipn (List.length a - n) (a ++ b)).
  { rewrite List.skipn_app.
    replace (List.length a - n - List.length a) with 0 by lia. reflexivity. }
  rewrite Hcut, List.skipn_skipn. f_equal.
  rewrite List.length_skipn, !List.length_app. lia.
Qed.

Lemma trim_is_last_n {A} (bound : Z) (l : list A) (x : A) :
  (0 <= bound)%Z -> (Z.of_nat (List.length l) <= bound)%Z ->
  (if (bound <? Z.of_nat (List.length (l ++ [x])))%Z then tl (l ++ [x]) else l ++ [x])
  = py.last_n (Z.to_nat bound) (l ++ [x]).
Proof.
  intros Hb Hl. unfold py.last_n. rewrite List.length_app. simpl.
  destruct (Z.ltb_spec bound (Z.of_nat (List.length l + 1))).
  - replace (List.length l + 1 - Z.to_nat bound) with 1 by lia.
    destruct (l ++ [x]); reflexivity.
  - replace (List.length l + 1 - Z.to_nat bound) with 0 by lia. reflexivity.
Qed.

Lemma last_n_length {A} (n : nat) (l : list A) : List.length (py.last_n n l) <= n.
Proof. unfold py.last_n. rewrite List.length_skipn. lia. Qed.

Lemma compress_if_needed_fields w m :
  max_short_term (fst (_compress_old_memory_if_needed w m)) = max_short_term m /\
  user_id (fst (_compress_old_memory_if_needed w m)) = user_id m /\
  embedder (fst (_compress_old_memory_if_needed w m)) = embedder m /\
  llm_client (fst (_compress_old_memory_if_needed w m)) = llm_client m.
Proof.
  unfold _compress_old_memory_if_needed.
  destruct (100 <? _); [|auto].
  destruct (_compress_old_conversations w m (seven_days_ago w)). auto.
Qed.

(** One call of [add], seen from the short-term list. *)
Lemma add_call_short_term (m : EnhancedMemory) (c : AddCall) :
  max_short_term (add_call m c) = max_short_term m /\
  short_term (add_call m c) =
    if is_stored c then
      if (max_short_term m <? Z.of_nat (List.length (short_term m ++ [entry_of c])))%Z
      then tl (short_term m ++ [entry_of c])
      else short_term m ++ [entry_of c]
    else short_term m.
Proof.
  unfold add_call, add, is_stored, is_blank, entry_of.
  destruct (py.str_falsy (call_content c) || py.str_falsy (py.strip (call_content c)));
    [split; reflexivity|].
  destruct (bindable (call_conversation_id c)); [|split; reflexivity].
  cbn [negb andb].
  match goal with |- context [_compress_old_memory_if_needed ?w ?m1] =>
    pose proof (enhanced_memory_facts.compress_if_needed_short_term w m1) as Hst;
    pose proof (compress_if_needed_fields w m1) as (Hmax & _);
    destruct (_compress_old_memory_if_needed w m1) as [m2 fx] end.
  simpl in *. split; assumption.
Qed.

(** X9.  With a non-negative bound N and a short-term list within it, after
    any sequence of [add] calls the short-term list is the last N entries of
    the old list followed by one entry per call that stored its message (the
    content is not blank and the conversation id can be bound), in order; its
    length never exceeds N.  A call that returns at once or raises at the
    INSERT adds no entry. *)
Theorem short_term_is_a_window (m : EnhancedMemory) (calls : list AddCall) :
  (0 <= max_short_term m)%Z ->
  (Z.of_nat (List.length (short_term m)) <= max_short_term m)%Z ->
  short_term (add_all m calls) =
    py.last_n (Z.to_nat (max_short_term m))
      (short_term m ++ map entry_of (List.filter is_stored calls)) /\
  (Z.of_nat (List.length (short_term (add_all m calls))) <= max_short_term m)%Z.
Proof.
  intros Hmax Hlen.
  assert (Hwin : short_term (add_all m calls) =
            py.last_n (Z.to_nat (max_short_term m))
              (short_term m ++ map entry_of (List.filter is_stored calls))).
  { revert m Hmax Hlen. unfold add_all.
    induction calls as [|c calls IH]; intros m Hmax Hlen; simpl.
    - rewrite List.app_nil_r. unfold py.last_n.
      replace (List.length (short_term m) - Z.to_nat (max_short_term m)) with 0 by lia.
      reflexivity.
    - destruct (add_call_short_term m c) as (Hm & Hst).
      rewrite IH; rewrite Hm; try assumption.
      + rewrite Hst. destruct (is_stored c); simpl; [|reflexivity].
        rewrite trim_is_last_n by assumption.
        rewrite last_n_absorb, <- List.app_assoc. reflexivity.
      + rewrite Hst. destruct (is_stored c); [|assumption].
        rewrite trim_is_last_n by assumption.
        pose proof (last_n_length (Z.to_nat (max_short_term m))
                      (short_term m ++ [entry_of c])). lia. }
  split; [exact Hwin|]. rewrite Hwin.
  pose proof (last_n_length (Z.to_nat (max_short_term m))
                (short_term m ++ map entry_of (List.filter is_stored calls))).
  lia.
Qed.

Lemma aged_refl (r : row.t) : aged r r.
Proof. split; [apply enhanced_memory_facts.same_message_refl|auto]. Qed.

Lemma mark_summarized_aged w user day (r r' : row.t) :
  aged r r' -> aged r (mark_summarized w user day r').
Proof.
  intros [Hsame Hflag]. split.
  - eapply enhanced_memory_facts.same_message_trans; [exact Hsame|].
    apply enhanced_memory_facts.mark_summarized_same.
  - intros H. specialize (Hflag H). unfold mark_summarized.
    destruct day as [d|]; [|exact Hflag].
    destruct (_ && _ && _); [reflexivity|exact Hflag].
Qed.

Lemma mark_summarized_summary w user day user' (r : row.t) :
  is_summary user' r -> is_summary user' (mark_summarized w user day r).
Proof.
  intros H. unfold mark_summarized. destruct day as [d|]; [|exact H].
  destruct (_ && _ && _); [|exact H].
  destruct H as (H1 & H2 & H3 & H4 & H5). repeat split; assumption.
Qed.

Lemma compacted_refl user db : compacted user db db.
Proof.
  exists db, []. rewrite List.app_nil_r. split; [reflexivity|]. split; [|constructor].
  induction db; constructor; [apply aged_refl|assumption].
Qed.

Lemma compress_day_compacted w m summarize db0 acc group :
  compacted (user_id m) db0 (fst acc) ->
  compacted (user_id m) db0 (fst (compress_day w m summarize acc group)).
Proof.
  destruct acc as [db fx], group as [day combined]. unfold compress_day. simpl fst.
  intros Hc. destruct (py.str_falsy combined); [exact Hc|].
  destruct (summarize combined) as [summary|]; [|exact Hc].
  destruct (embedder m summary) as [emb|]; [|exact Hc].
  simpl. destruct Hc as (old' & new & -> & Hold & Hnew).
  exists (map (mark_summarized w (user_id m) day) old'),
         (map (mark_summarized w (user_id m) day)
              (new ++ [row.mk (user_id m) None "system"
                         ("Resumen del " ++ day_text day ++ ": " ++ summary)%string
                         (Some emb) None (day_text day ++ " 23:59:59")%string
                         (Some 0.7%float) true])).
  split; [rewrite <- List.app_assoc, !List.map_app; reflexivity|]. split.
  - clear Hnew. induction Hold; simpl; constructor; [|assumption].
    now apply mark_summarized_aged.
  - apply List.Forall_forall. intros r Hin.
    apply List.in_map_iff in Hin as (r0 & <- & Hin).
    apply mark_summarized_summary.
    apply List.in_app_or in Hin as [Hin|[<-|[]]].
    + apply (proj1 (List.Forall_forall _ _) Hnew _ Hin).
    + repeat split.
Qed.

(** X10.  [_compress_old_memory_if_needed] never deletes or rewrites a
    message: the table afterwards is the old rows in order, each unchanged
    except that [is_summarized] may have been set, followed by summary rows
    (role system, importance 0.7, already summarized) of this user; the
    short-term list is untouched, and without a summarizer the table is
    unchanged. *)
Theorem compaction_only_marks_and_appends (w : World) (m : EnhancedMemory) :
  compacted (user_id m) (long_term_memory m)
            (long_term_memory (fst (_compress_old_memory_if_needed w m))) /\
  short_term (fst (_compress_old_memory_if_needed w m)) = short_term m /\
  (llm_client m = None ->
   long_term_memory (fst (_compress_old_memory_if_needed w m)) = long_term_memory m).
Proof.
  split; [|split; [apply enhanced_memory_facts.compress_if_needed_short_term|]].
  - unfold _compress_old_memory_if_needed.
    destruct (100 <? _); [|apply compacted_refl].
    unfold _compress_old_conversations.
    destruct (llm_client m) as [summarize|]; simpl; [|apply compacted_refl].
    assert (Hfold : forall groups acc,
               compacted (user_id m) (long_term_memory m) (fst acc) ->
               compacted (user_id m) (long_term_memory m)
                         (fst (fold_left (compress_day w m summarize) groups acc))).
    { induction groups as [|gp groups IH]; intros acc Hacc; simpl; [exact Hacc|].
      apply IH. now apply compress_day_compacted. }
    specialize (Hfold (old_days w (user_id m) (seven_days_ago w) (long_term_memory m))
                      (long_term_memory m, []) (compacted_refl _ _)).
    destruct (fold_left _ _ _) as [db fx]. exact Hfold.
  - intros Hllm. unfold _compress_old_memory_if_needed.
    destruct (100 <? _); [|reflexivity].
    unfold _compress_old_conversations. rewrite Hllm. reflexivity.
Qed.

(** X11.  [add] with non-blank content asks the embedder about the content
    before anything else.  When the conversation id can be bound it stores a
    row with the role, content, conversation id, the database timestamp, the
    metadata as JSON (NULL for none or empty) and the embedding the embedder
    gave: NULL when it raised, which is logged and does not stop the write.
    When the id cannot be bound the INSERT raises OverflowError after the
    embedder was asked, and the object is as it was. *)
Theorem add_stores_what_the_embedder_gave (w : World) (m : EnhancedMemory)
  (role content : string) (metadata : option (gmap string py.Value))
  (conversation_id : option Z) (importance : float) :
  py.strip content <> EmptyString ->
  (exists rest,
      snd (add w m role content metadata conversation_id importance) =
        EncodeQuery content ::
        match embedder m content with
        | Some _ => rest
        | None => LogWarning "Error generando embedding" :: rest
        end) /\
  (bindable conversation_id = true ->
   exists r,
     List.In r (long_term_memory
                  (fst (add w m role content metadata conversation_id importance))) /\
     row.role r = role /\ row.content r = content /\
     row.conversation_id r = conversation_id /\
     row.timestamp r = current_timestamp w /\
     row.embedding r = embedder m content /\
     row.metadata r =
       (if dict_truthy metadata then Some (json_dumps w (default ∅ metadata)) else None)) /\
  (bindable conversation_id = false ->
   add w m role content metadata conversation_id importance =
     (m, EncodeQuery content ::
         match embedder m content with
         | Some _ => []
         | None => [LogWarning "Error generando embedding"]
         end ++ [Raise OverflowError])).
Proof.
  intros Hcontent. unfold add.
  rewrite (enhanced_memory_facts.strip_nonempty content Hcontent).
  destruct (bindable conversation_id); cbn [negb].
  - set (new_row := row.mk _ _ _ _ _ _ _ _ _).
    match goal with |- context [_compress_old_memory_if_needed w ?m1] =>
      pose proof (enhanced_memory_facts.compress_if_needed_kept w m1) as Hkept;
      destruct (_compress_old_memory_if_needed w m1) as [m2 fx] end.
    simpl in *. split; [|split; [|discriminate]].
    + exists fx. destruct (embedder m content); reflexivity.
    + intros _. destruct (Hkept new_row) as (r & Hr & Hsame).
      * apply List.in_or_app. right. left. reflexivity.
      * exists r. split; [exact Hr|]. unfold same_message in Hsame. subst new_row.
        simpl in Hsame. intuition.
  - split; [|split; [discriminate|reflexivity]].
    exists [Raise OverflowError]. destruct (embedder m content); reflexivity.
Qed.

(** X12.  [get_recent(limit)] is the slice [short_term[-limit:]]: the last
    [limit] entries for a positive limit, the whole list for limit 0, and the
    list without its first [-limit] entries for a negative limit. *)
Theorem get_recent_slices (m : EnhancedMemory) (limit : Z) :
  ((1 <= limit)%Z -> get_recent m limit = py.last_n (Z.to_nat limit) (short_term m)) /\
  (limit = 0%Z -> get_recent m limit = short_term m) /\
  ((limit < 0)%Z -> get_recent m limit = skipn (Z.to_nat (- limit)) (short_term m)).
Proof.
  unfold get_recent, py.list_from, py.slice_bound, py.last_n.
  destruct (short_term m) as [|x st] eqn:E.
  - repeat split; intros _; try reflexivity. now rewrite List.skipn_nil.
  - rewrite <- E. clear E. split; [|split].
    + intros H. destruct (Z.ltb_spec (- limit) 0); [|lia].
      destruct (Z.ltb_spec (- limit + Z.of_nat (List.length (short_term m))) 0).
      * replace (List.length (short_term m) - Z.to_nat limit) with 0 by lia. reflexivity.
      * f_equal. lia.
    + intros ->. reflexivity.
    + intros H. destruct (Z.ltb_spec (- limit) 0); [lia|].
      destruct (Z.ltb_spec (- limit) 0); [lia|].
      destruct (Nat.le_gt_cases (Z.to_nat (- limit)) (List.length (short_term m))).
      * f_equal. lia.
      * rewrite Nat.min_r by lia. rewrite !List.skipn_all2 by lia. reflexivity.
Qed.

(** X9, witness: four turns, one of them blank and one refused by the
    INSERT, into a window of two. *)
Lemma short_term_is_a_window_witness :
  map msg.content
      (short_term (add_all examples.deaf_memory examples.turns_with_overflow))
  = ["hola"; "buenas"]%string.
Proof.
  destruct (short_term_is_a_window examples.deaf_memory examples.turns_with_overflow)
    as [Hwin _]; [simpl; lia|simpl; lia|].
  rewrite Hwin. reflexivity.
Defined.

(** X10, witness: a memory without summarizer. *)
Lemma compaction_only_marks_and_appends_witness :
  long_term_memory (fst (_compress_old_memory_if_needed examples.world examples.memory))
  = long_term_memory examples.memory.
Proof.
  destruct (compaction_only_marks_and_appends examples.world examples.memory)
    as (_ & _ & Hnone).
  apply Hnone. reflexivity.
Defined.

(** X12, witness: the last entry, and the whole list for a limit of 0. *)
Lemma get_recent_slices_witness :
  map msg.content
      (get_recent (add_all examples.deaf_memory examples.turns) 1) = ["buenas"%string] /\
  get_recent (add_all examples.deaf_memory examples.turns) 0
  = short_term (add_all examples.deaf_memory examples.turns).
Proof.
  destruct (get_recent_slices (add_all examples.deaf_memory examples.turns) 1)
    as (Hlast & _ & _).
  destruct (get_recent_slices (add_all examples.deaf_memory examples.turns) 0)
    as (_ & Hall & _).
  split.
  - rewrite Hlast by lia. reflexivity.
  - apply Hall. reflexivity.
Defined.

(** X11, witness: the embedder raises, the row is written without embedding. *)
Lemma add_stores_what_the_embedder_gave_witness :
  exists r,
    List.In r (long_term_memory
                 (fst (add examples.world examples.deaf_memory "user" "hola" None None
                           0.5%float))) /\
    row.content r = "hola"%string /\ row.embedding r = None /\ row.metadata r = None.
Proof.
  destruct (add_stores_what_the_embedder_gave examples.world examples.deaf_memory
              "user" "hola" None None 0.5%float)
    as (_ & Hrow & _); [discriminate|].
  destruct (Hrow eq_refl) as (r & Hin & _ & Hc & _ & _ & He & Hm).
  exists r. split; [exact Hin|]. split; [exact Hc|]. split; [exact He|exact Hm].
Defined.

End enhanced_memory_laws.

Module embeddings_laws.
Import embeddings.






End embeddings_laws.

Module vector_store_laws.
Import vector_store.

Lemma in_memory_add_keeps_count (s : InMemoryVectorStore.t) (e : ndarray)
  (ms : list Meta) :
  InMemoryVectorStore.size s = List.length (InMemoryVectorStore._metas s) ->
  InMemoryVectorStore.size (fst (InMemoryVectorStore.add s e ms)) =
  List.length (InMemoryVectorStore._metas (fst (InMemoryVectorStore.add s e ms))).
Proof.
  unfold InMemoryVectorStore.add, InMemoryVectorStore.size, vstack, shape0.
  intros Hs. destruct (Nat.eqb_spec (List.length (rows e)) (List.length ms)); simpl;
    [|exact Hs].
  destruct (InMemoryVectorStore._embeddings s) as [old|] eqn:Eold; simpl.
  - destruct (shape1 old =? shape1 e); simpl.
    + rewrite !List.length_app. lia.
    + rewrite Eold. exact Hs.
  - rewrite List.length_app. lia.
Qed.

Lemma faiss_add_keeps_count (rt : FaissVectorStore.Runtime) (s : FaissVectorStore.t)
  (e : ndarray) (ms : list Meta) :
  FaissVectorStore.size s = List.length (FaissVectorStore._metas s) ->
  FaissVectorStore.size (fst (FaissVectorStore.add rt s e ms)) =
  List.length (FaissVectorStore._metas (fst (FaissVectorStore.add rt s e ms))).
Proof.
  unfold FaissVectorStore.add, FaissVectorStore._ensure_index,
    FaissVectorStore.index_add, FaissVectorStore.astype_float32,
    FaissVectorStore.size, shape0.
  intros Hs. destruct (Nat.eqb_spec (List.length (rows e)) (List.length ms)); simpl;
    [|exact Hs].
  destruct s as [[ix|] metas]; simpl in *.
  - destruct (FaissVectorStore.faiss_available rt); simpl; [|exact Hs].
    destruct (shape1 e =? FaissVectorStore.d ix); simpl; [|exact Hs].
    rewrite !List.length_app, List.length_map. lia.
  - destruct (FaissVectorStore.faiss_available rt); simpl; [|exact Hs].
    rewrite Nat.eqb_refl. simpl. rewrite List.length_app, List.length_map. lia.
Qed.

(** X15.  After any sequence of [add] calls on a new store, accepted or
    refused, both stores hold exactly one metadata entry per vector: [size]
    equals the number of metadata entries. *)
Theorem stores_keep_one_meta_per_vector (batches : list (ndarray * list Meta))
  (rt : FaissVectorStore.Runtime) :
  InMemoryVectorStore.size
    (InMemoryVectorStore.add_all InMemoryVectorStore.__init__ batches)
  = List.length (InMemoryVectorStore._metas
                   (InMemoryVectorStore.add_all InMemoryVectorStore.__init__ batches)) /\
  FaissVectorStore.size
    (FaissVectorStore.add_all rt FaissVectorStore.__init__ batches)
  = List.length (FaissVectorStore._metas
                   (FaissVectorStore.add_all rt FaissVectorStore.__init__ batches)).
Proof.
  split.
  - assert (Hinv : forall bs s,
               InMemoryVectorStore.size s = List.length (InMemoryVectorStore._metas s) ->
               InMemoryVectorStore.size (InMemoryVectorStore.add_all s bs) =
               List.length (InMemoryVectorStore._metas (InMemoryVectorStore.add_all s bs))).
    { induction bs as [|[e ms] bs IH]; intros s Hs; [exact Hs|].
      apply (IH (fst (InMemoryVectorStore.add s e ms))).
      now apply in_memory_add_keeps_count. }
    apply Hinv. reflexivity.
  - assert (Hinv : forall bs s,
               FaissVectorStore.size s = List.length (FaissVectorStore._metas s) ->
               FaissVectorStore.size (FaissVectorStore.add_all rt s bs) =
               List.length (FaissVectorStore._metas (FaissVectorStore.add_all rt s bs))).
    { induction bs as [|[e ms] bs IH]; intros s Hs; [exact Hs|].
      apply (IH (fst (FaissVectorStore.add rt s e ms))).
      now apply faiss_add_keeps_count. }
    apply Hinv. reflexivity.
Qed.

End vector_store_laws.

Module brain_laws.
Import brain.

Lemma pretty_N_char_no_colon (x : N) : pretty_N_char x <> ":"%char.
Proof. unfold pretty_N_char. repeat case_match; discriminate. Qed.

Lemma pretty_N_go_colon_free (x : N) :
  forall s, colon_free s -> colon_free (pretty_N_go x s).
Proof.
  induction (N.lt_wf_0 x) as [x _ IH]. intros s Hs.
  assert (x = 0 \/ 0 < x)%N as [->|Hpos] by lia.
  - now rewrite pretty_N_go_0.
  - rewrite pretty_N_go_step by assumption. apply IH.
    + now apply N.div_lt.
    + constructor; [apply pretty_N_char_no_colon|exact Hs].
Qed.

Lemma pretty_Z_colon_free (k : Z) : colon_free (pretty k).
Proof.
  assert (HN : forall n : N, colon_free (pretty n)).
  { intros n. unfold pretty, pretty_N. destruct (decide (n = 0%N)).
    - repeat constructor; discriminate.
    - apply pretty_N_go_colon_free. constructor. }
  destruct k as [|p|p]; unfold pretty, pretty_Z.
  - repeat constructor; discriminate.
  - apply HN.
  - constructor; [discriminate|apply HN].
Qed.

Lemma colon_free_no_separator (a b : string) :
  ~ colon_free (String.append a (String ":" b)).
Proof.
  unfold colon_free. induction a as [|c a IH]; simpl; intros H.
  - inversion H; congruence.
  - inversion H; auto.
Qed.

(** The query and the number can be read back from the key. *)
Lemma split_at_last_separator (q1 q2 p1 p2 : string) :
  colon_free p1 -> colon_free p2 ->
  String.append q1 (String ":" (String ":" p1))
  = String.append q2 (String ":" (String ":" p2)) ->
  q1 = q2 /\ p1 = p2.
Proof.
  intros H1 H2. revert q2.
  induction q1 as [|c q1 IH]; intros [|c2 q2] Heq; simpl in Heq.
  - injection Heq as ->. auto.
  - exfalso. injection Heq as <- Heq. destruct q2 as [|c3 q2]; simpl in Heq.
    + injection Heq as ->. inversion H1; congruence.
    + injection Heq as <- ->.
      apply (colon_free_no_separator q2 (String ":" p2)). exact H1.
  - exfalso. injection Heq as -> Heq. destruct q1 as [|c3 q1]; simpl in Heq.
    + injection Heq as <-. inversion H2; congruence.
    + injection Heq as -> <-.
      apply (colon_free_no_separator q1 (String ":" p1)). exact H2.
  - injection Heq as -> Heq. destruct (IH _ Heq) as [-> ->]. auto.
Qed.

Lemma cache_key_inj (q1 q2 : string) (k1 k2 : Z) :
  cache_key q1 k1 = cache_key q2 k2 -> q1 = q2 /\ k1 = k2.
Proof.
  unfold cache_key. intros H.
  apply (split_at_last_separator q1 q2 (pretty k1) (pretty k2)) in H as [-> Hp];
    try apply pretty_Z_colon_free.
  split; [reflexivity|]. now apply (inj pretty).
Qed.

(** X16.  The cache key determines the call: two calls of [retrieve] share a
    key exactly when they have the same query and the same [top_k] (the
    decimal form of an integer holds no colon). *)
Theorem cache_key_is_injective (q1 q2 : string) (k1 k2 : Z) :
  cache_key q1 k1 = cache_key q2 k2 <-> q1 = q2 /\ k1 = k2.
Proof.
  split; [apply cache_key_inj|]. intros [-> ->]. reflexivity.
Qed.

Lemma retrieve_coherent (b : Brain) (query : string) (top_k : Z) :
  coherent b ->
  coherent (fst (retrieve b query top_k)) /\
  lookup (fst (retrieve b query top_k)) = lookup b /\
  _cache_max_size (fst (retrieve b query top_k)) = _cache_max_size b.
Proof.
  intros Hb. unfold retrieve.
  destruct (py.dict_get _ _); [auto|].
  destruct (lookup b query top_k) as [enriched|] eqn:Hl; [|auto].
  simpl. split; [|auto]. intros key hits Hin. simpl in Hin.
  apply py_laws.dict_set_In in Hin as [Hin|[-> ->]].
  - apply Hb. destruct (_ <? _)%Z; [|exact Hin].
    unfold py.dict_pop_first in Hin. destruct (_retrieve_cache b); [destruct Hin|].
    now right.
  - simpl. eauto.
Qed.

Lemma retrieve_all_invariants (lookup0 : string -> Z -> option (list Hit))
  (calls : list (string * Z)) :
  coherent (retrieve_all (__init__ lookup0) calls) /\
  lookup (retrieve_all (__init__ lookup0) calls) = lookup0 /\
  _cache_max_size (retrieve_all (__init__ lookup0) calls) = 100%Z /\
  (Z.of_nat (List.length (_retrieve_cache (retrieve_all (__init__ lookup0) calls)))
   <= 101)%Z.
Proof.
  assert (Hinv : forall cs b,
            coherent b /\ lookup b = lookup0 /\ _cache_max_size b = 100%Z /\
            (Z.of_nat (List.length (_retrieve_cache b)) <= 101)%Z ->
            coherent (retrieve_all b cs) /\ lookup (retrieve_all b cs) = lookup0 /\
            _cache_max_size (retrieve_all b cs) = 100%Z /\
            (Z.of_nat (List.length (_retrieve_cache (retrieve_all b cs))) <= 101)%Z).
  { unfold retrieve_all. induction cs as [|[q k] cs IH]; intros b Hb; simpl; [exact Hb|].
    apply IH. destruct Hb as (Hc & Hl & Hm & Hn).
    destruct (retrieve_coherent b q k Hc) as (Hc' & Hl' & Hm').
    destruct (brain_facts.retrieve_cache_size b q k) as (Hn' & _); [lia|lia|].
    split; [exact Hc'|]. split; [congruence|]. split; [congruence|]. lia. }
  apply Hinv. repeat split; try reflexivity; [|simpl; lia].
  intros key hits [].
Qed.

(** X17.  On a new [Brain], after any sequence of [retrieve] calls the cache
    holds at most 101 entries, one more than [_cache_max_size]. *)
Theorem retrieve_cache_never_exceeds_101
  (lookup0 : string -> Z -> option (list Hit)) (calls : list (string * Z)) :
  List.length (_retrieve_cache (retrieve_all (__init__ lookup0) calls)) <= 101.
Proof.
  destruct (retrieve_all_invariants lookup0 calls) as (_ & _ & _ & H). lia.
Qed.

(** X18.  On a new [Brain], after any sequence of [retrieve] calls,
    [retrieve] returns for every query and [top_k] what the uncached
    computation returns for them: the cache never answers with the hits of
    another call. *)
Theorem retrieve_answers_like_lookup
  (lookup0 : string -> Z -> option (list Hit)) (calls : list (string * Z))
  (query : string) (top_k : Z) :
  snd (retrieve (retrieve_all (__init__ lookup0) calls) query top_k)
  = lookup0 query top_k.
Proof.
  destruct (retrieve_all_invariants lookup0 calls) as (Hc & Hl & _ & _).
  unfold retrieve.
  destruct (py.dict_get _ _) as [cached|] eqn:Hget.
  - simpl. apply py_laws.dict_get_Some_In in Hget as (key & Hkey & Hin).
    apply String.eqb_eq in Hkey. subst key.
    destruct (Hc _ _ Hin) as (q & k & Hk & Hlook).
    apply cache_key_inj in Hk as [<- <-]. congruence.
  - rewrite Hl. destruct (lookup0 query top_k); reflexivity.
Qed.

(** X19.  After a [retrieve] that returned hits, the same call again returns
    the same hits from the cache and changes nothing. *)
Theorem retrieve_is_memoized (b : Brain) (query : string) (top_k : Z)
  (hits : list Hit) :
  snd (retrieve b query top_k) = Some hits ->
  retrieve (fst (retrieve b query top_k)) query top_k
  = (fst (retrieve b query top_k), Some hits).
Proof.
  unfold retrieve at 1 3 4.
  destruct (py.dict_get (cache_key query top_k) (_retrieve_cache b)) as [cached|] eqn:Hget.
  - simpl. intros [= ->]. now apply brain_facts.retrieve_hit.
  - destruct (lookup b query top_k) as [enriched|]; simpl; [|discriminate].
    intros [= ->]. apply brain_facts.retrieve_hit. simpl.
    rewrite py_facts.dict_get_set, String.eqb_refl. reflexivity.
Qed.

(** X19, witness: the first call on a new [Brain] that finds one chunk. *)
Lemma retrieve_is_memoized_witness :
  retrieve (fst (retrieve (__init__ examples.finds_one) "q" 4)) "q" 4
  = (fst (retrieve (__init__ examples.finds_one) "q" 4),
     Some [{[ "id"%string := "doc1::chunk_0"%string ]}]).
Proof.
  apply (retrieve_is_memoized (__init__ examples.finds_one) "q" 4).
  reflexivity.
Defined.

End brain_laws.

Module memory_laws.
Import memory.

Lemma total_chars_app (a b : list Message) :
  total_chars (a ++ b) = (total_chars a + total_chars b)%Z.
Proof. unfold total_chars. induction a as [|x a IH]; simpl; [reflexivity|]. rewrite IH. lia. Qed.

Lemma total_chars_rev (a : list Message) : total_chars (rev a) = total_chars a.
Proof.
  induction a as [|x a IH]; simpl; [reflexivity|].
  rewrite total_chars_app, IH. simpl. lia.
Qed.

(** The loop keeps a prefix of the newest-first list: the shortest one that
    reaches the budget, or all of it. *)
Lemma trim_loop_spec (max_chars : Z) (newest_first : list Message) :
  forall total kept,
  exists taken left,
    newest_first = taken ++ left /\
    trim_loop max_chars total kept newest_first = kept ++ taken /\
    (newest_first <> [] -> taken <> []) /\
    (left <> [] -> (total + total_chars taken >= max_chars)%Z) /\
    (forall p q, taken = p ++ q -> p <> [] -> q <> [] ->
                 (total + total_chars p < max_chars)%Z).
Proof.
  induction newest_first as [|msg rest IH]; intros total kept; simpl.
  - exists [], [].
    split; [reflexivity|]. split; [now rewrite List.app_nil_r|]. split; [congruence|].
    split; [congruence|]. intros [|x p] q Heq Hp Hq; [congruence|discriminate].
  - destruct (Z.geb_spec (total + py.len (content msg)) max_chars) as [Hge|Hlt].
    + exists [msg], rest. simpl.
      split; [reflexivity|]. split; [reflexivity|]. split; [congruence|].
      split; [intros _; lia|].
      intros [|x [|y p]] q Heq Hp Hq; try congruence; simpl in Heq.
      * injection Heq as <- <-. congruence.
      * discriminate.
    + destruct (IH (total + py.len (content msg))%Z (kept ++ [msg]))
        as (taken & left & -> & Hrun & _ & Hleft & Hbudget).
      exists (msg :: taken), left. split; [reflexivity|].
      split; [rewrite Hrun, <- List.app_assoc; reflexivity|].
      split; [congruence|]. split.
      * intros Hl. specialize (Hleft Hl). simpl. lia.
      * intros [|x p] q Heq Hp Hq; [congruence|]. simpl in Heq.
        injection Heq as <- Heq. simpl.
        destruct p as [|y p]; [simpl; lia|].
        assert (Hy : y :: p <> []) by discriminate.
        specialize (Hbudget (y :: p) q Heq Hy Hq). lia.
Qed.

(** X20.  [ChatMemory.add] keeps a suffix of the conversation that ends with
    the new message, which is always kept.  Older messages are dropped only
    once the kept ones reach [max_chars] characters, and the kept ones
    without the oldest of them stay below [max_chars]. *)
Theorem add_keeps_the_newest_within_budget (m : ChatMemory) (role content : string) :
  exists dropped older,
    _messages m = dropped ++ older /\
    _messages (add m role content) = older ++ [mkMessage role content] /\
    _max_chars (add m role content) = _max_chars m /\
    (dropped <> [] ->
     (total_chars (older ++ [mkMessage role content]) >= _max_chars m)%Z) /\
    (older <> [] ->
     (total_chars (tl (older ++ [mkMessage role content])) < _max_chars m)%Z).
Proof.
  unfold add, _trim. simpl.
  destruct (trim_loop_spec (_max_chars m)
              (rev (_messages m ++ [mkMessage role content])) 0 [])
    as (taken & left & Hsplit & Hrun & Hne & Hleft & Hbudget).
  rewrite Hrun. simpl.
  rewrite List.rev_app_distr in Hsplit. simpl in Hsplit.
  destruct taken as [|t taken].
  { exfalso. apply Hne; [rewrite List.rev_app_distr; discriminate|reflexivity]. }
  simpl in Hsplit. injection Hsplit as <- Hrest.
  exists (rev left), (rev taken).
  split; [rewrite <- List.rev_app_distr, <- Hrest, List.rev_involutive; reflexivity|].
  split; [reflexivity|]. split; [reflexivity|]. split.
  - intros Hd. assert (left <> []) as Hl.
    { intros ->. apply Hd. reflexivity. }
    specialize (Hleft Hl). rewrite total_chars_app, total_chars_rev.
    simpl in *. lia.
  - intros Ho.
    destruct (rev taken) as [|o older] eqn:Erev; [congruence|]. simpl.
    assert (Htaken : taken = rev older ++ [o]).
    { rewrite <- (List.rev_involutive taken), Erev. reflexivity. }
    assert (Hb : (0 + total_chars (mkMessage role content :: rev older)
                  < _max_chars m)%Z).
    { apply (Hbudget _ [o]); [rewrite Htaken; reflexivity|discriminate|discriminate]. }
    rewrite total_chars_app. simpl in *. rewrite total_chars_rev in Hb. lia.
Qed.

End memory_laws.

Module data_laws.
Import data.

Lemma string_of_list_app (a b : list ascii) :
  string_of_list_ascii (a ++ b)
  = String.append (string_of_list_ascii a) (string_of_list_ascii b).
Proof. induction a as [|c a IH]; simpl; [reflexivity|now rewrite IH]. Qed.

Lemma string_length_list (s : string) :
  List.length (list_ascii_of_string s) = String.length s.
Proof. induction s as [|c s IH]; simpl; [reflexivity|now rewrite IH]. Qed.

Lemma length_string_of_list (l : list ascii) :
  String.length (string_of_list_ascii l) = List.length l.
Proof. induction l as [|c l IH]; simpl; [reflexivity|now rewrite IH]. Qed.

Lemma slice_bound_inside (n : nat) (i : Z) :
  (0 <= i <= Z.of_nat n)%Z -> py.slice_bound n i = Z.to_nat i.
Proof.
  intros H. unfold py.slice_bound.
  destruct (Z.ltb_spec i 0); [lia|].
  destruct (Z.ltb_spec i 0); [lia|]. lia.
Qed.

(** A slice with bounds inside the string, in terms of the characters. *)
Lemma str_slice_inside (s : string) (a b : nat) :
  a <= b <= String.length s ->
  py.str_slice s (Z.of_nat a) (Z.of_nat b)
  = string_of_list_ascii (firstn (b - a) (skipn a (list_ascii_of_string s))).
Proof.
  intros H. unfold py.str_slice, py.list_slice.
  rewrite string_length_list, !slice_bound_inside by lia.
  rewrite !Nat2Z.id. reflexivity.
Qed.

Lemma str_slice_length (s : string) (a b : nat) :
  a <= b <= String.length s ->
  String.length (py.str_slice s (Z.of_nat a) (Z.of_nat b)) = b - a.
Proof.
  intros H. rewrite str_slice_inside by assumption.
  rewrite length_string_of_list, List.length_firstn, List.length_skipn, string_length_list.
  lia.
Qed.

Lemma slice_then_rest (s : string) (a b : nat) :
  a <= b <= String.length s ->
  String.append (py.str_slice s (Z.of_nat a) (Z.of_nat b)) (rest_from s b) = rest_from s a.
Proof.
  intros H. rewrite str_slice_inside by assumption. unfold rest_from.
  rewrite <- string_of_list_app. f_equal.
  replace b with ((b - a) + a) at 2 by lia.
  rewrite <- List.skipn_skipn. apply List.firstn_skipn.
Qed.

Lemma rest_from_end (s : string) : rest_from s (String.length s) = EmptyString.
Proof.
  unfold rest_from. rewrite <- string_length_list, List.skipn_all. reflexivity.
Qed.

Lemma rest_from_0 (s : string) : rest_from s 0 = s.
Proof. unfold rest_from. simpl. apply string_of_list_ascii_of_string. Qed.

Lemma chunk_loop_spec (text : string) (max_chars overlap : Z) :
  (1 <= max_chars)%Z -> (0 <= overlap)%Z ->
  forall turns start acc,
    start < String.length text ->
    String.length text - start <= turns ->
    exists cs,
      chunk_loop turns text max_chars overlap (Z.of_nat start) acc = Some (acc ++ cs) /\
      py.concat cs = rest_from text start /\
      well_cut max_chars cs.
Proof.
  intros Hmc Hov. induction turns as [|turns IH]; intros start acc Hstart Hturns; [lia|].
  simpl. unfold py.len at 1.
  destruct (Z.ltb_spec (Z.of_nat start) (Z.of_nat (String.length text))); [|lia].
  destruct (Z.le_gt_cases (Z.of_nat (String.length text)) (Z.of_nat start + max_chars))
    as [Hlast|Hmore].
  - (* the last chunk *)
    unfold py.len. rewrite Z.min_r by lia.
    destruct (Z.geb_spec (Z.max (Z.of_nat start + max_chars - overlap)
                                (Z.of_nat (String.length text)))
                         (Z.of_nat (String.length text))); [|lia].
    exists [py.str_slice text (Z.of_nat start) (Z.of_nat (String.length text))].
    split; [reflexivity|]. split.
    + simpl. rewrite <- (slice_then_rest text start (String.length text)) by lia.
      now rewrite rest_from_end.
    + split.
      * constructor; [|constructor]. unfold py.len.
        rewrite str_slice_length by lia. lia.
      * intros i c _ Hi. simpl in Hi. lia.
  - (* a full chunk, and more text after it *)
    unfold py.len. rewrite Z.min_l by lia.
    rewrite Z.max_r by lia.
    destruct (Z.geb_spec (Z.of_nat start + max_chars) (Z.of_nat (String.length text)));
      [lia|].
    replace (Z.of_nat start + max_chars)%Z
      with (Z.of_nat (start + Z.to_nat max_chars)) by lia.
    destruct (IH (start + Z.to_nat max_chars)
                 (acc ++ [py.str_slice text (Z.of_nat start)
                                       (Z.of_nat (start + Z.to_nat max_chars))]))
      as (cs & Hrun & Hcat & Hall & Hfull); [lia|lia|].
    exists (py.str_slice text (Z.of_nat start) (Z.of_nat (start + Z.to_nat max_chars)) :: cs).
    split; [rewrite Hrun, <- List.app_assoc; reflexivity|]. split.
    + simpl. rewrite Hcat. apply slice_then_rest. lia.
    + assert (Hlen : py.len (py.str_slice text (Z.of_nat start)
                               (Z.of_nat (start + Z.to_nat max_chars))) = max_chars).
      { unfold py.len. rewrite str_slice_length by lia. lia. }
      split.
      * constructor; [lia|exact Hall].
      * intros [|i] c Hc Hi; simpl in Hc.
        -- injection Hc as <-. exact Hlen.
        -- apply (Hfull i c Hc). simpl in Hi. lia.
Qed.

Lemma chunk_text_spec (text : string) (max_chars overlap : Z) (turns : nat) :
  (1 <= max_chars)%Z -> (0 <= overlap)%Z -> String.length text <= turns ->
  exists chunks,
    chunk_text turns text max_chars overlap = Some chunks /\
    py.concat chunks = text /\
    well_cut max_chars chunks.
Proof.
  intros Hmc Hov Hturns. unfold chunk_text.
  destruct text as [|c text]; simpl py.str_falsy; cbv iota.
  - exists []. split; [reflexivity|]. split; [reflexivity|]. split; [constructor|].
    intros i c Hc. discriminate Hc.
  - destruct (chunk_loop_spec (String c text) max_chars overlap Hmc Hov turns 0 [])
      as (cs & Hrun & Hcat & Hcut); [simpl; lia|simpl in *; lia|].
    exists cs. split; [exact Hrun|]. split; [|exact Hcut].
    rewrite Hcat. apply rest_from_0.
Qed.

Lemma append_length (a b : string) :
  String.length (String.append a b) = String.length a + String.length b.
Proof.
  induction a as [|x a IH]; [reflexivity|].
  change (S (String.length (String.append a b)) = S (String.length a) + String.length b).
  now rewrite IH.
Qed.

Lemma concat_length (cs : list string) :
  List.Forall (fun c => (1 <= py.len c)%Z) cs ->
  List.length cs <= String.length (py.concat cs).
Proof.
  induction 1 as [|c cs Hc _ IH]; simpl; [lia|].
  rewrite append_length. unfold py.len in Hc. lia.
Qed.

(** X21.  With [max_chars] of at least 1 and an [overlap] that is not
    negative, [chunk_text] ends within one turn per character and cuts the
    text into consecutive pieces: joined they give the text back, each has
    between 1 and [max_chars] characters, all but the last exactly
    [max_chars], and there are no more pieces than characters. *)
Theorem chunk_text_partitions (text : string) (max_chars overlap : Z) (turns : nat) :
  (1 <= max_chars)%Z -> (0 <= overlap)%Z -> String.length text <= turns ->
  exists chunks,
    chunk_text turns text max_chars overlap = Some chunks /\
    py.concat chunks = text /\
    well_cut max_chars chunks /\
    List.length chunks <= String.length text.
Proof.
  intros Hmc Hov Hturns.
  destruct (chunk_text_spec text max_chars overlap turns Hmc Hov Hturns)
    as (chunks & Hrun & Hcat & Hcut).
  exists chunks. split; [exact Hrun|]. split; [exact Hcat|]. split; [exact Hcut|].
  rewrite <- Hcat. apply concat_length.
  destruct Hcut as [Hall _]. eapply List.Forall_impl; [|exact Hall].
  intros c Hc. simpl in Hc. lia.
Qed.

Lemma chunk_loop_ignores_overlap (text : string) (max_chars overlap : Z) :
  (1 <= max_chars)%Z -> (0 <= overlap)%Z ->
  forall turns start acc,
    chunk_loop turns text max_chars overlap start acc
    = chunk_loop turns text max_chars 0 start acc.
Proof.
  intros Hmc Hov. induction turns as [|turns IH]; intros start acc; simpl; [reflexivity|].
  destruct (Z.ltb_spec start (py.len text)); [|reflexivity].
  destruct (Z.le_gt_cases (py.len text) (start + max_chars)) as [Hlast|Hmore].
  - rewrite Z.min_r by lia.
    destruct (Z.geb_spec (Z.max (start + max_chars - overlap) (py.len text)) (py.len text));
      [|lia].
    destruct (Z.geb_spec (Z.max (start + max_chars - 0) (py.len text)) (py.len text));
      [reflexivity|lia].
  - rewrite Z.min_l by lia. rewrite !Z.max_r by lia.
    destruct (Z.geb_spec (start + max_chars) (py.len text)); [reflexivity|apply IH].
Qed.

(** X22.  With [max_chars] of at least 1, an [overlap] that is not negative
    has no effect on [chunk_text]: the result is the one for overlap 0, the
    pieces never share a character. *)
Theorem chunk_text_ignores_overlap (text : string) (max_chars overlap : Z) (turns : nat) :
  (1 <= max_chars)%Z -> (0 <= overlap)%Z ->
  chunk_text turns text max_chars overlap = chunk_text turns text max_chars 0.
Proof.
  intros Hmc Hov. unfold chunk_text. destruct (py.str_falsy text); [reflexivity|].
  now apply chunk_loop_ignores_overlap.
Qed.

(** X23.  With [max_chars] of 0 or less and an [overlap] that is not
    negative, [chunk_text] on a text that is not empty never returns: however
    many turns the loop is given, it is still running. *)
Theorem chunk_text_never_ends (text : string) (max_chars overlap : Z) (turns : nat) :
  text <> EmptyString -> (max_chars <= 0)%Z -> (0 <= overlap)%Z ->
  chunk_text turns text max_chars overlap = None.
Proof.
  intros Htext Hmc Hov. unfold chunk_text.
  destruct text as [|c text]; [congruence|]. simpl py.str_falsy. cbv iota.
  assert (Hloop : forall turns start acc,
             (start <= 0)%Z ->
             chunk_loop turns (String c text) max_chars overlap start acc = None).
  { clear turns. induction turns as [|turns IH]; intros start acc Hstart; [reflexivity|].
    simpl chunk_loop. unfold py.len. simpl String.length.
    destruct (Z.ltb_spec start (Z.of_nat (S (String.length text)))); [|lia].
    destruct (Z.geb_spec (Z.max (start + max_chars - overlap)
                                (Z.min (start + max_chars) (Z.of_nat (S (String.length text)))))
                         (Z.of_nat (S (String.length text)))); [lia|].
    apply IH. lia. }
  apply Hloop. lia.
Qed.

Lemma chunk_dicts_texts (source : string) (extra : Doc) (pieces : list string) :
  extra !! "text"%string = None -> extra !! "source"%string = None ->
  forall i,
    map text_of (chunk_dicts source extra i pieces) = pieces /\
    List.Forall (fun c => c !! "source"%string = Some source)
                (chunk_dicts source extra i pieces) /\
    List.length (chunk_dicts source extra i pieces) = List.length pieces.
Proof.
  unfold Doc in *.
  intros Htext Hsource. induction pieces as [|piece rest IH]; intros i; simpl.
  - repeat split. constructor.
  - destruct (IH (S i)) as (Ht & Hs & Hl). split; [|split].
    + f_equal; [|exact Ht]. unfold text_of, Doc.
      rewrite lookup_union_r by exact Htext. now simplify_map_eq.
    + constructor; [|exact Hs]. cbv beta. unfold Doc.
      rewrite lookup_union_r by exact Hsource. now simplify_map_eq.
    + now rewrite Hl.
Qed.

Lemma append_assoc (a b c : string) :
  String.append (String.append a b) c = String.append a (String.append b c).
Proof.
  induction a as [|x a IH]; [reflexivity|].
  change (String x (String.append (String.append a b) c)
          = String x (String.append a (String.append b c))).
  now rewrite IH.
Qed.

Lemma concat_app (a b : list string) :
  py.concat (a ++ b) = String.append (py.concat a) (py.concat b).
Proof.
  unfold py.concat. induction a as [|x a IH]; simpl; [reflexivity|].
  rewrite IH. now rewrite append_assoc.
Qed.

(** X24.  With [max_chars] of at least 1 and an [overlap] that is not
    negative, [prepare_documents] returns chunks whose texts, joined in
    order, are the texts of the documents joined in order; no chunk is empty
    or longer than [max_chars], so a document without text yields no chunk. *)
Theorem prepare_documents_keeps_the_text (raw_docs : list Doc)
  (max_chars overlap : Z) (turns : nat) :
  (1 <= max_chars)%Z -> (0 <= overlap)%Z ->
  List.Forall (fun doc => String.length (text_of doc) <= turns) raw_docs ->
  exists prepared,
    prepare_documents turns raw_docs max_chars overlap = Some prepared /\
    py.concat (map text_of prepared) = py.concat (map text_of raw_docs) /\
    List.Forall (fun c => (1 <= py.len (text_of c) <= max_chars)%Z) prepared.
Proof.
  intros Hmc Hov. unfold prepare_documents. generalize 0 as doc_idx.
  induction raw_docs as [|doc rest IH]; intros doc_idx Hturns; simpl.
  - exists []. repeat split. constructor.
  - inversion Hturns as [|? ? Hdoc Hrest]; subst.
    destruct (chunk_text_spec (text_of doc) max_chars overlap turns)
      as (pieces & Hrun & Hcat & Hcut & _); try assumption.
    destruct (IH (S doc_idx) Hrest) as (prepared & Hprep & Hcat' & Hall).
    unfold text_of in Hrun at 1. rewrite Hrun, Hprep.
    destruct (chunk_dicts_texts
                (default ("doc_" ++ pretty doc_idx)%string (doc !! "source"%string))
                (delete "text"%string (delete "source"%string doc)) pieces) with (i := 0)
      as (Htexts & _ & _).
    { unfold Doc. apply lookup_delete_eq. }
    { unfold Doc. rewrite lookup_delete_ne by discriminate. apply lookup_delete_eq. }
    eexists. split; [reflexivity|]. split.
    + rewrite List.map_app, concat_app, Htexts, Hcat, Hcat'. reflexivity.
    + apply List.Forall_app. split; [|exact Hall].
      apply List.Forall_forall. intros c Hin.
      apply (List.in_map text_of) in Hin. rewrite Htexts in Hin.
      apply (proj1 (List.Forall_forall _ _) Hcut _ Hin).
Qed.

(** X21, witness: eleven characters in pieces of four. *)
Lemma chunk_text_partitions_witness :
  exists chunks,
    chunk_text 11 "hello world" 4 1 = Some chunks /\
    py.concat chunks = "hello world"%string /\
    well_cut 4 chunks /\
    List.length chunks <= 11.
Proof.
  apply (chunk_text_partitions "hello world" 4 1 11); [lia|lia|simpl; lia].
Defined.

(** X22, witness: an overlap of 1 changes nothing. *)
Lemma chunk_text_ignores_overlap_witness :
  chunk_text 11 "hello world" 4 1 = chunk_text 11 "hello world" 4 0.
Proof.
  apply (chunk_text_ignores_overlap "hello world" 4 1 11); lia.
Defined.

(** X23, witness: pieces of no character at all. *)
Lemma chunk_text_never_ends_witness :
  chunk_text 1000 "hello world" 0 0 = None.
Proof.
  apply (chunk_text_never_ends "hello world" 0 0 1000); [discriminate|lia|lia].
Defined.

(** X24, witness: one document of eleven characters. *)
Lemma prepare_documents_keeps_the_text_witness :
  exists prepared,
    prepare_documents 11 [examples.doc1] 4 1 = Some prepared /\
    py.concat (map text_of prepared) = py.concat (map text_of [examples.doc1]) /\
    List.Forall (fun c => (1 <= py.len (text_of c) <= 4)%Z) prepared.
Proof.
  apply (prepare_documents_keeps_the_text [examples.doc1] 4 1 11); [lia|lia|].
  constructor; [|constructor]. vm_compute. lia.
Defined.

End data_laws.
